(** * CocaKE data pipeline (doc.py): a shallow embedding and its properties

    The development follows [src/CocaKE_ver3/doc.py]: the Python primitives
    the module relies on, [Example] and its text accessors, [load_data] and
    [Dataset], the collation helper [to_indices_and_mask], and the
    [RelationBatchSampler].

    Conventions.  Python [int] is [Z]; [str] is [string]; a [dict] is a
    [gmap]; a [list] is a [list]; a raised exception is the [Raise] branch of
    [result].  External collaborators (entity directory, link graph,
    tokenizer, triplet reversal) and the pseudo-random source are parameters
    of the sections that use them. *)

From Stdlib Require Import ZArith Lia Ascii.
From Stdlib Require Import Floats.SpecFloat.
From stdpp Require Import gmap strings list fin_maps pretty.

Open Scope Z_scope.

(** ** Python exceptions and fallible computations *)

Inductive exn :=
  | KeyError | IndexError | ValueError | TypeError
  | AssertionError | OverflowError | FileNotFoundError.

Inductive result (A : Type) :=
  | Ok (a : A)
  | Raise (e : exn).
Arguments Ok {A} a.
Arguments Raise {A} e.

#[global] Instance result_ret : MRet result := @Ok.
#[global] Instance result_bind : MBind result := fun A B f r =>
  match r with
  | Ok a => f a
  | Raise e => Raise e
  end.

Definition py_assert (b : bool) : result unit :=
  if b then Ok tt else Raise AssertionError.

(** [d[k]] on a dict: [KeyError] when the key is absent. *)
Definition getitem `{Countable K} {V} (d : gmap K V) (k : K) : result V :=
  match d !! k with
  | Some v => Ok v
  | None => Raise KeyError
  end.

(** [mapM]: a comprehension whose body may raise. *)
Fixpoint mapM {A B} (f : A -> result B) (l : list A) : result (list B) :=
  match l with
  | [] => Ok []
  | x :: l' => y ← f x; ys ← mapM f l'; Ok (y :: ys)
  end.

(** [int(b)] for a flag. *)
Definition bool_to_nat (b : bool) : nat := if b then 1%nat else 0%nat.

(** [l[:n]] with Python's treatment of a negative bound. *)
Definition slice_to {A} (l : list A) (n : Z) : list A :=
  if 0 <=? n then take (Z.to_nat n) l
  else take (length l - Z.to_nat (- n)) l.

(** [list(set(l))]: the distinct elements of [l].  CPython's iteration
    order over a set is an implementation detail; the model keeps the first
    occurrence of each element, and no statement below depends on the order. *)
Definition list_set `{EqDecision A} (l : list A) : list A := remove_dups l.

(** [max(l)] over a list of lengths: [ValueError] on the empty list. *)
Definition py_max (l : list nat) : result nat :=
  match l with
  | [] => Raise ValueError
  | x :: l' => Ok (foldl Nat.max x l')
  end.

(** ** Collation: [to_indices_and_mask] *)

(** A one-dimensional tensor is the list of its entries, a two-dimensional
    one the list of its rows. *)
Abbreviation tensor1 := (list Z).
Abbreviation tensor2 := (list (list Z)).

(** [torch.LongTensor(rows, cols).fill_(v)] *)
Definition full (rows cols : nat) (v : Z) : tensor2 :=
  replicate rows (replicate cols v).

(** [row[:len(t)].copy_(t)]: entry [j] of the row receives [t[j]]. *)
Definition copy_prefix (row t : tensor1) : tensor1 :=
  foldl (fun r jx => <[jx.1 := jx.2]> r) row (imap pair t).

(** [row[:n].fill_(v)] *)
Definition fill_prefix (row : tensor1) (n : nat) (v : Z) : tensor1 :=
  foldl (fun r j => <[j := v]> r) row (seq 0 n).

(** What the function returns: a pair with [need_mask], else the matrix. *)
Inductive padded :=
  | IndicesMask (indices mask : tensor2)
  | Indices (indices : tensor2).

Definition padded_indices (p : padded) : tensor2 :=
  match p with IndicesMask i _ => i | Indices i => i end.

(** The loop body of [to_indices_and_mask] for row [i] and tensor [t]. *)
Definition pad_step (need_mask : bool) (st : tensor2 * tensor2)
    (it : nat * tensor1) : tensor2 * tensor2 :=
  let '(indices, mask) := st in
  let '(i, t) := it in
  (alter (fun row => copy_prefix row t) i indices,
   if need_mask then alter (fun row => fill_prefix row (length t) 1) i mask
   else mask).

Definition to_indices_and_mask (batch_tensor : list tensor1)
    (pad_token_id : Z) (need_mask : bool) : result padded :=
  mx_len ← py_max (length <$> batch_tensor);
  let batch_size := length batch_tensor in
  let indices := full batch_size mx_len pad_token_id in
  let mask := if need_mask then full batch_size mx_len 0 else [] in
  let '(indices, mask) :=
    foldl (pad_step need_mask) (indices, mask) (imap pair batch_tensor) in
  if need_mask then Ok (IndicesMask indices mask) else Ok (Indices indices).

(** ** Strings

    A [str] is the list of its characters, each a code point below 256. *)

(** [s[:n]] and [s[n:]] for a non-negative [n]. *)
Fixpoint str_take (n : nat) (s : string) : string :=
  match n, s with
  | S n', String c s' => String c (str_take n' s')
  | _, _ => EmptyString
  end.

Fixpoint str_drop (n : nat) (s : string) : string :=
  match n, s with
  | S n', String _ s' => str_drop n' s'
  | _, _ => s
  end.

(** [s.lower()]: the capital letters among the code points below 256 are
    65 to 90 and 192 to 222 without the multiplication sign 215; each has
    its small letter 32 places on. *)
Definition lower_ascii (c : ascii) : ascii :=
  let n := nat_of_ascii c in
  if (((65 <=? n)%nat && (n <=? 90)%nat)
      || ((192 <=? n)%nat && (n <=? 222)%nat && negb (n =? 215)%nat))%bool
  then ascii_of_nat (n + 32) else c.

Fixpoint lower (s : string) : string :=
  match s with
  | EmptyString => EmptyString
  | String c s' => String (lower_ascii c) (lower s')
  end.

(** [s.split(sep)] for a one-character separator: never the empty list. *)
Fixpoint split_on (sep : ascii) (s : string) : list string :=
  match s with
  | EmptyString => [EmptyString]
  | String c s' =>
      if bool_decide (c = sep) then EmptyString :: split_on sep s'
      else match split_on sep s' with
           | [] => [String c EmptyString]
           | w :: ws => String c w :: ws
           end
  end.

(** [sep.join(l)] *)
Fixpoint join (sep : string) (l : list string) : string :=
  match l with
  | [] => EmptyString
  | [w] => w
  | w :: ws => w +:+ sep +:+ join sep ws
  end.

(** [c.isspace()] for a code point below 256: the characters
    [str.strip()] removes and [str.split()] splits on are the controls 9
    to 13 (tab, line feed, vertical tab, form feed, carriage return), the
    separators 28 to 31, the space 32, the next-line control 133 and the
    no-break space 160. *)
Definition isspace (c : ascii) : bool :=
  let n := nat_of_ascii c in
  ((9 <=? n)%nat && (n <=? 13)%nat) || ((28 <=? n)%nat && (n <=? 32)%nat)
  || (n =? 133)%nat || (n =? 160)%nat.

(** [s.lstrip()], [s.strip()] *)
Fixpoint lstrip (s : string) : string :=
  match s with
  | String c s' => if isspace c then lstrip s' else s
  | EmptyString => EmptyString
  end.

Definition strip (s : string) : string :=
  String.rev (lstrip (String.rev (lstrip s))).

(** [s.split()]: the maximal runs of characters that are not white
    space; [w] is the run being read, its characters in reverse. *)
Fixpoint split_ws_from (w : option string) (s : string) : list string :=
  match s with
  | EmptyString =>
      match w with Some x => [String.rev x] | None => [] end
  | String c s' =>
      if isspace c
      then match w with
           | Some x => String.rev x :: split_ws_from None s'
           | None => split_ws_from None s'
           end
      else split_ws_from
             (Some (String c (match w with Some x => x | None => EmptyString end)))
             s'
  end.

Definition split_ws (s : string) : list string := split_ws_from None s.

(** [len(s.split())]: the number of white-space separated words. *)
Definition word_count (s : string) : nat := length (split_ws s).

(** ** Configuration ([config.args]) *)

Record Args := {
  task : string;
  use_link_graph : bool;
  is_test : bool;
  max_num_tokens : Z;
  args_batch_size : Z;
  args_cake_ratio : spec_float
}.

(** ** The entity directory and the log of its consultations *)

Record EntityExample := { entity : string; entity_desc : string }.

(** A computation that consults the entity directory: the ids it asked
    for, in order, and what it returned or raised. *)
Record dir (A : Type) := Dir { lookups : list string; outcome : result A }.
Arguments Dir {A} lookups outcome.
Arguments lookups {A} d.
Arguments outcome {A} d.

#[global] Instance dir_ret : MRet dir := fun A a => Dir [] (Ok a).
#[global] Instance dir_bind : MBind dir := fun A B f d =>
  match outcome d with
  | Ok a => Dir (lookups d ++ lookups (f a)) (outcome (f a))
  | Raise e => Dir (lookups d) (Raise e)
  end.

Fixpoint dir_mapM {A B} (f : A -> dir B) (l : list A) : dir (list B) :=
  match l with
  | [] => mret []
  | x :: l' => y ← f x; ys ← dir_mapM f l'; mret (y :: ys)
  end.

(** A hypothesis [H : x ∈ lookups (mret a)] is absurd. *)
Ltac no_lookup H :=
  exfalso;
  match type of H with
  | ?x ∈ _ => change (x ∈ @nil string) in H; by apply elem_of_nil in H
  end.

(** What the tokenizer returns: [input_ids] and [token_type_ids]. *)
Record Encoded := { input_ids : list Z; token_type_ids : list Z }.

Record Example := { head_id : string; relation : string; tail_id : string }.

#[global] Instance Example_eq_dec : EqDecision Example.
Proof. solve_decision. Defined.

(** What [vectorize] returns. *)
Record Vectorized := {
  hr_token_ids : list Z;
  hr_token_type_ids : list Z;
  tail_token_ids : list Z;
  tail_token_type_ids : list Z;
  head_token_ids : list Z;
  head_token_type_ids : list Z;
  obj : Example
}.

Section Example.
Variable args : Args.
(** [entity_dict.get_entity_by_id]: [None] where the directory fails. *)
Variable entity_dict : string -> option EntityExample.
(** [get_link_graph().get_neighbor_ids] *)
Variable get_neighbor_ids : string -> list string.
(** [get_tokenizer()(text, text_pair, max_length)] *)
Variable tokenizer : string -> option string -> Z -> Encoded.

Definition get_entity_by_id (entity_id : string) : dir EntityExample :=
  Dir [entity_id]
      (match entity_dict entity_id with
       | Some e => Ok e
       | None => Raise KeyError
       end).

Definition _custom_tokenize (text : string) (text_pair : option string)
    : Encoded :=
  tokenizer text
    (match text_pair with
     | Some p => if bool_decide (p = EmptyString) then None else Some p
     | None => None
     end)
    (max_num_tokens args).

Definition _parse_entity_name (entity : string) : string :=
  if bool_decide (lower (task args) = "wn18rr"%string)
  then join " " (slice_to (split_on "_"%char entity) (-2))
  else entity.

Definition _concat_name_desc (entity entity_desc : string) : string :=
  let entity_desc :=
    if String.prefix entity entity_desc
    then strip (str_drop (String.length entity) entity_desc)
    else entity_desc in
  if bool_decide (entity_desc = EmptyString) then entity
  else entity +:+ ": " +:+ entity_desc.

Definition get_neighbor_desc (head_id tail_id : string) : dir string :=
  let neighbor_ids := get_neighbor_ids head_id in
  let neighbor_ids :=
    if is_test args then neighbor_ids
    else filter (fun n_id => n_id <> tail_id) neighbor_ids in
  entities ← dir_mapM (fun n_id => e ← get_entity_by_id n_id; mret (entity e))
                      neighbor_ids;
  let entities := _parse_entity_name <$> entities in
  mret (join " " entities).

Definition head_desc (self : Example) : dir string :=
  if bool_decide (head_id self = EmptyString) then mret EmptyString
  else e ← get_entity_by_id (head_id self); mret (entity_desc e).

Definition tail_desc (self : Example) : dir string :=
  e ← get_entity_by_id (tail_id self); mret (entity_desc e).

Definition head (self : Example) : dir string :=
  if bool_decide (head_id self = EmptyString) then mret EmptyString
  else e ← get_entity_by_id (head_id self); mret (entity e).

Definition tail (self : Example) : dir string :=
  e ← get_entity_by_id (tail_id self); mret (entity e).

(** The link-graph branch of [vectorize]: a short description gets the
    neighbours' names appended. *)
Definition augment (desc : string) (of_id other_id : string) : dir string :=
  if bool_decide (word_count desc < 20)%nat
  then nd ← get_neighbor_desc of_id other_id; mret (desc +:+ " " +:+ nd)
  else mret desc.

Definition vectorize (self : Example) : dir Vectorized :=
  hd ← head_desc self;
  td ← tail_desc self;
  hd ← (if use_link_graph args
        then augment hd (head_id self) (tail_id self) else mret hd);
  td ← (if use_link_graph args
        then augment td (tail_id self) (head_id self) else mret td);
  h ← head self;
  let head_word := _parse_entity_name h in
  let head_text := _concat_name_desc head_word hd in
  let hr_encoded_inputs := _custom_tokenize head_text (Some (relation self)) in
  let head_encoded_inputs := _custom_tokenize head_text None in
  t ← tail self;
  let tail_word := _parse_entity_name t in
  let tail_encoded_inputs :=
    _custom_tokenize (_concat_name_desc tail_word td) None in
  mret {| hr_token_ids := input_ids hr_encoded_inputs;
          hr_token_type_ids := token_type_ids hr_encoded_inputs;
          tail_token_ids := input_ids tail_encoded_inputs;
          tail_token_type_ids := token_type_ids tail_encoded_inputs;
          head_token_ids := input_ids head_encoded_inputs;
          head_token_type_ids := token_type_ids head_encoded_inputs;
          obj := self |}.
End Example.

(** ** [load_data] and [Dataset] *)

(** [s.endswith(suffix)] *)
Definition endswith (s suffix : string) : bool :=
  String.prefix (String.rev suffix) (String.rev s).

(** A triplet object of an input file: a JSON object with string values. *)
Abbreviation json_obj := (gmap string string).

(** [Example] built from an unpacked object: the three identifiers are
    required ([TypeError] without them), any other key is accepted and
    dropped. *)
Definition Example_init (o : json_obj) : result Example :=
  match o !! "head_id"%string, o !! "relation"%string, o !! "tail_id"%string with
  | Some h, Some r, Some t =>
      Ok {| head_id := h; relation := r; tail_id := t |}
  | _, _, _ => Raise TypeError
  end.

Section Loading.
(** [triplet.reverse_triplet], an external helper. *)
Variable reverse_triplet : json_obj -> result json_obj.
(** The file system after [json.load]: the triplet objects of the file at
    a path, [None] where there is no such file. *)
Variable fs : string -> option (list json_obj).

Definition path_exists (path : string) : bool :=
  match fs path with Some _ => true | None => false end.

(** The body of the loop of [load_data], with [examples] threaded. *)
Fixpoint load_loop (add_forward_triplet add_backward_triplet : bool)
    (data : list json_obj) (examples : list Example)
    : result (list Example) :=
  match data with
  | [] => Ok examples
  | o :: data' =>
      examples ← (if add_forward_triplet
                  then e ← Example_init o; Ok (examples ++ [e])
                  else Ok examples);
      examples ← (if add_backward_triplet
                  then o' ← reverse_triplet o; e ← Example_init o';
                       Ok (examples ++ [e])
                  else Ok examples);
      load_loop add_forward_triplet add_backward_triplet data' examples
  end.

(** What one triplet object adds to [examples] in a turn of that loop. *)
Definition contribution (add_forward_triplet add_backward_triplet : bool)
    (o : json_obj) : result (list Example) :=
  f ← (if add_forward_triplet then e ← Example_init o; Ok [e] else Ok []);
  b ← (if add_backward_triplet
       then o' ← reverse_triplet o; e ← Example_init o'; Ok [e] else Ok []);
  Ok (f ++ b).

Definition load_data (path : string)
    (add_forward_triplet add_backward_triplet : bool)
    : result (list Example) :=
  _ ← py_assert (endswith path ".json");
  _ ← py_assert (add_forward_triplet || add_backward_triplet);
  data ← (match fs path with
          | Some d => Ok d
          | None => Raise FileNotFoundError
          end);
  load_loop add_forward_triplet add_backward_triplet data [].

(** The loop of [Dataset.__init__] over [path_list]. *)
Fixpoint load_paths (path_list : list string) (examples : list Example)
    : result (list Example) :=
  match path_list with
  | [] => Ok examples
  | path :: rest =>
      loaded ← load_data path true true;
      load_paths rest
        (match examples with
         | [] => loaded
         | _ :: _ => examples ++ loaded
         end)
  end.
End Loading.

Module Dataset.

Record t := {
  path_list : list string;
  task : string;
  examples : list Example;
  rels : list string;
  rel2ent_t : gmap string (gmap string (list nat));
  rel_ex_cnt : gmap string Z;
  rel_hent : gmap string (list string);
  ex_hid : gmap nat string;
  idx2example : gmap nat Example
}.

(** The dictionary [ds_info] returns, by value. *)
Record info := {
  info_rels : list string;
  info_rel2ent_t : gmap string (gmap string (list nat));
  info_rel_ex_cnt : gmap string Z;
  info_ex_cnt : nat;
  info_ex_hid : gmap nat string;
  info_id2example : gmap nat Example
}.

Section Init.
Variable entity_dict : string -> option EntityExample.
Variable reverse_triplet : json_obj -> result json_obj.
Variable fs : string -> option (list json_obj).

(** One turn of the indexing loop of [__init__], for example [i]. *)
Definition index_example (self : t) (i : nat) (example : Example)
    : dir t :=
  let r := relation example in
  let idx2example' := <[i := example]> (idx2example self) in
  let ex_hid' := <[i := head_id example]> (ex_hid self) in
  let rels' := rels self ++ [r] in
  let rel2ent_t' :=
    match rel2ent_t self !! r with
    | Some ents => <[r := <[tail_id example := [i]]> ents]> (rel2ent_t self)
    | None => <[r := <[tail_id example := [i]]> ∅]> (rel2ent_t self)
    end in
  let rel_ex_cnt' :=
    match rel_ex_cnt self !! r with
    | Some c => <[r := c + 1]> (rel_ex_cnt self)
    | None => <[r := 1]> (rel_ex_cnt self)
    end in
  h ← head entity_dict example;
  let rel_hent' :=
    match rel_hent self !! r with
    | Some hs => <[r := hs ++ [h]]> (rel_hent self)
    | None => <[r := [h]]> (rel_hent self)
    end in
  mret {| path_list := path_list self; task := task self;
          examples := examples self;
          rels := rels'; rel2ent_t := rel2ent_t';
          rel_ex_cnt := rel_ex_cnt'; rel_hent := rel_hent';
          ex_hid := ex_hid'; idx2example := idx2example' |}.

(** [for i, example in enumerate(...)], from index [i] on. *)
Fixpoint index_loop (self : t) (i : nat) (exs : list Example) : dir t :=
  match exs with
  | [] => mret self
  | example :: exs' =>
      self ← index_example self i example;
      index_loop self (S i) exs'
  end.

(** [Dataset(path, task, examples)]; [None] for [examples] is [[]]. *)
Definition init (path task : string) (exs : list Example) : dir t :=
  let path_list := split_on ","%char path in
  match py_assert (forallb (path_exists fs) path_list
                   || negb (bool_decide (exs = []))) with
  | Raise e => Dir [] (Raise e)
  | Ok _ =>
      match (match exs with
             | _ :: _ => Ok exs
             | [] => load_paths reverse_triplet fs path_list []
             end) with
      | Raise e => Dir [] (Raise e)
      | Ok examples =>
          index_loop {| path_list := path_list; task := task;
                        examples := examples;
                        rels := []; rel2ent_t := ∅; rel_ex_cnt := ∅;
                        rel_hent := ∅; ex_hid := ∅; idx2example := ∅ |}
                     0%nat examples
      end
  end.
End Init.

(** [len(dataset)] *)
Definition len (self : t) : nat := length (examples self).

(** [dataset[index]] *)
Definition getitem_ (args : Args) entity_dict get_neighbor_ids tokenizer
    (self : t) (index : nat) : dir Vectorized :=
  match examples self !! index with
  | Some e => vectorize args entity_dict get_neighbor_ids tokenizer e
  | None => Dir [] (Raise IndexError)
  end.

(** [ds_info()] read by value: what a consumer sees in the returned
    dictionary.  Which of its entries are copies and which are the
    dataset's own objects is the subject of [Store] below. *)
Definition ds_info (self : t) : info :=
  {| info_rels := rels self;
     info_rel2ent_t := rel2ent_t self;
     info_rel_ex_cnt := rel_ex_cnt self;
     info_ex_cnt := length (examples self);
     info_ex_hid := ex_hid self;
     info_id2example := idx2example self |}.

(** The buckets of [rel2ent_t] example index [i] is a member of. *)
Definition buckets_of (self : t) (i : nat) : list (string * string) :=
  r_ents ← map_to_list (rel2ent_t self);
  t_exs ← map_to_list (r_ents.2 : gmap string (list nat));
  if bool_decide (i ∈ (t_exs.2 : list nat)) then [(r_ents.1, t_exs.1)]
  else [].

End Dataset.

(** ** The object store: which objects [ds_info] shares

    Lists and dictionaries are mutable objects reached through references.
    The store maps a location to the object that lives there; a container
    holds immediate values or references to other objects. *)

Module Store.

Abbreviation loc := nat.

Inductive value :=
  | VInt (n : Z)
  | VStr (s : string)
  | VExample (e : Example)
  | VRef (l : loc).

(** Dictionary keys: strings (relations, entities) or integers (indices). *)
Abbreviation key := (string + Z)%type.

Inductive object :=
  | OList (items : list value)
  | ODict (entries : gmap key value).

Abbreviation heap := (list object).

Definition alloc (h : heap) (o : object) : heap * loc :=
  (h ++ [o], length h).

(** [copy.copy(x)] for a list or a dictionary: a new object with the same
    items, the items themselves are not copied. *)
Definition copy (h : heap) (l : loc) : result (heap * loc) :=
  match h !! l with
  | Some o => Ok (alloc h o)
  | None => Raise ValueError
  end.

(** [len(x)] *)
Definition len (h : heap) (l : loc) : result Z :=
  match h !! l with
  | Some (OList items) => Ok (Z.of_nat (length items))
  | Some (ODict entries) => Ok (Z.of_nat (size entries))
  | None => Raise ValueError
  end.

(** The attributes of a [Dataset] object that [ds_info] reads. *)
Record self := {
  examples : loc;
  rels : loc;
  rel2ent_t : loc;
  rel_ex_cnt : loc;
  ex_hid : loc;
  idx2example : loc
}.

(** The dictionary literal [ds_info] returns: one field per key. *)
Record info := {
  info_rels : loc;
  info_rel2ent_t : loc;
  info_rel_ex_cnt : loc;
  info_ex_cnt : Z;
  info_ex_hid : loc;
  info_id2example : loc
}.

Definition ds_info (h : heap) (s : self) : result (heap * info) :=
  '(h, c_rels) ← copy h (rels s);
  '(h, c_rel2ent_t) ← copy h (rel2ent_t s);
  '(h, c_rel_ex_cnt) ← copy h (rel_ex_cnt s);
  n ← len h (examples s);
  Ok (h, {| info_rels := c_rels;
            info_rel2ent_t := c_rel2ent_t;
            info_rel_ex_cnt := c_rel_ex_cnt;
            info_ex_cnt := n;
            info_ex_hid := ex_hid s;
            info_id2example := idx2example s |}).

(** *** Reading a structure to a given depth *)

#[local] Unset Elimination Schemes.
Inductive tree :=
  | TInt (n : Z)
  | TStr (s : string)
  | TExample (e : Example)
  | TList (items : list tree)
  | TDict (entries : list (key * tree))
  | TCut.
#[local] Set Elimination Schemes.

Fixpoint read (depth : nat) (h : heap) (v : value) : tree :=
  match v with
  | VInt n => TInt n
  | VStr s => TStr s
  | VExample e => TExample e
  | VRef l =>
      match depth with
      | O => TCut
      | S d =>
          match h !! l with
          | Some (OList items) => TList (read d h <$> items)
          | Some (ODict entries) =>
              TDict (prod_map id (read d h) <$> map_to_list entries)
          | None => TCut
          end
      end
  end.

(** The references an object holds. *)
Definition value_refs (v : value) : list loc :=
  match v with VRef l => [l] | _ => [] end.

Definition refs (o : object) : list loc :=
  match o with
  | OList items => items ≫= value_refs
  | ODict entries => (map_to_list entries).*2 ≫= value_refs
  end.

(** No object of the store refers outside the store. *)
Definition closed (h : heap) : bool :=
  forallb (fun o => forallb (fun l => l <? length h)%nat (refs o)) h.

(** The attributes of [s] are objects of the store. *)
Definition allocated (h : heap) (s : self) : bool :=
  forallb (fun l => l <? length h)%nat
    [examples s; rels s; rel2ent_t s; rel_ex_cnt s; ex_hid s; idx2example s].

(** *** Mutations a holder of the returned dictionary can perform *)

(** Any in-place change of the object at [l] (append, pop, item
    assignment, clear, ...) leaves some object [o] there. *)
Definition mutate (h : heap) (l : loc) (o : object) : heap := <[l := o]> h.

(** [d[k]] *)
Definition dict_get (h : heap) (d : loc) (k : key) : option value :=
  match h !! d with
  | Some (ODict entries) => entries !! k
  | _ => None
  end.

(** [d[k].clear()], a mutation of a nested value of [d]. *)
Definition clear_nested (h : heap) (d : loc) (k : key) : heap :=
  match dict_get h d k with
  | Some (VRef l) =>
      match h !! l with
      | Some (OList _) => mutate h l (OList [])
      | Some (ODict _) => mutate h l (ODict ∅)
      | None => h
      end
  | _ => h
  end.

(** [d[k] = v] *)
Definition dict_set (h : heap) (d : loc) (k : key) (v : value) : heap :=
  match h !! d with
  | Some (ODict entries) => mutate h d (ODict (<[k := v]> entries))
  | _ => h
  end.

(** *** The objects [Dataset.__init__] leaves behind *)

Definition alloc_bucket (h : heap) (b : list nat) : heap * value :=
  let '(h, l) := alloc h (OList ((fun i => VInt (Z.of_nat i)) <$> b)) in
  (h, VRef l).

(** Allocates the values of an association list, then the dictionary. *)
Fixpoint alloc_entries {V} (alloc_value : heap -> V -> heap * value)
    (h : heap) (kvs : list (string * V)) : heap * list (key * value) :=
  match kvs with
  | [] => (h, [])
  | (k, v) :: kvs' =>
      let '(h, r) := alloc_value h v in
      let '(h, rs) := alloc_entries alloc_value h kvs' in
      (h, (inl k, r) :: rs)
  end.

Definition alloc_dict {V} (alloc_value : heap -> V -> heap * value)
    (h : heap) (m : gmap string V) : heap * value :=
  let '(h, es) := alloc_entries alloc_value h (map_to_list m) in
  let '(h, l) := alloc h (ODict (list_to_map es)) in
  (h, VRef l).

Definition nat_keyed {V} (f : V -> value) (m : gmap nat V) : object :=
  ODict (list_to_map
           ((fun kv => (inr (Z.of_nat kv.1), f kv.2) : key * value)
              <$> map_to_list m)).

(** An allocator keeps the store closed, only extends it, and returns a
    value that points into it. *)
Definition sound {V} (alloc_value : heap -> V -> heap * value) : Prop :=
  forall h v h' r,
    closed h = true -> alloc_value h v = (h', r) ->
    closed h' = true /\ (length h <= length h')%nat /\
    forallb (fun l => l <? length h')%nat (value_refs r) = true.

(** The store after [Dataset.__init__] built [d], and the attributes. *)
Definition of_dataset (d : Dataset.t) : heap * self :=
  let h : heap := [] in
  let '(h, l_examples) := alloc h (OList (VExample <$> Dataset.examples d)) in
  let '(h, l_rels) := alloc h (OList (VStr <$> Dataset.rels d)) in
  let '(h, v_rel2ent_t) :=
    alloc_dict (alloc_dict alloc_bucket) h (Dataset.rel2ent_t d) in
  let '(h, l_rel_ex_cnt) :=
    alloc h (ODict (list_to_map
                      ((fun kv => (inl kv.1, VInt kv.2) : key * value)
                         <$> map_to_list (Dataset.rel_ex_cnt d)))) in
  let '(h, l_ex_hid) := alloc h (nat_keyed VStr (Dataset.ex_hid d)) in
  let '(h, l_idx2example) :=
    alloc h (nat_keyed VExample (Dataset.idx2example d)) in
  (h, {| examples := l_examples; rels := l_rels;
         rel2ent_t := match v_rel2ent_t with VRef l => l | _ => O end;
         rel_ex_cnt := l_rel_ex_cnt; ex_hid := l_ex_hid;
         idx2example := l_idx2example |}).

End Store.

(** ** Floating point: [int * float], [int(x)] and [round(x)]

    A Python [float] is an IEEE 754 binary64 number, here a [spec_float]
    with 53 bits of precision. *)

Definition prec : Z := 53.
Definition emax : Z := 1024.

(** [float(n)]: the nearest double, [OverflowError] beyond the range. *)
Definition float_of_int (n : Z) : result spec_float :=
  match binary_normalize prec emax n 0 false with
  | S754_infinity _ => Raise OverflowError
  | f => Ok f
  end.

(** [n * x] for an [int] and a [float]. *)
Definition int_mul_float (n : Z) (x : spec_float) : result spec_float :=
  f ← float_of_int n; Ok (SFmul prec emax f x).

(** [int(x)]: truncation toward zero. *)
Definition int_of_float (x : spec_float) : result Z :=
  match x with
  | S754_zero _ => Ok 0
  | S754_infinity _ => Raise OverflowError
  | S754_nan => Raise ValueError
  | S754_finite s m e => Ok (cond_Zopp s (Z.shiftl (Zpos m) e))
  end.

(** [round(x)]: the nearest integer, ties to the even one. *)
Definition round_half_even (x : spec_float) : result Z :=
  match x with
  | S754_zero _ => Ok 0
  | S754_infinity _ => Raise OverflowError
  | S754_nan => Raise ValueError
  | S754_finite s m e =>
      if 0 <=? e then Ok (cond_Zopp s (Z.shiftl (Zpos m) e))
      else
        let d := Z.shiftl 1 (- e) in
        let q := Zpos m / d in
        let r := Zpos m mod d in
        let q' := match Z.compare (2 * r) d with
                  | Lt => q
                  | Gt => q + 1
                  | Eq => if Z.even q then q else q + 1
                  end in
        Ok (cond_Zopp s q')
  end.

(** The literal [0.15]: the double nearest to 15/100. *)
Definition float_0_15 : spec_float :=
  Eval vm_compute in
    SFdiv prec emax (binary_normalize prec emax 15 0 false)
                    (binary_normalize prec emax 100 0 false).

(** The literal [0.5]. *)
Definition float_0_5 : spec_float :=
  Eval vm_compute in SFldexp prec emax (SFone prec emax) (-1).

(** ** The pseudo-random source

    [random.random()] is an oracle: draw number [pos] yields [random pos],
    and the [floor(random() * n)] the library computes is that number
    reduced modulo [n].  A computation that draws takes the position of the
    next draw and returns the position after its last one. *)

Definition rand (A : Type) : Type := nat -> result (A * nat).

#[global] Instance rand_ret : MRet rand := fun A a pos => Ok (a, pos).
#[global] Instance rand_bind : MBind rand := fun A B f m pos =>
  match m pos with
  | Ok (a, pos') => f a pos'
  | Raise e => Raise e
  end.

Definition rand_raise {A} (e : exn) : rand A := fun _ => Raise e.
Definition rand_lift {A} (r : result A) : rand A := fun pos =>
  match r with Ok a => Ok (a, pos) | Raise e => Raise e end.

Section Random.
Variable random : nat -> nat.

(** [floor(random() * n)] *)
Definition draw_below (n : nat) : rand nat := fun pos =>
  Ok ((random pos mod n)%nat, S pos).

(** One element of [random.choices(population, k=...)]: indexing the
    empty population raises [IndexError]. *)
Definition choice {A} (population : list A) : rand A :=
  i ← draw_below (length population);
  match population !! i with
  | Some x => mret x
  | None => rand_raise IndexError
  end.

Fixpoint choices_n {A} (population : list A) (k : nat) : rand (list A) :=
  match k with
  | O => mret []
  | S k' => x ← choice population; xs ← choices_n population k'; mret (x :: xs)
  end.

(** [random.choices(population, k=k)]; a negative [k] draws nothing. *)
Definition choices {A} (population : list A) (k : Z) : rand (list A) :=
  choices_n population (Z.to_nat k).

(** [itertools.accumulate(weights)] *)
Fixpoint accumulate (acc : Z) (weights : list Z) : list Z :=
  match weights with
  | [] => []
  | w :: ws => (acc + w) :: accumulate (acc + w) ws
  end.

(** [bisect(cum_weights, x, 0, hi)] on non-decreasing [cum_weights]: the
    number of entries among the first [hi] that are at most [x]. *)
Definition bisect (cum_weights : list Z) (x : Z) (hi : nat) : nat :=
  length (filter (fun c => c <= x) (take hi cum_weights)).

(** [random.choices(population, weights, k=1)[0]] for integer weights. *)
Definition weighted_choice {A} (population : list A) (weights : list Z)
    : rand A :=
  let cum_weights := accumulate 0 weights in
  if negb (length cum_weights =? length population)%nat
  then rand_raise ValueError
  else
    match last cum_weights with
    | None => rand_raise IndexError
    | Some total =>
        if total <=? 0 then rand_raise ValueError
        else
          x ← draw_below (Z.to_nat total);
          match population !!
                  bisect cum_weights (Z.of_nat x) (length population - 1) with
          | Some r => mret r
          | None => rand_raise IndexError
          end
    end.
End Random.

(** ** [RelationBatchSampler] *)

(** How a computation with an unbounded loop ends within its fuel. *)
Inductive run (A : Type) :=
  | Returns (a : A)
  | Raises (e : exn)
  | OutOfFuel.
Arguments Returns {A} a.
Arguments Raises {A} e.
Arguments OutOfFuel {A}.

(** How a pass over a generator ends. *)
Inductive gen_end :=
  | Exhausted
  | GenRaises (e : exn)
  | GenOutOfFuel.

Module RelationBatchSampler.

Record t := {
  ent_dom : gmap string (list Z);
  dom_ent : gmap string (list string);
  rel2dom_h : gmap string (list Z);
  rel2dom_t : gmap string (list Z);
  rel2nn : gmap string Z;
  batch_size : Z;
  cake_ratio : spec_float;
  rels : list string;
  rel2ent_t : gmap string (gmap string (list nat));
  rel_ex_cnt : gmap string Z;
  length : nat;
  ex_cnt : nat;
  ex_hid : gmap nat string;
  id2example : gmap nat Example
}.

(** The five tables of the commonsense directory, as loaded. *)
Record commonsense := {
  cs_ent_dom : gmap string (list Z);
  cs_dom_ent : gmap string (list string);
  cs_rel2dom_h : gmap string (list Z);
  cs_rel2dom_t : gmap string (list Z);
  cs_rel2nn : gmap string Z
}.

(** [RelationBatchSampler(batch_size, commonsense_path, cake_ratio, ds_info)] *)
Definition init (batch_size : Z) (cs : commonsense) (cake_ratio : spec_float)
    (ds_info : Dataset.info) : t :=
  {| ent_dom := cs_ent_dom cs;
     dom_ent := cs_dom_ent cs;
     rel2dom_h := cs_rel2dom_h cs;
     rel2dom_t := cs_rel2dom_t cs;
     rel2nn := cs_rel2nn cs;
     batch_size := batch_size;
     cake_ratio := cake_ratio;
     rels := Dataset.info_rels ds_info;
     rel2ent_t := Dataset.info_rel2ent_t ds_info;
     rel_ex_cnt := Dataset.info_rel_ex_cnt ds_info;
     length := size (Dataset.info_rel_ex_cnt ds_info);
     ex_cnt := Dataset.info_ex_cnt ds_info;
     ex_hid := Dataset.info_ex_hid ds_info;
     id2example := Dataset.info_id2example ds_info |}.

(** [len(sampler)] *)
Definition len (self : t) : nat := length self.

(** [reverse_dict] of [concept_filter] *)
Definition reverse_dict : gmap Z Z :=
  {[ 0 := 0; 1 := 2; 2 := 1; 3 := 3 ]}.

(** [concept_filter] up to the draw: the de-duplicated [rel_tail_exs]. *)
Definition candidate_pool (self : t) (relation : string)
    : result (list nat) :=
  '(rel2nn_, relation_concepts) ←
    (if bool_decide (str_take 8 relation = "inverse "%string)
     then n ← getitem (rel2nn self) (str_drop 8 relation);
          nn ← getitem reverse_dict n;
          cs ← getitem (rel2dom_h self) (str_drop 8 relation);
          Ok (nn, cs)
     else nn ← getitem (rel2nn self) relation;
          cs ← getitem (rel2dom_t self) relation;
          Ok (nn, cs));
  relation_ents ← getitem (rel2ent_t self) relation;
  per_concept ← mapM (fun concept : Z =>
                        ents ← getitem (dom_ent self) (pretty concept);
                        Ok (filter (fun ent => is_Some (relation_ents !! ent))
                                   ents))
                     relation_concepts;
  let rel_tail_ents := concat per_concept in
  rel_tail_exs ← mapM (getitem relation_ents) rel_tail_ents;
  Ok (list_set (concat rel_tail_exs)).

(** The concepts [concept_filter] selects by: the head concepts of the
    base relation for an inverse relation, the tail concepts otherwise. *)
Definition relation_concepts (self : t) (relation : string)
    : option (list Z) :=
  if bool_decide (str_take 8 relation = "inverse "%string)
  then rel2dom_h self !! str_drop 8 relation
  else rel2dom_t self !! relation.

Section Iter.
Variable args : Args.
Variable entity_dict : string -> option EntityExample.
Variable random : nat -> nat.

Definition concept_filter (self : t) (relation : string)
    (example_size : Z) : rand (list nat) :=
  rel_tail_exs ← rand_lift (candidate_pool self relation);
  choices random rel_tail_exs example_size.

(** [int(args.batch_size * args.cake_ratio)] *)
Definition cake_sample_cnt : result Z :=
  x ← int_mul_float (args_batch_size args) (args_cake_ratio args);
  int_of_float x.

(** The diagnostic block in the loop: the head ids of the drawn
    examples are read and, when more than 20 are distinct, the names of
    each drawn example are fetched for printing. *)
Definition report (self : t) (temp : list nat) : result unit :=
  head_id_list ← mapM (getitem (ex_hid self)) temp;
  if bool_decide (20 < Datatypes.length (list_set head_id_list))%nat
  then _ ← mapM (fun i => example ← getitem (id2example self) i;
                          _ ← outcome (head entity_dict example);
                          _ ← outcome (tail entity_dict example);
                          Ok tt) temp;
       Ok tt
  else Ok tt.

(** The [while] loop of [__iter__]: [fuel] bounds its turns.  The keys and
    the values of [rel_ex_cnt] are listed in the order of the map, not in
    insertion order: which relation a given draw selects may differ from
    CPython's, the relations that can be selected do not. *)
Fixpoint cake_loop (self : t) (fuel : nat) (cake_sample_cnt : Z)
    (sampled_exs : list nat) (sampled_relations : list string)
    (pos : nat) : run (list nat * nat) :=
  if bool_decide (Z.of_nat (Datatypes.length sampled_exs) < cake_sample_cnt)
  then
    match fuel with
    | O => OutOfFuel
    | S fuel' =>
        match weighted_choice random (map_to_list (rel_ex_cnt self)).*1
                                     (map_to_list (rel_ex_cnt self)).*2 pos with
        | Raise e => Raises e
        | Ok (sampled_relation, pos) =>
            if bool_decide (sampled_relation ∈ sampled_relations)
            then cake_loop self fuel' cake_sample_cnt
                           sampled_exs sampled_relations pos
            else
              match concept_filter self sampled_relation
                                   (batch_size self / 8) pos with
              | Raise e => Raises e
              | Ok (temp, pos) =>
                  match report self temp with
                  | Raise e => Raises e
                  | Ok _ =>
                      cake_loop self fuel' cake_sample_cnt
                        (list_set (sampled_exs ++ temp))
                        (sampled_relations ++ [sampled_relation]) pos
                  end
              end
        end
    end
  else Returns (sampled_exs, pos).

(** One turn of the [for] loop up to the [yield]: the constrained
    portion and the random portion. *)
Definition portions (self : t) (fuel : nat) (pos : nat)
    : run (list nat * list nat * nat) :=
  match cake_sample_cnt with
  | Raise e => Raises e
  | Ok cnt =>
      match cake_loop self fuel cnt [] [] pos with
      | Returns (sampled_exs, pos) =>
          let random_sample_cnt := args_batch_size args - cnt in
          match choices random (seq 0 (ex_cnt self)) random_sample_cnt pos with
          | Raise e => Raises e
          | Ok (extra, pos) => Returns (sampled_exs, extra, pos)
          end
      | Raises e => Raises e
      | OutOfFuel => OutOfFuel
      end
  end.

(** The list one turn yields: [sampled_exs[:self.batch_size]]. *)
Definition next_batch (self : t) (fuel : nat) (pos : nat)
    : run (list nat * nat) :=
  match portions self fuel pos with
  | Returns (sampled_exs, extra, pos) =>
      Returns (slice_to (sampled_exs ++ extra) (batch_size self), pos)
  | Raises e => Raises e
  | OutOfFuel => OutOfFuel
  end.

(** [n] more turns of the [for] loop: the batches yielded and how the
    pass ended. *)
Fixpoint iter_from (self : t) (fuel : nat) (n : nat) (pos : nat)
    : list (list nat) * gen_end :=
  match n with
  | O => ([], Exhausted)
  | S n' =>
      match next_batch self fuel pos with
      | Returns (b, pos) =>
          let '(bs, e) := iter_from self fuel n' pos in (b :: bs, e)
      | Raises e => ([], GenRaises e)
      | OutOfFuel => ([], GenOutOfFuel)
      end
  end.

(** [iter(sampler)] run to its end: a pass of [length] turns, every
    [while] loop given [fuel] turns. *)
Definition iter (self : t) (fuel : nat) (pos : nat)
    : list (list nat) * gen_end :=
  iter_from self fuel (length self) pos.
End Iter.

End RelationBatchSampler.

(** The bucket of relation [r] and tail [t] in [rel2ent_t], when there is
    one. *)
Definition bucket (m : gmap string (gmap string (list nat))) (r t : string)
    : option (list nat) :=
  ents ← m !! r; ents !! t.

(** Example [e] belongs to the bucket of [r] and [t]. *)
Definition keyed (r t : string) (e : Example) : Prop :=
  relation e = r /\ tail_id e = t.

#[global] Instance keyed_dec r t e : Decision (keyed r t e).
Proof. unfold keyed. apply _. Defined.

(** The index of the last example of [exs] keyed [r], [t], the first of
    [exs] having index [i]. *)
Fixpoint last_index (i : nat) (exs : list Example) (r t : string) : option nat :=
  match exs with
  | [] => None
  | e :: exs' =>
      match last_index (S i) exs' r t with
      | Some j => Some j
      | None => if bool_decide (keyed r t e) then Some i else None
      end
  end.

(** ** Concrete inputs *)

(** A test-mode configuration with link-graph augmentation. *)
Definition args_test_graph : Args :=
  {| task := "wiki5m_trans"; use_link_graph := true; is_test := true;
     max_num_tokens := 50; args_batch_size := 4;
     args_cake_ratio := float_0_5 |}.

(** A directory that knows the entity [t] only. *)
Definition dict_t (entity_id : string) : option EntityExample :=
  if bool_decide (entity_id = "t"%string)
  then Some {| entity := "T"; entity_desc := "T is a tail" |}
  else None.

(** A link graph in which [t] has the empty id as its neighbour, as it has
    when built from a file holding the triplet [("", r, t)]. *)
Definition graph_t (entity_id : string) : list string :=
  if bool_decide (entity_id = "t"%string) then [""%string] else [].

Definition tokenizer_const (text : string) (text_pair : option string)
    (max_length : Z) : Encoded :=
  {| input_ids := [101; 102]; token_type_ids := [0; 0] |}.

(** A placeholder example: empty head, tail [t]. *)
Definition example_no_head : Example :=
  {| head_id := ""; relation := "r"; tail_id := "t" |}.

(** Modelled from the spec: [triplet.reverse_triplet] is not among the
    sources.  The spec has it swap head and tail and prefix the relation
    with "inverse "; an object without the three identifiers has no
    reversal. *)
Definition reverse_triplet_spec (o : json_obj) : result json_obj :=
  h ← getitem o "head_id"%string;
  r ← getitem o "relation"%string;
  t ← getitem o "tail_id"%string;
  Ok (<["head_id"%string := t]>
        (<["relation"%string := ("inverse " +:+ r)%string]>
           (<["tail_id"%string := h]> ∅))).

(** A directory that knows every entity by its id. *)
Definition dict_all (entity_id : string) : option EntityExample :=
  Some {| entity := entity_id; entity_desc := "an entity" |}.

(** No files. *)
Definition fs_empty (path : string) : option (list json_obj) := None.

(** Two triplets with the same relation and the same tail. *)
Definition examples_shared : list Example :=
  [ {| head_id := "h1"; relation := "r"; tail_id := "t" |};
    {| head_id := "h2"; relation := "r"; tail_id := "t" |} ].

(** The dataset built from them, when [__init__] returns. *)
Definition dataset_shared : result Dataset.t :=
  outcome (Dataset.init dict_all reverse_triplet_spec fs_empty
             "" "task" examples_shared).

(** A one-file file system: [train.json] holds two triplet objects. *)
Definition triplet_obj (h r t : string) : json_obj :=
  <["head_id"%string := h]>
    (<["relation"%string := r]> (<["tail_id"%string := t]> ∅)).

Definition fs_train (path : string) : option (list json_obj) :=
  if bool_decide (path = "train.json"%string)
  then Some [triplet_obj "e1" "r1" "e2"; triplet_obj "e3" "r2" "e4"]
  else None.

(** The store [__init__] leaves for [examples_shared]. *)
Definition store_shared : Store.heap * Store.self :=
  match dataset_shared with
  | Ok d => Store.of_dataset d
  | Raise _ => ([], {| Store.examples := O; Store.rels := O;
                       Store.rel2ent_t := O; Store.rel_ex_cnt := O;
                       Store.ex_hid := O; Store.idx2example := O |})
  end.

(** Commonsense tables for [examples_shared]: relation [r] is N-N, its
    heads are of concept 5 and its tails of concept 7. *)
Definition commonsense_shared : RelationBatchSampler.commonsense :=
  {| RelationBatchSampler.cs_ent_dom :=
       {[ "h1"%string := [5]; "h2"%string := [5]; "t"%string := [7] ]};
     RelationBatchSampler.cs_dom_ent :=
       {[ "5"%string := ["h1"%string; "h2"%string]; "7"%string := ["t"%string] ]};
     RelationBatchSampler.cs_rel2dom_h := {[ "r"%string := [5] ]};
     RelationBatchSampler.cs_rel2dom_t := {[ "r"%string := [7] ]};
     RelationBatchSampler.cs_rel2nn := {[ "r"%string := 3 ]} |}.

(** The same tables with no tail concept for [r]: its pool is empty. *)
Definition commonsense_no_tail_concept : RelationBatchSampler.commonsense :=
  {| RelationBatchSampler.cs_ent_dom := ∅;
     RelationBatchSampler.cs_dom_ent := ∅;
     RelationBatchSampler.cs_rel2dom_h := {[ "r"%string := [] ]};
     RelationBatchSampler.cs_rel2dom_t := {[ "r"%string := [] ]};
     RelationBatchSampler.cs_rel2nn := {[ "r"%string := 3 ]} |}.

(** The snapshot [ds_info()] of [dataset_shared]. *)
Definition info_shared : Dataset.info :=
  match dataset_shared with
  | Ok d => Dataset.ds_info d
  | Raise _ =>
      {| Dataset.info_rels := []; Dataset.info_rel2ent_t := ∅;
         Dataset.info_rel_ex_cnt := ∅; Dataset.info_ex_cnt := O;
         Dataset.info_ex_hid := ∅; Dataset.info_id2example := ∅ |}
  end.

Definition args_of (batch_size : Z) (cake_ratio : spec_float) : Args :=
  {| task := "wiki5m_trans"; use_link_graph := false; is_test := false;
     max_num_tokens := 50; args_batch_size := batch_size;
     args_cake_ratio := cake_ratio |}.

(** [RelationBatchSampler(8, ..., 0.15, ds_info)] under [batch_size = 8],
    [cake_ratio = 0.15]. *)
Definition args_8 : Args := args_of 8 float_0_15.
Definition sampler_8 : RelationBatchSampler.t :=
  RelationBatchSampler.init 8 commonsense_shared float_0_15 info_shared.

(** [batch_size = 4], [cake_ratio = 0.5]: [4 // 8 = 0], target [2]. *)
Definition args_4 : Args := args_of 4 float_0_5.
Definition sampler_4 : RelationBatchSampler.t :=
  RelationBatchSampler.init 4 commonsense_shared float_0_5 info_shared.

(** [batch_size = 10], [cake_ratio = 0.15]. *)
Definition args_10 : Args := args_of 10 float_0_15.

(** [batch_size = 8], [cake_ratio = 0.0]. *)
Definition float_0 : spec_float := S754_zero false.
Definition args_8_0 : Args := args_of 8 float_0.
Definition sampler_8_0 : RelationBatchSampler.t :=
  RelationBatchSampler.init 8 commonsense_shared float_0 info_shared.

(** A sampler over the tables in which [r] has no tail concept. *)
Definition sampler_empty_pool : RelationBatchSampler.t :=
  RelationBatchSampler.init 8 commonsense_no_tail_concept float_0_15 info_shared.

(** A random source: draw [n] yields [n]. *)
Definition random_id (n : nat) : nat := n.

Definition args_of_task (task : string) : Args :=
  {| task := task; use_link_graph := false; is_test := false;
     max_num_tokens := 50; args_batch_size := 8;
     args_cake_ratio := float_0_15 |}.

(** ** Notions the further properties are stated with *)

(** ** Further definitions *)

(** Character [c] occurs in [s]. *)
Fixpoint has_char (c : ascii) (s : string) : bool :=
  match s with
  | EmptyString => false
  | String a s' => if bool_decide (a = c) then true else has_char c s'
  end.

(** The number of examples of [exs] with relation [r]. *)
Definition count_rel (r : string) (exs : list Example) : nat :=
  length (filter (fun e => relation e = r) exs).

(** The sum of the values of a dictionary of counts. *)
Definition total (m : gmap string Z) : Z :=
  map_fold (fun _ v acc => v + acc) 0 m.

(** The directory can name the head of [e]: [e] has no head, or the
    directory knows it. *)
Definition head_known (entity_dict : string -> option EntityExample)
    (e : Example) : Prop :=
  head_id e = EmptyString \/ is_Some (entity_dict (head_id e)).

#[global] Instance head_known_dec entity_dict e :
  Decision (head_known entity_dict e).
Proof. unfold head_known. apply _. Defined.

(** The name [example.head] returns, where it returns. *)
Definition head_name (entity_dict : string -> option EntityExample)
    (e : Example) : string :=
  match outcome (head entity_dict e) with
  | Ok h => h
  | Raise _ => EmptyString
  end.

(** ** Collation: [collate] and [rel_gen_collate] *)

(** The dictionary [collate] returns; [M] is the type of the masks of
    [triplet_mask], [None] in test mode. *)
Module Batch.
Record t (M : Type) := {
  hr_token_ids : tensor2;
  hr_mask : tensor2;
  hr_token_type_ids : tensor2;
  tail_token_ids : tensor2;
  tail_mask : tensor2;
  tail_token_type_ids : tensor2;
  head_token_ids : tensor2;
  head_mask : tensor2;
  head_token_type_ids : tensor2;
  batch_data : list Example;
  triplet_mask : option M;
  self_negative_mask : option M
}.
Arguments hr_token_ids {M} _.
Arguments hr_mask {M} _.
Arguments hr_token_type_ids {M} _.
Arguments tail_token_ids {M} _.
Arguments tail_mask {M} _.
Arguments tail_token_type_ids {M} _.
Arguments head_token_ids {M} _.
Arguments head_mask {M} _.
Arguments head_token_type_ids {M} _.
Arguments batch_data {M} _.
Arguments triplet_mask {M} _.
Arguments self_negative_mask {M} _.
End Batch.

(** [indices, mask = to_indices_and_mask(...)]: the call passes no
    [need_mask], so a pair comes back. *)
Definition indices_and_mask (p : padded) : result (tensor2 * tensor2) :=
  match p with
  | IndicesMask indices mask => Ok (indices, mask)
  | Indices _ => Raise ValueError
  end.

Section Collate.
Variable args : Args.
(** [get_tokenizer().pad_token_id] *)
Variable pad_token_id : Z.
(** [triplet_mask.construct_mask] and [construct_self_negative_mask],
    external helpers. *)
Variable M : Type.
Variable construct_mask : list Example -> result M.
Variable construct_self_negative_mask : list Example -> result M.

Definition collate (batch_data : list Vectorized) : result (Batch.t M) :=
  '(hr_token_ids_, hr_mask) ←
    (p ← to_indices_and_mask (hr_token_ids <$> batch_data) pad_token_id true;
     indices_and_mask p);
  hr_token_type_ids_ ←
    to_indices_and_mask (hr_token_type_ids <$> batch_data) 0 false;
  '(tail_token_ids_, tail_mask) ←
    (p ← to_indices_and_mask (tail_token_ids <$> batch_data) pad_token_id true;
     indices_and_mask p);
  tail_token_type_ids_ ←
    to_indices_and_mask (tail_token_type_ids <$> batch_data) 0 false;
  '(head_token_ids_, head_mask) ←
    (p ← to_indices_and_mask (head_token_ids <$> batch_data) pad_token_id true;
     indices_and_mask p);
  head_token_type_ids_ ←
    to_indices_and_mask (head_token_type_ids <$> batch_data) 0 false;
  let batch_exs := obj <$> batch_data in
  triplet_mask ← (if negb (is_test args)
                  then m ← construct_mask batch_exs; Ok (Some m)
                  else Ok None);
  self_negative_mask ← (if negb (is_test args)
                        then m ← construct_self_negative_mask batch_exs;
                             Ok (Some m)
                        else Ok None);
  Ok {| Batch.hr_token_ids := hr_token_ids_;
        Batch.hr_mask := hr_mask;
        Batch.hr_token_type_ids := padded_indices hr_token_type_ids_;
        Batch.tail_token_ids := tail_token_ids_;
        Batch.tail_mask := tail_mask;
        Batch.tail_token_type_ids := padded_indices tail_token_type_ids_;
        Batch.head_token_ids := head_token_ids_;
        Batch.head_mask := head_mask;
        Batch.head_token_type_ids := padded_indices head_token_type_ids_;
        Batch.batch_data := batch_exs;
        Batch.triplet_mask := triplet_mask;
        Batch.self_negative_mask := self_negative_mask |}.

(** [rel_gen_collate]: its argument is a list of batches, of which it
    takes the first; the rest of its body is that of [collate], repeated. *)
Definition rel_gen_collate (batch_data : list (list Vectorized))
    : result (Batch.t M) :=
  batch_data ← (match batch_data !! 0%nat with
                | Some b => Ok b
                | None => Raise IndexError
                end);
  '(hr_token_ids_, hr_mask) ←
    (p ← to_indices_and_mask (hr_token_ids <$> batch_data) pad_token_id true;
     indices_and_mask p);
  hr_token_type_ids_ ←
    to_indices_and_mask (hr_token_type_ids <$> batch_data) 0 false;
  '(tail_token_ids_, tail_mask) ←
    (p ← to_indices_and_mask (tail_token_ids <$> batch_data) pad_token_id true;
     indices_and_mask p);
  tail_token_type_ids_ ←
    to_indices_and_mask (tail_token_type_ids <$> batch_data) 0 false;
  '(head_token_ids_, head_mask) ←
    (p ← to_indices_and_mask (head_token_ids <$> batch_data) pad_token_id true;
     indices_and_mask p);
  head_token_type_ids_ ←
    to_indices_and_mask (head_token_type_ids <$> batch_data) 0 false;
  let batch_exs := obj <$> batch_data in
  triplet_mask ← (if negb (is_test args)
                  then m ← construct_mask batch_exs; Ok (Some m)
                  else Ok None);
  self_negative_mask ← (if negb (is_test args)
                        then m ← construct_self_negative_mask batch_exs;
                             Ok (Some m)
                        else Ok None);
  Ok {| Batch.hr_token_ids := hr_token_ids_;
        Batch.hr_mask := hr_mask;
        Batch.hr_token_type_ids := padded_indices hr_token_type_ids_;
        Batch.tail_token_ids := tail_token_ids_;
        Batch.tail_mask := tail_mask;
        Batch.tail_token_type_ids := padded_indices tail_token_type_ids_;
        Batch.head_token_ids := head_token_ids_;
        Batch.head_mask := head_mask;
        Batch.head_token_type_ids := padded_indices head_token_type_ids_;
        Batch.batch_data := batch_exs;
        Batch.triplet_mask := triplet_mask;
        Batch.self_negative_mask := self_negative_mask |}.
End Collate.

(** ** Reading a padded row back through its mask *)

(** The entries of [row] at the positions where [mask_row] is 1. *)
Definition unpad (row mask_row : tensor1) : tensor1 :=
  (filter (fun xm => xm.2 = 1) (zip row mask_row)).*1.

(** The closed form of what [to_indices_and_mask] builds: the width of
    the matrix, its rows, and the rows of the mask. *)
Definition width (batch_tensor : list tensor1) : nat :=
  match py_max (length <$> batch_tensor) with
  | Ok mx_len => mx_len
  | Raise _ => 0%nat
  end.

Definition pad_rows (pad_token_id : Z) (batch_tensor : list tensor1)
    : tensor2 :=
  (fun t => t ++ replicate (width batch_tensor - length t) pad_token_id)
    <$> batch_tensor.

Definition mask_rows (batch_tensor : list tensor1) : tensor2 :=
  (fun t => replicate (length t) 1
            ++ replicate (width batch_tensor - length t) 0)
    <$> batch_tensor.

(** [random.choices(list(self.rel_ex_cnt.keys()),
    weights=self.rel_ex_cnt.values(), k=1)[0]], the relation draw of the
    loop of [__iter__]. *)
Definition sample_relation (random : nat -> nat)
    (self : RelationBatchSampler.t) : rand string :=
  weighted_choice random
    (map_to_list (RelationBatchSampler.rel_ex_cnt self)).*1
    (map_to_list (RelationBatchSampler.rel_ex_cnt self)).*2.

(** ** Further concrete inputs *)

(** A link graph in which every entity has the neighbours [a], [t], [b]. *)
Definition graph_abt (entity_id : string) : list string :=
  ["a"; "t"; "b"]%string.

(** The dataset a construction returned; the empty one where it raised. *)
Definition dataset_of (r : result Dataset.t) : Dataset.t :=
  match r with
  | Ok d => d
  | Raise _ =>
      {| Dataset.path_list := []; Dataset.task := EmptyString;
         Dataset.examples := []; Dataset.rels := [];
         Dataset.rel2ent_t := ∅; Dataset.rel_ex_cnt := ∅;
         Dataset.rel_hent := ∅; Dataset.ex_hid := ∅;
         Dataset.idx2example := ∅ |}
  end.

(** The dataset of [examples_shared], and the one loaded from
    [train.json]. *)
Definition d_shared : Dataset.t := dataset_of dataset_shared.

Definition d_train : Dataset.t :=
  dataset_of (outcome (Dataset.init dict_all reverse_triplet_spec fs_train
                         "train.json" "task" [])).

(** Commonsense tables for [d_train]: the heads of [r1] and [r2] are of
    concept 5, their tails of concept 7. *)
Definition commonsense_train : RelationBatchSampler.commonsense :=
  {| RelationBatchSampler.cs_ent_dom :=
       {[ "e1"%string := [5]; "e3"%string := [5];
          "e2"%string := [7]; "e4"%string := [7] ]};
     RelationBatchSampler.cs_dom_ent :=
       {[ "5"%string := ["e1"%string; "e3"%string];
          "7"%string := ["e2"%string; "e4"%string] ]};
     RelationBatchSampler.cs_rel2dom_h :=
       {[ "r1"%string := [5]; "r2"%string := [5] ]};
     RelationBatchSampler.cs_rel2dom_t :=
       {[ "r1"%string := [7]; "r2"%string := [7] ]};
     RelationBatchSampler.cs_rel2nn := {[ "r1"%string := 1; "r2"%string := 3 ]} |}.

(** [batch_size = 16], [cake_ratio = 0.5]: target [8], [16 // 8 = 2]. *)
Definition args_16 : Args := args_of 16 float_0_5.
Definition sampler_16 : RelationBatchSampler.t :=
  RelationBatchSampler.init 16 commonsense_shared float_0_5 info_shared.

(** Two vectorized examples with token lists of different lengths. *)
Definition vectorized_long : Vectorized :=
  {| hr_token_ids := [101; 7; 8; 102]; hr_token_type_ids := [0; 0; 1; 1];
     tail_token_ids := [101; 9; 102]; tail_token_type_ids := [0; 0; 0];
     head_token_ids := [101; 7; 102]; head_token_type_ids := [0; 0; 0];
     obj := {| head_id := "h1"; relation := "r"; tail_id := "t" |} |}.

Definition vectorized_short : Vectorized :=
  {| hr_token_ids := [101; 102]; hr_token_type_ids := [0; 0];
     tail_token_ids := [101; 9; 9; 102]; tail_token_type_ids := [0; 0; 0; 0];
     head_token_ids := [101; 102]; head_token_type_ids := [0; 0];
     obj := {| head_id := "h2"; relation := "r"; tail_id := "t" |} |}.

(** A stand-in for the mask constructors: the number of rows. *)
Definition mask_size (row_exs : list Example) : result nat :=
  Ok (length row_exs).

(** ** Generator objects

    [iter(sampler)] calls [__iter__], whose body is a generator function:
    the call returns a generator, the suspended frame of the call, which
    holds [self] and how many turns of the [for] loop have run.  The body
    assigns to local names only; the attributes of the sampler are read,
    never written. *)
Record generator := {
  gen_self : RelationBatchSampler.t;
  gen_turn : nat
}.

(** What [next(g)] does. *)
Inductive resumed :=
  | Yield (b : list nat) (g : generator) (pos : nat)
  | StopIteration
  | NextRaises (e : exn)
  | NextOutOfFuel.

Section Generator.
Variable args : Args.
Variable entity_dict : string -> option EntityExample.
Variable random : nat -> nat.

(** [sampler.__iter__()]: a new frame, at the start of the [for] loop. *)
Definition __iter__ (self : RelationBatchSampler.t) : generator :=
  {| gen_self := self; gen_turn := 0 |}.

(** [next(g)]: the body runs up to the next [yield], or to the end of
    [range(self.length)]. *)
Definition next (g : generator) (fuel pos : nat) : resumed :=
  if bool_decide (gen_turn g < RelationBatchSampler.length (gen_self g))%nat
  then
    match RelationBatchSampler.next_batch args entity_dict random
            (gen_self g) fuel pos with
    | Returns (b, pos') =>
        Yield b {| gen_self := gen_self g; gen_turn := S (gen_turn g) |} pos'
    | Raises e => NextRaises e
    | OutOfFuel => NextOutOfFuel
    end
  else StopIteration.

(** [list(g)], at most [n] calls of [next]: the batches, how the pass
    ended, and where in the random stream. *)
Fixpoint drain (g : generator) (fuel n pos : nat)
    : list (list nat) * gen_end * nat :=
  match n with
  | O => ([], GenOutOfFuel, pos)
  | S n' =>
      match next g fuel pos with
      | Yield b g' pos' =>
          let '(bs, e, p) := drain g' fuel n' pos' in (b :: bs, e, p)
      | StopIteration => ([], Exhausted, pos)
      | NextRaises e => ([], GenRaises e, pos)
      | NextOutOfFuel => ([], GenOutOfFuel, pos)
      end
  end.

(** [list(sampler)]: one pass, from a new generator. *)
Definition pass (self : RelationBatchSampler.t) (fuel pos : nat)
    : list (list nat) * gen_end * nat :=
  drain (__iter__ self) fuel (S (RelationBatchSampler.length self)) pos.
End Generator.

(** The tables let the first filtering of every relation succeed: every
    relation has a positive count, and its candidate pool exists, is not
    empty, and whatever [concept_filter] draws from it passes the
    diagnostic block without an exception. *)
Definition tables_ready (entity_dict : string -> option EntityExample)
    (self : RelationBatchSampler.t) : Prop :=
  map_to_list (RelationBatchSampler.rel_ex_cnt self) <> [] /\
  Forall (fun rw : string * Z =>
            0 < rw.2 /\
            exists pool,
              RelationBatchSampler.candidate_pool self rw.1 = Ok pool /\
              pool <> [] /\
              forall temp,
                length temp
                = Z.to_nat (RelationBatchSampler.batch_size self / 8) ->
                Forall (fun x => x ∈ pool) temp ->
                RelationBatchSampler.report entity_dict self temp = Ok tt)
         (map_to_list (RelationBatchSampler.rel_ex_cnt self)).

(** A random source that always returns 0. *)
Definition random_zero (n : nat) : nat := 0%nat.

(** A sampler constructed with [batch_size = 16], to be iterated under
    [args.batch_size = 8]. *)
Definition sampler_16_8 : RelationBatchSampler.t :=
  RelationBatchSampler.init 16 commonsense_shared float_0_15 info_shared.

(** ** The diagnostic block, with what it consults and prints

    [io] logs the lookups in the entity directory and the lines printed,
    both of which remain when an exception ends the computation. *)
Record io (A : Type) := Io {
  io_lookups : list string;
  io_printed : list string;
  io_outcome : result A
}.
Arguments Io {A} io_lookups io_printed io_outcome.
Arguments io_lookups {A} i.
Arguments io_printed {A} i.
Arguments io_outcome {A} i.

#[global] Instance io_ret : MRet io := fun A a => Io [] [] (Ok a).
#[global] Instance io_bind : MBind io := fun A B f m =>
  match io_outcome m with
  | Ok a => Io (io_lookups m ++ io_lookups (f a))
               (io_printed m ++ io_printed (f a))
               (io_outcome (f a))
  | Raise e => Io (io_lookups m) (io_printed m) (Raise e)
  end.

Definition io_result {A} (r : result A) : io A := Io [] [] r.
Definition io_dir {A} (d : dir A) : io A := Io (lookups d) [] (outcome d).

(** [print(line)] *)
Definition print (line : string) : io unit := Io [] [line] (Ok tt).

(** A [for] loop whose body may consult, print and raise. *)
Fixpoint io_for {A} (f : A -> io unit) (l : list A) : io unit :=
  match l with
  | [] => mret tt
  | x :: l' => _ ← f x; io_for f l'
  end.

(** The block between [sampled_exs += temp] and
    [sampled_exs = list(set(sampled_exs))]. *)
Definition report_io (entity_dict : string -> option EntityExample)
    (self : RelationBatchSampler.t) (temp : list nat) : io unit :=
  head_id_list ←
    io_result (mapM (getitem (RelationBatchSampler.ex_hid self)) temp);
  if bool_decide (20 < length (list_set head_id_list))%nat
  then
    _ ← print "================================";
    _ ← io_for (fun i =>
                  example ←
                    io_result (getitem (RelationBatchSampler.id2example self) i);
                  h ← io_dir (head entity_dict example);
                  t ← io_dir (tail entity_dict example);
                  print (join " " [h; relation example; t]))
               temp;
    print "================================"
  else mret tt.

(** The name [example.tail] returns, where it returns. *)
Definition tail_name (entity_dict : string -> option EntityExample)
    (e : Example) : string :=
  match outcome (tail entity_dict e) with
  | Ok t => t
  | Raise _ => EmptyString
  end.

(** Every character of [s] is white space. *)
Fixpoint all_isspace (s : string) : bool :=
  match s with
  | EmptyString => true
  | String c s' => isspace c && all_isspace s'
  end.

(** Twenty-one triplets with pairwise different heads. *)
Definition examples_21 : list Example :=
  (fun i : nat =>
     {| head_id := "h" +:+ pretty (Z.of_nat i); relation := "r";
        tail_id := "t" +:+ pretty (Z.of_nat i) |}) <$> seq 0 21.

Definition d_21 : Dataset.t :=
  dataset_of (outcome (Dataset.init dict_all reverse_triplet_spec fs_empty
                         "" "task" examples_21)).

(** * Properties *)

(** ** The primitives on small inputs *)

Example slice_to_negative : slice_to [1; 2; 3; 4] (-2) = [1; 2].
Proof. reflexivity. Qed.

Example split_on_underscore :
  split_on "_"%char "family_alcidae_NN_1"
  = ["family"; "alcidae"; "NN"; "1"]%string.
Proof. reflexivity. Qed.

Example parse_entity_name_wn18rr :
  _parse_entity_name (args_of_task "WN18RR") "family_alcidae_NN_1"
  = "family alcidae"%string.
Proof. reflexivity. Qed.

Example parse_entity_name_other :
  _parse_entity_name (args_of_task "wiki5m_trans") "family_alcidae_NN_1"
  = "family_alcidae_NN_1"%string.
Proof. reflexivity. Qed.

Example concat_name_desc_prefix :
  _concat_name_desc "auk" "auk  any of several sea birds "
  = "auk: any of several sea birds"%string.
Proof. reflexivity. Qed.

Example concat_name_desc_empty : _concat_name_desc "auk" "auk" = "auk"%string.
Proof. reflexivity. Qed.

Example word_count_words : word_count "  a sea  bird " = 3%nat.
Proof. reflexivity. Qed.

Example to_indices_and_mask_three_rows :
  to_indices_and_mask [[5; 6; 7]; [8]; []] 9 true
  = Ok (IndicesMask [[5; 6; 7]; [8; 9; 9]; [9; 9; 9]]
                    [[1; 1; 1]; [1; 0; 0]; [0; 0; 0]]).
Proof. reflexivity. Qed.

Example int_truncates :
  (x ← int_mul_float 3 float_0_5; int_of_float x) = Ok 1 /\
  (x ← int_mul_float (-3) float_0_5; int_of_float x) = Ok (-1).
Proof. split; vm_compute; reflexivity. Qed.

Example round_ties_to_even :
  (x ← int_mul_float 1 float_0_5; round_half_even x) = Ok 0 /\
  (x ← int_mul_float 3 float_0_5; round_half_even x) = Ok 2 /\
  (x ← int_mul_float 5 float_0_5; round_half_even x) = Ok 2 /\
  (x ← int_mul_float (-3) float_0_5; round_half_even x) = Ok (-2).
Proof. repeat split; vm_compute; reflexivity. Qed.

Example weighted_choice_by_cumulative_weight :
  weighted_choice (fun _ => 0%nat) ["a"; "b"; "c"]%string [2; 1; 3] 0%nat = Ok ("a"%string, 1%nat) /\
  weighted_choice (fun _ => 2%nat) ["a"; "b"; "c"]%string [2; 1; 3] 0%nat = Ok ("b"%string, 1%nat) /\
  weighted_choice (fun _ => 5%nat) ["a"; "b"; "c"]%string [2; 1; 3] 0%nat = Ok ("c"%string, 1%nat) /\
  weighted_choice (fun _ => 0%nat) (@nil string) [] 0%nat = Raise IndexError.
Proof. repeat split; reflexivity. Qed.

Example load_data_two_triplets :
  load_data reverse_triplet_spec fs_train "train.json" true true
  = Ok [ {| head_id := "e1"; relation := "r1"; tail_id := "e2" |};
         {| head_id := "e2"; relation := "inverse r1"; tail_id := "e1" |};
         {| head_id := "e3"; relation := "r2"; tail_id := "e4" |};
         {| head_id := "e4"; relation := "inverse r2"; tail_id := "e3" |} ] /\
  load_data reverse_triplet_spec fs_train "train.json" false false
  = Raise AssertionError /\
  load_data reverse_triplet_spec fs_train "train.csv" true true
  = Raise AssertionError.
Proof. repeat split; vm_compute; reflexivity. Qed.

(** ** Collation *)

Section Collation.
Implicit Types (row t : tensor1) (rows : tensor2).

Lemma copy_prefix_from row t k :
  (k + length t <= length row)%nat ->
  foldl (fun r jx => <[jx.1 := jx.2]> r) row (imap (fun j x => ((k + j)%nat, x)) t)
  = take k row ++ t ++ drop (k + length t) row.
Proof.
  revert row k. induction t as [|x t IH]; intros row k Hlen; simpl in *.
  - rewrite Nat.add_0_r. by rewrite take_drop.
  - rewrite (imap_ext _ (fun j y => ((S k + j)%nat, y))); last first.
    { intros j y _. simpl. f_equal. lia. }
    rewrite IH; last (rewrite length_insert; lia).
    rewrite Nat.add_0_r.
    rewrite (take_S_r (<[k:=x]> row) k x); last (apply list_lookup_insert_eq; lia).
    rewrite take_insert_ge; last lia.
    rewrite drop_insert_lt; last lia.
    replace (S k + length t)%nat with (k + S (length t))%nat by lia.
    by rewrite <- app_assoc.
Qed.

Lemma copy_prefix_spec row t :
  (length t <= length row)%nat ->
  copy_prefix row t = t ++ drop (length t) row.
Proof.
  intros Hlen. unfold copy_prefix.
  rewrite (imap_ext _ (fun j y => ((0 + j)%nat, y))); last done.
  by rewrite copy_prefix_from.
Qed.

Lemma fill_prefix_spec row n v :
  (n <= length row)%nat ->
  fill_prefix row n v = replicate n v ++ drop n row.
Proof.
  unfold fill_prefix. induction n as [|n IH]; intros Hlen; first done.
  rewrite seq_S, foldl_app. simpl. rewrite IH; last lia.
  rewrite insert_app_r_alt; last (rewrite length_replicate; lia).
  rewrite length_replicate, Nat.sub_diag.
  destruct (lookup_lt_is_Some_2 row n) as [y Hy]; first lia.
  rewrite (drop_S row y n Hy). simpl.
  by rewrite cons_middle, app_assoc, <- replicate_S_end.
Qed.

(** The loop acts on the matrix and on the mask independently. *)
Lemma pad_loop_split need_mask indices mask (its : list (nat * tensor1)) :
  foldl (pad_step need_mask) (indices, mask) its
  = (foldl (fun ind it => alter (fun row => copy_prefix row it.2) it.1 ind)
           indices its,
     if need_mask
     then foldl (fun m it => alter (fun row => fill_prefix row (length it.2) 1) it.1 m)
                mask its
     else mask).
Proof.
  revert indices mask. induction its as [|[i t] its IH]; intros indices mask.
  - by destruct need_mask.
  - simpl. rewrite IH. by destruct need_mask.
Qed.

(** A loop that alters row [k + j] with the [j]-th tensor, read at row [i]. *)
Lemma alter_loop_lookup (f : tensor1 -> tensor1 -> tensor1)
    (ts : list tensor1) k rows i :
  foldl (fun rs it => alter (fun row => f row it.2) it.1 rs) rows
        (imap (fun j t => ((k + j)%nat, t)) ts) !! i
  = match (if bool_decide (k <= i)%nat then ts !! (i - k)%nat else None) with
    | Some t => (fun row => f row t) <$> rows !! i
    | None => rows !! i
    end.
Proof.
  revert k rows. induction ts as [|t ts IH]; intros k rows; simpl.
  - case_bool_decide; by rewrite ?lookup_nil.
  - rewrite (imap_ext _ (fun j y => ((S k + j)%nat, y))); last first.
    { intros j y _. simpl. f_equal. lia. }
    rewrite IH, Nat.add_0_r.
    destruct (decide (i = k)) as [->|Hne].
    + rewrite bool_decide_eq_false_2 by lia.
      rewrite bool_decide_eq_true_2 by lia.
      rewrite Nat.sub_diag. simpl. apply list_lookup_alter_eq.
    + rewrite list_lookup_alter_ne by done.
      repeat case_bool_decide; try lia; try done.
      replace (i - k)%nat with (S (i - S k)) by lia. done.
Qed.

Lemma alter_loop_length (f : tensor1 -> tensor1 -> tensor1)
    (its : list (nat * tensor1)) rows :
  length (foldl (fun rs it => alter (fun row => f row it.2) it.1 rs) rows its)
  = length rows.
Proof.
  revert rows. induction its as [|it its IH]; intros rows; simpl; first done.
  by rewrite IH, length_alter.
Qed.

Lemma foldl_max_ge (l : list nat) a : (a <= foldl Nat.max a l)%nat.
Proof.
  revert a. induction l as [|x l IH]; intros a; simpl; first done.
  etrans; last apply IH. lia.
Qed.

Lemma foldl_max_bound (l : list nat) a x :
  x ∈ l -> (x <= foldl Nat.max a l)%nat.
Proof.
  revert a. induction l as [|y l IH]; intros a Hin; simpl.
  - by apply elem_of_nil in Hin.
  - apply elem_of_cons in Hin as [->|Hin]; last by apply IH.
    etrans; last apply foldl_max_ge. lia.
Qed.

Lemma foldl_max_attained (l : list nat) a :
  foldl Nat.max a l = a \/ foldl Nat.max a l ∈ l.
Proof.
  revert a. induction l as [|y l IH]; intros a; simpl; first by left.
  destruct (IH (a `max` y)%nat) as [Heq|Hin].
  - rewrite Heq. destruct (Nat.max_spec a y) as [[_ ->]|[_ ->]].
    + right. apply elem_of_cons. by left.
    + by left.
  - right. apply elem_of_cons. by right.
Qed.

Lemma py_max_spec (l : list nat) :
  l <> [] ->
  exists mx, py_max l = Ok mx /\ mx ∈ l /\ forall x, x ∈ l -> (x <= mx)%nat.
Proof.
  destruct l as [|a l]; first done. intros _. eexists. split; first done. split.
  - destruct (foldl_max_attained l a) as [->|Hin]; apply elem_of_cons; auto.
  - intros x [->|Hin]%elem_of_cons.
    + apply foldl_max_ge.
    + by apply foldl_max_bound.
Qed.

End Collation.

(** C6. For a non-empty batch of integer sequences, [to_indices_and_mask]
    returns a matrix with one row per sequence, each of the batch maximum
    length: row [i] is sequence [i] followed by [pad_token_id], and row [i]
    of the mask is 1 on the positions of sequence [i] and 0 after them.
    Without [need_mask] the same matrix is returned alone. *)
Theorem to_indices_and_mask_pads (batch_tensor : list tensor1) (pad_token_id : Z) :
  batch_tensor <> [] ->
  exists (mx_len : nat) (indices mask : tensor2),
    mx_len ∈ (length <$> batch_tensor) /\
    (forall t, t ∈ batch_tensor -> (length t <= mx_len)%nat) /\
    to_indices_and_mask batch_tensor pad_token_id true
      = Ok (IndicesMask indices mask) /\
    to_indices_and_mask batch_tensor pad_token_id false = Ok (Indices indices) /\
    length indices = length batch_tensor /\
    length mask = length batch_tensor /\
    forall i t, batch_tensor !! i = Some t ->
      indices !! i = Some (t ++ replicate (mx_len - length t) pad_token_id) /\
      mask !! i = Some (replicate (length t) 1 ++ replicate (mx_len - length t) 0).
Proof.
  intros Hne.
  destruct (py_max_spec (length <$> batch_tensor)) as (mx & Hmx & Hin & Hle).
  { by destruct batch_tensor. }
  assert (Hlen : forall t, t ∈ batch_tensor -> (length t <= mx)%nat).
  { intros t Ht. apply Hle. by apply list_elem_of_fmap_2. }
  unfold to_indices_and_mask. rewrite Hmx. simpl.
  rewrite !pad_loop_split.
  eexists mx, _, _. split; [exact Hin|]. split; [exact Hlen|].
  split; [reflexivity|]. split; [reflexivity|].
  rewrite (alter_loop_length copy_prefix).
  rewrite (alter_loop_length (fun row t => fill_prefix row (length t) 1)).
  unfold full. rewrite !length_replicate.
  split; [done|]. split; [done|].
  intros i t Hit.
  assert (Hi : (i < length batch_tensor)%nat) by by eapply lookup_lt_Some.
  assert (Ht : (length t <= mx)%nat) by (apply Hlen; by eapply list_elem_of_lookup_2).
  rewrite !(imap_ext pair (fun j y => ((0 + j)%nat, y))) by done.
  rewrite (alter_loop_lookup copy_prefix).
  rewrite (alter_loop_lookup (fun row t => fill_prefix row (length t) 1)).
  rewrite bool_decide_eq_true_2 by lia. rewrite Nat.sub_0_r, Hit.
  rewrite !lookup_replicate_2 by done. simpl.
  rewrite copy_prefix_spec by (rewrite length_replicate; lia).
  rewrite fill_prefix_spec by (rewrite length_replicate; lia).
  by rewrite !drop_replicate.
Qed.

Lemma to_indices_and_mask_pads_witness :
  exists mx_len indices mask,
    mx_len ∈ (length <$> [[5; 6; 7]; [8]; []]) /\
    (forall t, t ∈ [[5; 6; 7]; [8]; []] -> (length t <= mx_len)%nat) /\
    to_indices_and_mask [[5; 6; 7]; [8]; []] 0 true = Ok (IndicesMask indices mask) /\
    to_indices_and_mask [[5; 6; 7]; [8]; []] 0 false = Ok (Indices indices) /\
    length indices = length [[5; 6; 7]; [8]; []] /\
    length mask = length [[5; 6; 7]; [8]; []] /\
    forall i t, [[5; 6; 7]; [8]; []] !! i = Some t ->
      indices !! i = Some (t ++ replicate (mx_len - length t) 0) /\
      mask !! i = Some (replicate (length t) 1 ++ replicate (mx_len - length t) 0).
Proof. apply (to_indices_and_mask_pads [[5; 6; 7]; [8]; []] 0). discriminate. Defined.

(** C9. On the empty batch the maximum of the row lengths is taken over
    nothing and [to_indices_and_mask] raises, with or without a mask. *)
Theorem to_indices_and_mask_empty (pad_token_id : Z) (need_mask : bool) :
  to_indices_and_mask [] pad_token_id need_mask = Raise ValueError.
Proof. reflexivity. Qed.

(** ** Example: what the accessors and [vectorize] ask the directory *)

Section ExampleLookups.
Variable args : Args.
Variable entity_dict : string -> option EntityExample.
Variable get_neighbor_ids : string -> list string.
Variable tokenizer : string -> option string -> Z -> Encoded.

Lemma lookups_bind {A B} (d : dir A) (f : A -> dir B) (x : string) :
  x ∈ lookups (d ≫= f) ->
  x ∈ lookups d \/ exists a, outcome d = Ok a /\ x ∈ lookups (f a).
Proof.
  unfold mbind, dir_bind. destruct (outcome d) as [a|e] eqn:Hd; simpl.
  - intros [?|?]%elem_of_app; eauto.
  - auto.
Qed.

Lemma lookups_dir_mapM {A B} (f : A -> dir B) (l : list A) (x : string) :
  x ∈ lookups (dir_mapM f l) -> exists y, y ∈ l /\ x ∈ lookups (f y).
Proof.
  induction l as [|y l IH]; simpl.
  - intros Hx; no_lookup Hx.
  - intros [Hx|(b & _ & Hx)]%lookups_bind.
    + exists y. split; [apply elem_of_cons; by left | done].
    + apply lookups_bind in Hx as [Hx|(bs & _ & Hx)].
      * destruct (IH Hx) as (z & Hz & Hxz). exists z.
        split; [apply elem_of_cons; by right | done].
      * no_lookup Hx.
Qed.

Lemma lookups_get_entity (entity_id x : string) {B} (f : EntityExample -> dir B) :
  (forall e, lookups (f e) = []) ->
  x ∈ lookups (get_entity_by_id entity_dict entity_id ≫= f) -> x = entity_id.
Proof.
  intros Hf [Hx|(e & _ & Hx)]%lookups_bind.
  - simpl in Hx. by apply list_elem_of_singleton in Hx.
  - rewrite Hf in Hx. by apply elem_of_nil in Hx.
Qed.

(** The ids [get_neighbor_desc] looks up are the neighbours the link graph
    reports, less the other end of the triplet outside test mode. *)
Lemma lookups_get_neighbor_desc (of_id other_id x : string) :
  x ∈ lookups (get_neighbor_desc args entity_dict get_neighbor_ids of_id other_id) ->
  x ∈ get_neighbor_ids of_id /\ (is_test args = false -> x <> other_id).
Proof.
  unfold get_neighbor_desc.
  intros [Hx|(es & _ & Hx)]%lookups_bind; [|no_lookup Hx].
  apply lookups_dir_mapM in Hx as (y & Hy & Hx).
  apply lookups_get_entity in Hx as ->; [|done].
  destruct (is_test args); [done|].
  apply list_elem_of_filter in Hy as [Hne Hy]. done.
Qed.

Lemma lookups_augment (desc of_id other_id x : string) :
  x ∈ lookups (augment args entity_dict get_neighbor_ids desc of_id other_id) ->
  x ∈ get_neighbor_ids of_id /\ (is_test args = false -> x <> other_id).
Proof.
  unfold augment. case_bool_decide.
  - intros [Hx|(nd & _ & Hx)]%lookups_bind; [|no_lookup Hx].
    by apply lookups_get_neighbor_desc.
  - intros Hx; no_lookup Hx.
Qed.

Lemma head_desc_empty (self : Example) :
  head_id self = EmptyString -> head_desc entity_dict self = Dir [] (Ok EmptyString).
Proof. intros H. unfold head_desc. by rewrite bool_decide_eq_true_2. Qed.

Lemma head_empty (self : Example) :
  head_id self = EmptyString -> head entity_dict self = Dir [] (Ok EmptyString).
Proof. intros H. unfold head. by rewrite bool_decide_eq_true_2. Qed.

Lemma tail_delegates (self : Example) :
  tail entity_dict self
  = Dir [tail_id self]
        (match entity_dict (tail_id self) with
         | Some e => Ok (entity e)
         | None => Raise KeyError
         end).
Proof.
  unfold tail, get_entity_by_id, mbind, dir_bind. simpl.
  by destruct (entity_dict (tail_id self)).
Qed.

Lemma tail_desc_delegates (self : Example) :
  tail_desc entity_dict self
  = Dir [tail_id self]
        (match entity_dict (tail_id self) with
         | Some e => Ok (entity_desc e)
         | None => Raise KeyError
         end).
Proof.
  unfold tail_desc, get_entity_by_id, mbind, dir_bind. simpl.
  by destruct (entity_dict (tail_id self)).
Qed.

(** Every id [vectorize] looks up for an example without a head. *)
Lemma lookups_vectorize_no_head (self : Example) (x : string) :
  head_id self = EmptyString ->
  x ∈ lookups (vectorize args entity_dict get_neighbor_ids tokenizer self) ->
  x = tail_id self \/
  (use_link_graph args = true /\
   ((x ∈ get_neighbor_ids (head_id self) /\
     (is_test args = false -> x <> tail_id self)) \/
    (x ∈ get_neighbor_ids (tail_id self) /\
     (is_test args = false -> x <> head_id self)))).
Proof.
  intros Hh. unfold vectorize.
  rewrite head_desc_empty, head_empty, tail_desc_delegates, tail_delegates by done.
  intros [Hx|(hd & _ & Hx)]%lookups_bind; [no_lookup Hx|].
  apply lookups_bind in Hx as [Hx|(td & _ & Hx)].
  { left. simpl in Hx. by apply list_elem_of_singleton in Hx. }
  apply lookups_bind in Hx as [Hx|(hd' & _ & Hx)].
  { destruct (use_link_graph args); [|no_lookup Hx].
    apply lookups_augment in Hx. right. split; [done|]. by left. }
  apply lookups_bind in Hx as [Hx|(td' & _ & Hx)].
  { destruct (use_link_graph args); [|no_lookup Hx].
    apply lookups_augment in Hx. right. split; [done|]. by right. }
  apply lookups_bind in Hx as [Hx|(h & _ & Hx)]; [no_lookup Hx|].
  apply lookups_bind in Hx as [Hx|(t & _ & Hx)].
  { left. simpl in Hx. by apply list_elem_of_singleton in Hx. }
  no_lookup Hx.
Qed.

End ExampleLookups.

(** C10 (as the code has it). For an example whose [head_id] is empty,
    [head] and [head_desc] return the empty string and ask the entity
    directory nothing, while [tail] and [tail_desc] ask it for [tail_id] and
    return what it gives (or raise as it does).  Every id [vectorize] looks
    up for such an example is [tail_id] or, with link-graph augmentation
    switched on, a neighbour the link graph reports for one end of the
    triplet; so the empty head id is looked up only when [tail_id] is empty
    too or the link graph itself lists the empty id: as a neighbour of the
    empty id, or, in test mode, as a neighbour of the tail. *)
Theorem empty_head_lookups (args : Args)
    (entity_dict : string -> option EntityExample)
    (get_neighbor_ids : string -> list string)
    (tokenizer : string -> option string -> Z -> Encoded) (self : Example) :
  head_id self = EmptyString ->
  head entity_dict self = Dir [] (Ok EmptyString) /\
  head_desc entity_dict self = Dir [] (Ok EmptyString) /\
  tail entity_dict self
    = Dir [tail_id self]
          (match entity_dict (tail_id self) with
           | Some e => Ok (entity e)
           | None => Raise KeyError
           end) /\
  tail_desc entity_dict self
    = Dir [tail_id self]
          (match entity_dict (tail_id self) with
           | Some e => Ok (entity_desc e)
           | None => Raise KeyError
           end) /\
  (forall x, x ∈ lookups (vectorize args entity_dict get_neighbor_ids tokenizer self) ->
     x = tail_id self \/
     (use_link_graph args = true /\
      (x ∈ get_neighbor_ids (head_id self) \/ x ∈ get_neighbor_ids (tail_id self)))) /\
  (head_id self ∈ lookups (vectorize args entity_dict get_neighbor_ids tokenizer self) ->
     tail_id self = EmptyString \/
     (use_link_graph args = true /\
      (EmptyString ∈ get_neighbor_ids EmptyString \/
       (is_test args = true /\ EmptyString ∈ get_neighbor_ids (tail_id self))))).
Proof.
  intros Hh.
  split; [by apply head_empty|]. split; [by apply head_desc_empty|].
  split; [apply tail_delegates|]. split; [apply tail_desc_delegates|].
  split.
  - intros x Hx.
    destruct (lookups_vectorize_no_head _ _ _ _ _ _ Hh Hx) as [?|[? [[? _]|[? _]]]]; auto.
  - intros Hx.
    destruct (lookups_vectorize_no_head _ _ _ _ _ _ Hh Hx) as [Ht|[Hg [[Hn _]|[Hn Hf]]]].
    + left. by rewrite <- Ht.
    + right. split; [done|]. left. by rewrite Hh in Hn.
    + right. split; [done|]. right. rewrite Hh in Hn. split; [|done].
      destruct (is_test args); [done|]. by destruct Hf.
Qed.

Lemma empty_head_lookups_witness :
  head_id example_no_head = EmptyString /\
  head dict_t example_no_head = Dir [] (Ok EmptyString) /\
  head_desc dict_t example_no_head = Dir [] (Ok EmptyString) /\
  forall x,
    x ∈ lookups (vectorize args_test_graph dict_t graph_t tokenizer_const
                   example_no_head) ->
    x = tail_id example_no_head \/
    (use_link_graph args_test_graph = true /\
     (x ∈ graph_t (head_id example_no_head) \/
      x ∈ graph_t (tail_id example_no_head))).
Proof.
  split; [reflexivity|].
  destruct (empty_head_lookups args_test_graph dict_t graph_t tokenizer_const
              example_no_head eq_refl) as (H1 & H2 & _ & _ & H5 & _).
  split; [exact H1|]. split; [exact H2|exact H5].
Defined.

(** C10, as stated, fails: in test mode with link-graph augmentation, a
    link graph that lists the empty id among the neighbours of the tail
    makes [vectorize] look the empty head id up (and the directory raise). *)
Lemma empty_head_looked_up :
  head_id example_no_head = EmptyString /\
  head_id example_no_head
    ∈ lookups (vectorize args_test_graph dict_t graph_t tokenizer_const
                 example_no_head) /\
  outcome (vectorize args_test_graph dict_t graph_t tokenizer_const
             example_no_head) = Raise KeyError.
Proof.
  split; [reflexivity|]. split; [|reflexivity].
  assert (lookups (vectorize args_test_graph dict_t graph_t tokenizer_const
                     example_no_head) = ["t"%string; EmptyString]) as ->
    by reflexivity.
  apply elem_of_cons. right. apply elem_of_cons. by left.
Qed.

(** ** Loading *)

Section LoadingFacts.
Variable reverse_triplet : json_obj -> result json_obj.
Variable fs : string -> option (list json_obj).

Lemma load_loop_cons fwd bwd o data examples :
  load_loop reverse_triplet fwd bwd (o :: data) examples
  = (c ← contribution reverse_triplet fwd bwd o;
     load_loop reverse_triplet fwd bwd data (examples ++ c)).
Proof.
  simpl. unfold contribution.
  destruct fwd, bwd; simpl;
    repeat (match goal with
            | |- context [Example_init ?x] => destruct (Example_init x); simpl
            | |- context [reverse_triplet ?x] => destruct (reverse_triplet x); simpl
            end; try done);
    by rewrite ?app_nil_r, <- ?app_assoc.
Qed.

Lemma load_loop_contributions fwd bwd data examples :
  load_loop reverse_triplet fwd bwd data examples
  = (chunks ← mapM (contribution reverse_triplet fwd bwd) data; Ok (examples ++ concat chunks)).
Proof.
  revert examples. induction data as [|o data IH]; intros examples.
  - simpl. by rewrite app_nil_r.
  - rewrite load_loop_cons. simpl.
    destruct (contribution reverse_triplet fwd bwd o) as [c|]; simpl; [|done].
    rewrite IH. destruct (mapM _ data); simpl; [|done].
    by rewrite app_assoc.
Qed.

Lemma contribution_length fwd bwd o chunk :
  contribution reverse_triplet fwd bwd o = Ok chunk ->
  length chunk = (bool_to_nat fwd + bool_to_nat bwd)%nat.
Proof.
  unfold contribution.
  destruct fwd, bwd; simpl;
    repeat (match goal with
            | |- context [Example_init ?x] => destruct (Example_init x); simpl
            | |- context [reverse_triplet ?x] => destruct (reverse_triplet x); simpl
            end; try done);
    by intros [= <-].
Qed.

Lemma mapM_Ok_length {A B} (f : A -> result B) (l : list A) (r : list B) :
  mapM f l = Ok r -> length r = length l.
Proof.
  revert r. induction l as [|x l IH]; intros r; simpl.
  - by intros [= <-].
  - destruct (f x); simpl; [|done]. destruct (mapM f l); simpl; [|done].
    intros [= <-]. simpl. f_equal. by apply IH.
Qed.

Lemma mapM_Ok_lookup {A B} (f : A -> result B) (l : list A) (r : list B) i x :
  mapM f l = Ok r -> l !! i = Some x -> exists y, r !! i = Some y /\ f x = Ok y.
Proof.
  revert r i. induction l as [|a l IH]; intros r i; simpl; [by intros _ ?|].
  destruct (f a) as [b|] eqn:Hfa; simpl; [|done].
  destruct (mapM f l) as [bs|]; simpl; [|done].
  intros [= <-]. destruct i as [|i]; simpl.
  - intros [= <-]. eauto.
  - intros Hx. by apply IH.
Qed.

Lemma concat_uniform_length {A} (chunks : list (list A)) n :
  Forall (fun c => length c = n) chunks ->
  length (concat chunks) = (length chunks * n)%nat.
Proof. induction 1 as [|c cs Hc _ IH]; simpl; [done|]. rewrite length_app. lia. Qed.

Lemma mapM_Ok_Forall {A B} (f : A -> result B) (P : B -> Prop) (l : list A) r :
  (forall x y, f x = Ok y -> P y) -> mapM f l = Ok r -> Forall P r.
Proof.
  intros HP. revert r. induction l as [|a l IH]; intros r; simpl.
  - intros [= <-]. constructor.
  - destruct (f a) as [b|] eqn:Hfa; simpl; [|done].
    destruct (mapM f l) as [bs|]; simpl; [|done].
    intros [= <-]. constructor; eauto.
Qed.

(** Pairs laid end to end: pair [i] sits at positions [2i] and [2i+1]. *)
Lemma concat_pairs_lookup {A} (chunks : list (list A)) i a b :
  Forall (fun c => length c = 2%nat) chunks ->
  chunks !! i = Some [a; b] ->
  concat chunks !! (2 * i)%nat = Some a /\ concat chunks !! (2 * i + 1)%nat = Some b.
Proof.
  intros Hall. revert i. induction Hall as [|c cs Hc _ IH]; intros i; [done|].
  destruct i as [|i]; simpl.
  - by intros [= ->].
  - intros Hi. destruct c as [|x [|y [|? ?]]]; try done. simpl.
    replace (i + S (i + 0))%nat with (S (2 * i)) by lia.
    replace (i + S (i + 0) + 1)%nat with (S (2 * i + 1)) by lia.
    simpl. by apply IH.
Qed.

Lemma load_data_Ok path fwd bwd examples :
  load_data reverse_triplet fs path fwd bwd = Ok examples ->
  exists data chunks,
    fs path = Some data /\
    mapM (contribution reverse_triplet fwd bwd) data = Ok chunks /\
    examples = concat chunks.
Proof.
  unfold load_data.
  destruct (py_assert (endswith _ _)); simpl; [|done].
  destruct (py_assert (fwd || bwd)); simpl; [|done].
  destruct (fs path) as [data|]; simpl; [|done].
  rewrite load_loop_contributions.
  destruct (mapM _ data) as [chunks|] eqn:Hm; simpl; [|done].
  intros [= <-]. eauto.
Qed.

Lemma load_paths_Ok path_list examples result :
  load_paths reverse_triplet fs path_list examples = Ok result ->
  exists files chunks,
    Forall2 (fun path data => fs path = Some data) path_list files /\
    mapM (contribution reverse_triplet true true) (concat files) = Ok chunks /\
    result = examples ++ concat chunks.
Proof.
  revert examples result.
  induction path_list as [|path rest IH]; intros examples result; simpl.
  - intros [= <-]. exists [], []. split; [constructor|].
    split; [done|]. by rewrite app_nil_r.
  - destruct (load_data _ _ path true true) as [loaded|] eqn:Hl; simpl; [|done].
    apply load_data_Ok in Hl as (data & chunks & Hfs & Hm & ->).
    intros Hrest.
    assert (Hrest' : load_paths reverse_triplet fs rest (examples ++ concat chunks)
                     = Ok result) by (by destruct examples).
    apply IH in Hrest' as (files & chunks' & Hfiles & Hm' & ->).
    exists (data :: files), (chunks ++ chunks'). split; [by constructor|].
    split.
    + simpl. clear -Hm Hm'. revert chunks Hm.
      induction data as [|o data IHd]; intros chunks; simpl.
      * intros [= <-]. done.
      * destruct (contribution reverse_triplet true true o); simpl; [|done].
        destruct (mapM _ data) eqn:Hd; simpl; [|done].
        intros [= <-]. by rewrite (IHd _ eq_refl).
    + by rewrite concat_app, app_assoc.
Qed.

End LoadingFacts.

Section DatasetFacts.
Variable entity_dict : string -> option EntityExample.

Lemma index_example_examples self i example self' :
  outcome (Dataset.index_example entity_dict self i example) = Ok self' ->
  Dataset.examples self' = Dataset.examples self.
Proof.
  unfold Dataset.index_example, mbind, dir_bind.
  destruct (outcome (head entity_dict example)); simpl; [|done].
  by intros [= <-].
Qed.

Lemma index_loop_examples exs self i self' :
  outcome (Dataset.index_loop entity_dict self i exs) = Ok self' ->
  Dataset.examples self' = Dataset.examples self.
Proof.
  revert self i. induction exs as [|example exs IH]; intros self i; simpl.
  - by intros [= <-].
  - unfold mbind, dir_bind.
    destruct (outcome (Dataset.index_example _ self i example)) as [s1|] eqn:H1;
      simpl; [|done].
    intros H2. apply IH in H2. rewrite H2. by eapply index_example_examples.
Qed.

End DatasetFacts.

(** C7. [load_data] returns as many examples as the file has triplet
    objects times the number of directions requested and, with both
    directions, the forward and the reversed example of triplet [i] at
    positions [2i] and [2i+1].  A [Dataset] loaded from files (both
    directions, as [__init__] asks) therefore has twice as many examples as
    its files have triplet objects in total, laid out the same way. *)
Theorem loaded_dataset_len
    (entity_dict : string -> option EntityExample)
    (reverse_triplet : json_obj -> result json_obj)
    (fs : string -> option (list json_obj)) :
  (forall path add_forward_triplet add_backward_triplet examples,
     load_data reverse_triplet fs path add_forward_triplet add_backward_triplet
       = Ok examples ->
     exists data,
       fs path = Some data /\
       length examples
       = (length data
          * (bool_to_nat add_forward_triplet + bool_to_nat add_backward_triplet))%nat /\
       (add_forward_triplet = true -> add_backward_triplet = true ->
        forall i o, data !! i = Some o ->
          exists o' e e',
            Example_init o = Ok e /\ reverse_triplet o = Ok o' /\
            Example_init o' = Ok e' /\
            examples !! (2 * i)%nat = Some e /\
            examples !! (2 * i + 1)%nat = Some e')) /\
  (forall path task self,
     outcome (Dataset.init entity_dict reverse_triplet fs path task []) = Ok self ->
     exists files,
       Forall2 (fun p data => fs p = Some data) (split_on ","%char path) files /\
       Dataset.len self = (length (concat files) * (1 + 1))%nat /\
       forall i o, concat files !! i = Some o ->
         exists o' e e',
           Example_init o = Ok e /\ reverse_triplet o = Ok o' /\
           Example_init o' = Ok e' /\
           Dataset.examples self !! (2 * i)%nat = Some e /\
           Dataset.examples self !! (2 * i + 1)%nat = Some e').
Proof.
  assert (Hpairs : forall data chunks,
            mapM (contribution reverse_triplet true true) data = Ok chunks ->
            forall i o, data !! i = Some o ->
              exists o' e e',
                Example_init o = Ok e /\ reverse_triplet o = Ok o' /\
                Example_init o' = Ok e' /\
                concat chunks !! (2 * i)%nat = Some e /\
                concat chunks !! (2 * i + 1)%nat = Some e').
  { intros data chunks Hm i o Hi.
    destruct (mapM_Ok_lookup _ _ _ _ _ Hm Hi) as (c & Hc & Ho).
    assert (Hall : Forall (fun c => length c = 2%nat) chunks).
    { eapply mapM_Ok_Forall; [|exact Hm].
      intros x y Hxy. by apply contribution_length in Hxy. }
    unfold contribution in Ho.
    destruct (Example_init o) as [e|] eqn:He; simpl in Ho; [|done].
    destruct (reverse_triplet o) as [o'|] eqn:Hr; simpl in Ho; [|done].
    destruct (Example_init o') as [e'|] eqn:He'; simpl in Ho; [|done].
    injection Ho as <-.
    destruct (concat_pairs_lookup chunks i e e' Hall Hc) as [H1 H2].
    exists o', e, e'. auto. }
  split.
  - intros path fwd bwd examples Hl.
    apply load_data_Ok in Hl as (data & chunks & Hfs & Hm & ->).
    exists data. split; [done|]. split.
    + rewrite (concat_uniform_length chunks (bool_to_nat fwd + bool_to_nat bwd)).
      * by rewrite (mapM_Ok_length _ _ _ Hm).
      * eapply mapM_Ok_Forall; [|exact Hm].
        intros x y Hxy. by apply contribution_length in Hxy.
    + intros -> ->. by apply Hpairs.
  - intros path task self. unfold Dataset.init.
    destruct (py_assert _); [|done].
    destruct (load_paths _ _ _ _) as [examples|] eqn:Hl; [|done].
    intros Hi. apply index_loop_examples in Hi. simpl in Hi.
    apply load_paths_Ok in Hl as (files & chunks & Hfiles & Hm & ->).
    exists files. split; [done|]. unfold Dataset.len. rewrite Hi. simpl. split.
    + rewrite (concat_uniform_length chunks 2).
      * by rewrite (mapM_Ok_length _ _ _ Hm).
      * eapply mapM_Ok_Forall; [|exact Hm].
        intros x y Hxy. by apply contribution_length in Hxy.
    + by apply Hpairs.
Qed.

Lemma loaded_dataset_len_witness :
  exists self files,
    outcome (Dataset.init dict_all reverse_triplet_spec fs_train
               "train.json" "task" []) = Ok self /\
    Forall2 (fun p data => fs_train p = Some data)
            (split_on ","%char "train.json") files /\
    Dataset.len self = (length (concat files) * (1 + 1))%nat /\
    Dataset.len self = 4%nat.
Proof.
  destruct (outcome (Dataset.init dict_all reverse_triplet_spec fs_train
                       "train.json" "task" [])) as [self|] eqn:Hd;
    [|by vm_compute in Hd].
  destruct (proj2 (loaded_dataset_len dict_all reverse_triplet_spec fs_train)
              "train.json" "task" self Hd) as (files & Hfiles & Hlen & _).
  exists self, files. split; [done|]. split; [exact Hfiles|]. split; [exact Hlen|].
  assert (Hself : self = match outcome (Dataset.init dict_all reverse_triplet_spec
                                          fs_train "train.json" "task" []) with
                         | Ok d => d
                         | Raise _ => self
                         end) by by rewrite Hd.
  rewrite Hself. vm_compute. reflexivity.
Defined.

(** ** The index [Dataset.__init__] builds *)

Lemma last_index_None i exs r t :
  last_index i exs r t = None <-> Forall (fun e => ~ keyed r t e) exs.
Proof.
  revert i. induction exs as [|e exs IH]; intros i; simpl.
  - split; [constructor|done].
  - destruct (last_index (S i) exs r t) as [j|] eqn:Hl.
    + split; [done|]. intros [_ Hall]%Forall_cons.
      apply (proj2 (IH (S i))) in Hall. congruence.
    + apply (proj1 (IH (S i))) in Hl. case_bool_decide.
      * split; [done|]. by intros [? _]%Forall_cons.
      * split; [by constructor|done].
Qed.

Lemma last_index_Some i exs r t j :
  last_index i exs r t = Some j ->
  exists e, (i <= j)%nat /\ exs !! (j - i)%nat = Some e /\ keyed r t e /\
            Forall (fun e' => ~ keyed r t e') (drop (S (j - i)) exs).
Proof.
  revert i. induction exs as [|e exs IH]; intros i; simpl; [done|].
  destruct (last_index (S i) exs r t) as [j'|] eqn:Hl.
  - intros [= <-]. apply IH in Hl as (e1 & Hle & He1 & Hk & Hall).
    exists e1. split; [lia|].
    replace (j' - i)%nat with (S (j' - S i)) by lia. by simpl.
  - case_bool_decide; [|done]. intros [= <-]. exists e.
    rewrite Nat.sub_diag. simpl. split; [lia|]. split; [done|]. split; [done|].
    rewrite drop_0. by apply (last_index_None (S i)).
Qed.

Lemma last_index_ge i exs r t n e :
  exs !! n = Some e -> keyed r t e ->
  exists j, last_index i exs r t = Some j /\ (i + n <= j)%nat.
Proof.
  revert i n. induction exs as [|e0 exs IH]; intros i n; simpl; [done|].
  destruct n as [|n]; simpl.
  - intros [= ->] Hk.
    destruct (last_index (S i) exs r t) as [j|] eqn:Hl.
    + apply last_index_Some in Hl as (_ & Hle & _). exists j. split; [done|lia].
    + rewrite bool_decide_eq_true_2 by done. exists i. split; [done|lia].
  - intros He Hk. destruct (IH (S i) n He Hk) as (j & -> & Hle).
    exists j. split; [done|lia].
Qed.

Section IndexFacts.
Variable entity_dict : string -> option EntityExample.

(** One turn of the loop rebinds the bucket of the example to [[i]] and
    leaves every other bucket alone. *)
Lemma index_example_bucket self i example self' r t :
  outcome (Dataset.index_example entity_dict self i example) = Ok self' ->
  bucket (Dataset.rel2ent_t self') r t
  = if bool_decide (keyed r t example) then Some [i]
    else bucket (Dataset.rel2ent_t self) r t.
Proof.
  unfold Dataset.index_example, mbind, dir_bind.
  destruct (outcome (head entity_dict example)); simpl; [|done].
  intros [= <-]. simpl. unfold bucket, keyed.
  destruct (decide (relation example = r)) as [<-|Hr].
  - destruct (Dataset.rel2ent_t self !! relation example) as [ents|] eqn:Hm;
      rewrite lookup_insert_eq; simpl;
      (destruct (decide (tail_id example = t)) as [<-|Ht];
       [ rewrite lookup_insert_eq; by rewrite bool_decide_eq_true_2
       | rewrite lookup_insert_ne by done;
         by rewrite bool_decide_eq_false_2 by tauto ]).
  - rewrite bool_decide_eq_false_2 by tauto.
    destruct (Dataset.rel2ent_t self !! relation example);
      by rewrite lookup_insert_ne.
Qed.

Lemma index_loop_bucket exs self i self' r t :
  outcome (Dataset.index_loop entity_dict self i exs) = Ok self' ->
  bucket (Dataset.rel2ent_t self') r t
  = match last_index i exs r t with
    | Some j => Some [j]
    | None => bucket (Dataset.rel2ent_t self) r t
    end.
Proof.
  revert self i. induction exs as [|e exs IH]; intros self i; simpl.
  - by intros [= <-].
  - unfold mbind, dir_bind.
    destruct (outcome (Dataset.index_example _ self i e)) as [s1|] eqn:H1;
      simpl; [|done].
    intros H2. rewrite (IH _ _ H2).
    destruct (last_index (S i) exs r t); [done|].
    rewrite (index_example_bucket _ _ _ _ r t H1). by case_bool_decide.
Qed.

(** What [rel2ent_t] holds once [__init__] has returned: every bucket is
    the one-element list of the index of the last example with its
    relation and tail, and the bucket of an example holds its index or a
    later one. *)
Lemma init_buckets reverse_triplet fs path task exs self :
  outcome (Dataset.init entity_dict reverse_triplet fs path task exs) = Ok self ->
  (exs <> [] -> Dataset.examples self = exs) /\
  (forall r t b, bucket (Dataset.rel2ent_t self) r t = Some b ->
     exists j e, b = [j] /\ Dataset.examples self !! j = Some e /\ keyed r t e /\
                 Forall (fun e' => ~ keyed r t e')
                        (drop (S j) (Dataset.examples self))) /\
  (forall i e, Dataset.examples self !! i = Some e ->
     exists j, (i <= j)%nat /\
       bucket (Dataset.rel2ent_t self) (relation e) (tail_id e) = Some [j]).
Proof.
  unfold Dataset.init.
  destruct (py_assert _); [|done].
  destruct (match exs with
            | [] => load_paths reverse_triplet fs (split_on ","%char path) []
            | _ :: _ => Ok exs
            end) as [examples|] eqn:Hex; [|done].
  intros Hi.
  assert (He : Dataset.examples self = examples)
    by (by apply index_loop_examples in Hi).
  rewrite He. split.
  - intros Hne. destruct exs; [done|]. by injection Hex as <-.
  - split.
    + intros r t b. rewrite (index_loop_bucket _ _ _ _ r t Hi). simpl.
      destruct (last_index 0 examples r t) as [j|] eqn:Hl; [|done].
      intros [= <-]. apply last_index_Some in Hl as (e & _ & Hj & Hk & Hall).
      rewrite Nat.sub_0_r in Hj, Hall. by exists j, e.
    + intros i e Hie.
      destruct (last_index_ge 0 examples (relation e) (tail_id e) i e Hie)
        as (j & Hj & Hle); [done|].
      exists j. split; [lia|].
      by rewrite (index_loop_bucket _ _ _ _ _ _ Hi), Hj.
Qed.

End IndexFacts.

(** C1, at two examples that share relation and tail: [__init__] returns,
    both examples are counted for [r], and the bucket of [r] and [t] is
    [[1]]; index 0 is a member of no bucket of [rel2ent_t]. *)
Theorem shared_bucket_keeps_last_index :
  exists self,
    dataset_shared = Ok self /\
    Dataset.len self = 2%nat /\
    Dataset.rel_ex_cnt self !! "r"%string = Some 2 /\
    bucket (Dataset.rel2ent_t self) "r" "t" = Some [1%nat] /\
    Dataset.buckets_of self 0 = [] /\
    Dataset.buckets_of self 1 = [("r"%string, "t"%string)] /\
    forall r t b, bucket (Dataset.rel2ent_t self) r t = Some b -> 0%nat ∉ b.
Proof.
  destruct dataset_shared as [self|] eqn:Hd; [|by vm_compute in Hd].
  exists self. split; [done|].
  assert (Hself : self = match dataset_shared with
                         | Ok d => d
                         | Raise _ => self
                         end) by by rewrite Hd.
  split; [rewrite Hself; vm_compute; reflexivity|].
  split; [rewrite Hself; vm_compute; reflexivity|].
  split; [rewrite Hself; vm_compute; reflexivity|].
  split; [rewrite Hself; vm_compute; reflexivity|].
  split; [rewrite Hself; vm_compute; reflexivity|].
  intros r t b Hb.
  destruct (init_buckets dict_all reverse_triplet_spec fs_empty "" "task"
              examples_shared self Hd) as (Hexs & Hbuckets & _).
  rewrite Hexs in Hbuckets by discriminate.
  destruct (Hbuckets r t b Hb) as (j & e & -> & He & Hk & Hall).
  intros Hin. apply list_elem_of_singleton in Hin as <-.
  injection He as <-. destruct Hk as [<- <-]. simpl in Hall.
  apply Forall_cons in Hall as [Hno _]. apply Hno. by split.
Qed.

(** ** [ds_info]: what is copied and what is shared *)

Module StoreFacts.
Import Store.

Lemma closed_refs (h : heap) l o l' :
  closed h = true -> h !! l = Some o -> l' ∈ refs o -> (l' < length h)%nat.
Proof.
  unfold closed. rewrite forallb_forall. intros Hc Hl Hin.
  apply list_elem_of_lookup_2, list_elem_of_In in Hl.
  specialize (Hc _ Hl). rewrite forallb_forall in Hc.
  apply list_elem_of_In in Hin. apply Hc in Hin. by apply Nat.ltb_lt.
Qed.

(** Two stores that agree below [n], the first closed below [n], read the
    same from any value that points below [n]. *)
Lemma read_agree (n : nat) (h1 h2 : heap) :
  (forall l, (l < n)%nat -> h1 !! l = h2 !! l) ->
  (forall l o l', (l < n)%nat -> h1 !! l = Some o -> l' ∈ refs o -> (l' < n)%nat) ->
  forall depth v,
    (forall l, l ∈ value_refs v -> (l < n)%nat) ->
    read depth h2 v = read depth h1 v.
Proof.
  intros Hagree Hclosed depth. induction depth as [|d IH]; intros v Hv.
  - by destruct v.
  - destruct v as [| | |l]; cbn [read]; try done.
    assert (Hl : (l < n)%nat) by (apply Hv; simpl; apply elem_of_cons; by left).
    rewrite <- (Hagree l Hl).
    destruct (h1 !! l) as [[items|entries]|] eqn:Ho; [| |done].
    + f_equal. apply list_fmap_ext. intros i v Hi. apply IH.
      intros l' Hl'. eapply Hclosed; [exact Hl|exact Ho|].
      simpl. apply list_elem_of_bind. exists v. split; [done|].
      by eapply list_elem_of_lookup_2.
    + f_equal. apply list_fmap_ext. intros i [k v] Hi. simpl. f_equal.
      apply IH. intros l' Hl'. eapply Hclosed; [exact Hl|exact Ho|].
      simpl. apply list_elem_of_bind. exists v. split; [done|].
      apply list_elem_of_fmap. exists (k, v). split; [done|].
      by eapply list_elem_of_lookup_2.
Qed.

Lemma allocated_lt (h : heap) (s : self) :
  allocated h s = true ->
  (examples s < length h /\ rels s < length h /\ rel2ent_t s < length h /\
   rel_ex_cnt s < length h /\ ex_hid s < length h /\ idx2example s < length h)%nat.
Proof.
  unfold allocated. simpl. rewrite !andb_true_iff, !Nat.ltb_lt. tauto.
Qed.

(** [ds_info] appends three objects to the store and returns. *)
Lemma ds_info_appends (h : heap) (s : self) :
  allocated h s = true ->
  exists o_rels o_rel2ent_t o_rel_ex_cnt n,
    h !! rels s = Some o_rels /\
    h !! rel2ent_t s = Some o_rel2ent_t /\
    h !! rel_ex_cnt s = Some o_rel_ex_cnt /\
    len h (examples s) = Ok n /\
    ds_info h s
    = Ok (h ++ [o_rels; o_rel2ent_t; o_rel_ex_cnt],
          {| info_rels := length h;
             info_rel2ent_t := S (length h);
             info_rel_ex_cnt := S (S (length h));
             info_ex_cnt := n;
             info_ex_hid := ex_hid s;
             info_id2example := idx2example s |}).
Proof.
  intros (He & Hr & Ht & Hc & _ & _)%allocated_lt.
  destruct (lookup_lt_is_Some_2 h _ Hr) as [o1 H1].
  destruct (lookup_lt_is_Some_2 h _ Ht) as [o2 H2].
  destruct (lookup_lt_is_Some_2 h _ Hc) as [o3 H3].
  destruct (lookup_lt_is_Some_2 h _ He) as [o4 H4].
  exists o1, o2, o3.
  exists (match o4 with
          | OList items => Z.of_nat (length items)
          | ODict entries => Z.of_nat (size entries)
          end).
  split; [done|]. split; [done|]. split; [done|].
  split; [unfold len; rewrite H4; by destruct o4|].
  unfold ds_info, copy, alloc. rewrite H1. simpl.
  rewrite (lookup_app_l_Some _ _ _ _ H2). simpl.
  rewrite (lookup_app_l_Some _ _ _ o3); [|by apply lookup_app_l_Some]. simpl.
  unfold len.
  rewrite (lookup_app_l_Some _ _ _ o4);
    [|by do 2 apply lookup_app_l_Some].
  rewrite !length_app. simpl.
  replace (length h + 1)%nat with (S (length h)) by lia.
  replace (S (length h) + 1)%nat with (S (S (length h))) by lia.
  rewrite <- !app_assoc. simpl. by destruct o4.
Qed.

End StoreFacts.

Module StoreBuild.
Import Store.

Lemma refs_lt_mono (ls : list loc) n m :
  (n <= m)%nat ->
  forallb (fun l => l <? n)%nat ls = true -> forallb (fun l => l <? m)%nat ls = true.
Proof.
  intros Hnm. rewrite !forallb_forall. intros Hall l Hl.
  specialize (Hall l Hl). apply Nat.ltb_lt in Hall. apply Nat.ltb_lt. lia.
Qed.

Lemma closed_alloc (h : heap) (o : object) :
  closed h = true ->
  forallb (fun l => l <? S (length h))%nat (refs o) = true ->
  closed (alloc h o).1 = true.
Proof.
  unfold closed, alloc. simpl. intros Hc Ho.
  rewrite forallb_app, length_app. simpl. rewrite Nat.add_1_r.
  rewrite Ho. simpl. rewrite andb_true_r.
  rewrite forallb_forall in Hc. apply forallb_forall. intros o' Ho'.
  eapply refs_lt_mono; [|by apply Hc]. lia.
Qed.

Lemma sound_alloc_bucket : sound alloc_bucket.
Proof.
  intros h b h' r Hc. unfold alloc_bucket. simpl. intros [= <- <-].
  split; [|split].
  - apply (closed_alloc h); [done|].
    simpl. induction b as [|i b IH]; [done|]. by simpl.
  - rewrite length_app. lia.
  - simpl. rewrite length_app. simpl. rewrite andb_true_r. apply Nat.ltb_lt. lia.
Qed.

Lemma alloc_entries_sound {V} (alloc_value : heap -> V -> heap * value)
    (kvs : list (string * V)) (h h' : heap) (es : list (key * value)) :
  sound alloc_value -> closed h = true ->
  alloc_entries alloc_value h kvs = (h', es) ->
  closed h' = true /\ (length h <= length h')%nat /\
  forallb (fun l => l <? length h')%nat (es.*2 ≫= value_refs) = true.
Proof.
  intros Hs. revert h h' es. induction kvs as [|[k v] kvs IH]; intros h h' es Hc; simpl.
  - intros [= <- <-]. done.
  - destruct (alloc_value h v) as [h1 r] eqn:Hv.
    destruct (alloc_entries alloc_value h1 kvs) as [h2 rs] eqn:Hrs.
    intros [= <- <-].
    destruct (Hs _ _ _ _ Hc Hv) as (Hc1 & Hle1 & Hr).
    destruct (IH _ _ _ Hc1 Hrs) as (Hc2 & Hle2 & Hrs').
    split; [done|]. split; [lia|].
    change (forallb (fun l => l <? length h2)%nat
              (value_refs r ++ (rs.*2 ≫= value_refs)) = true).
    rewrite forallb_app, Hrs', andb_true_r.
    by eapply refs_lt_mono.
Qed.

Lemma list_to_map_refs (es : list (key * value)) n :
  forallb (fun l => l <? n)%nat (es.*2 ≫= value_refs) = true ->
  forallb (fun l => l <? n)%nat (refs (ODict (list_to_map es))) = true.
Proof.
  rewrite !forallb_forall. intros Hall l Hl. apply Hall.
  apply list_elem_of_In. apply list_elem_of_In in Hl. simpl in Hl.
  apply list_elem_of_bind in Hl as (v & Hlv & Hv).
  apply list_elem_of_bind. exists v. split; [done|].
  apply list_elem_of_fmap in Hv as ([k v'] & -> & Hkv).
  apply elem_of_map_to_list in Hkv.
  apply elem_of_list_to_map_2 in Hkv.
  apply list_elem_of_fmap. by exists (k, v').
Qed.

Lemma sound_alloc_dict {V} (alloc_value : heap -> V -> heap * value) :
  sound alloc_value -> sound (alloc_dict alloc_value).
Proof.
  intros Hs h m h' r Hc. unfold alloc_dict.
  destruct (alloc_entries alloc_value h (map_to_list m)) as [h1 es] eqn:He.
  simpl. intros [= <- <-].
  destruct (alloc_entries_sound _ _ _ _ _ Hs Hc He) as (Hc1 & Hle & Hes).
  split; [|split].
  - apply (closed_alloc h1); [done|]. apply list_to_map_refs.
    eapply refs_lt_mono; [|exact Hes]. lia.
  - rewrite length_app. lia.
  - simpl. rewrite length_app. simpl. rewrite andb_true_r. apply Nat.ltb_lt. lia.
Qed.

Lemma refs_immediate (es : list (key * value)) n :
  Forall (fun kv => value_refs kv.2 = []) es ->
  forallb (fun l => l <? n)%nat (refs (ODict (list_to_map es))) = true.
Proof.
  intros Hall. apply list_to_map_refs.
  induction Hall as [|[k v] es Hv _ IH]; [done|].
  change (forallb (fun l => l <? n)%nat
            (value_refs v ++ (es.*2 ≫= value_refs)) = true).
  simpl in Hv. by rewrite Hv.
Qed.

Lemma refs_OList_immediate (items : list value) :
  Forall (fun v => value_refs v = []) items -> refs (OList items) = [].
Proof.
  induction 1 as [|v items Hv _ IH]; [done|].
  change (value_refs v ++ refs (OList items) = []). by rewrite Hv, IH.
Qed.

(** The store [__init__] leaves is closed and holds every attribute. *)
Lemma of_dataset_closed (d : Dataset.t) :
  closed (of_dataset d).1 = true /\ allocated (of_dataset d).1 (of_dataset d).2 = true.
Proof.
  unfold of_dataset, alloc. simpl.
  set (o1 := OList (VExample <$> Dataset.examples d)).
  set (o2 := OList (VStr <$> Dataset.rels d)).
  set (o4 := ODict _). set (o5 := nat_keyed VStr _). set (o6 := nat_keyed VExample _).
  assert (Hc2 : closed [o1; o2] = true).
  { apply (closed_alloc [o1] o2).
    - apply (closed_alloc [] o1); [done|].
      unfold o1. rewrite refs_OList_immediate; [done|].
      apply Forall_fmap, Forall_forall. by intros.
    - unfold o2. rewrite refs_OList_immediate; [done|].
      apply Forall_fmap, Forall_forall. by intros. }
  destruct (alloc_dict (alloc_dict alloc_bucket) [o1; o2] (Dataset.rel2ent_t d))
    as [h3 v3] eqn:H3.
  destruct (sound_alloc_dict _ (sound_alloc_dict _ sound_alloc_bucket)
              _ _ _ _ Hc2 H3) as (Hc3 & Hle3 & Hv3).
  assert (Hv3' : exists l3, v3 = VRef l3 /\ (l3 < length h3)%nat).
  { unfold alloc_dict in H3.
    destruct (alloc_entries _ [o1; o2] _) as [h' es]. simpl in H3.
    injection H3 as <- <-. eexists. split; [done|].
    rewrite length_app. simpl. lia. }
  destruct Hv3' as (l3 & -> & Hl3).
  assert (Hc4 : closed (h3 ++ [o4]) = true).
  { apply (closed_alloc h3); [done|]. apply refs_immediate.
    apply Forall_fmap, Forall_forall. by intros [k v] _. }
  assert (Hc5 : closed ((h3 ++ [o4]) ++ [o5]) = true).
  { apply (closed_alloc (h3 ++ [o4])); [done|]. apply refs_immediate.
    apply Forall_fmap, Forall_forall. by intros [k v] _. }
  assert (Hc6 : closed (((h3 ++ [o4]) ++ [o5]) ++ [o6]) = true).
  { apply (closed_alloc ((h3 ++ [o4]) ++ [o5])); [done|]. apply refs_immediate.
    apply Forall_fmap, Forall_forall. by intros [k v] _. }
  split; [exact Hc6|].
  unfold allocated. simpl. rewrite !length_app. simpl in *.
  rewrite !andb_true_iff, !Nat.ltb_lt. lia.
Qed.

End StoreBuild.

(** In a closed store, [ds_info] returns three new objects with the items
    of the dataset's own, and no change of these three objects is seen
    from any object the store held before. *)
Lemma ds_info_frame (h : Store.heap) (s : Store.self) :
  Store.closed h = true ->
  Store.allocated h s = true ->
  exists h' info,
    Store.ds_info h s = Ok (h', info) /\
    (length h <= Store.info_rels info)%nat /\
    (length h <= Store.info_rel2ent_t info)%nat /\
    (length h <= Store.info_rel_ex_cnt info)%nat /\
    h' !! Store.info_rels info = h !! Store.rels s /\
    h' !! Store.info_rel2ent_t info = h !! Store.rel2ent_t s /\
    h' !! Store.info_rel_ex_cnt info = h !! Store.rel_ex_cnt s /\
    Ok (Store.info_ex_cnt info) = Store.len h (Store.examples s) /\
    forall o1 o2 o3 depth l,
      (l < length h)%nat ->
      Store.read depth
        (Store.mutate
           (Store.mutate (Store.mutate h' (Store.info_rels info) o1)
                         (Store.info_rel2ent_t info) o2)
           (Store.info_rel_ex_cnt info) o3)
        (Store.VRef l)
      = Store.read depth h (Store.VRef l).
Proof.
  intros Hclosed Halloc.
  destruct (StoreFacts.ds_info_appends h s Halloc)
    as (o1 & o2 & o3 & n & H1 & H2 & H3 & Hn & ->).
  eexists _, _. split; [reflexivity|]. simpl.
  split; [lia|]. split; [lia|]. split; [lia|].
  split. { rewrite lookup_app_r by lia. by rewrite Nat.sub_diag, H1. }
  split. { rewrite lookup_app_r by lia.
           replace (S (length h) - length h)%nat with 1%nat by lia.
           by rewrite H2. }
  split. { rewrite lookup_app_r by lia.
           replace (S (S (length h)) - length h)%nat with 2%nat by lia.
           by rewrite H3. }
  split; [done|].
  intros p1 p2 p3 depth l Hl.
  apply (StoreFacts.read_agree (length h)).
  - intros l' Hl'. unfold Store.mutate.
    rewrite !list_lookup_insert_ne by lia. by rewrite lookup_app_l.
  - intros l1 o l2 _ Ho Hin. by eapply StoreFacts.closed_refs.
  - intros l' [->|Hin]%elem_of_cons; [done|]. by apply elem_of_nil in Hin.
Qed.

(** C8 (as the code has it). For the store of any dataset, [ds_info]
    returns new list and dictionary objects for [rels], [rel2ent_t] and
    [rel_ex_cnt], holding the items of the dataset's own: whatever is done
    to these three returned objects themselves (items added, removed or
    rebound), every structure of the dataset reads as before, to any
    depth. *)
Theorem ds_info_shallow_copies (d : Dataset.t) :
  exists h' info,
    Store.ds_info (Store.of_dataset d).1 (Store.of_dataset d).2 = Ok (h', info) /\
    (length (Store.of_dataset d).1 <= Store.info_rels info)%nat /\
    (length (Store.of_dataset d).1 <= Store.info_rel2ent_t info)%nat /\
    (length (Store.of_dataset d).1 <= Store.info_rel_ex_cnt info)%nat /\
    h' !! Store.info_rels info
      = (Store.of_dataset d).1 !! Store.rels (Store.of_dataset d).2 /\
    h' !! Store.info_rel2ent_t info
      = (Store.of_dataset d).1 !! Store.rel2ent_t (Store.of_dataset d).2 /\
    h' !! Store.info_rel_ex_cnt info
      = (Store.of_dataset d).1 !! Store.rel_ex_cnt (Store.of_dataset d).2 /\
    Ok (Store.info_ex_cnt info)
      = Store.len (Store.of_dataset d).1 (Store.examples (Store.of_dataset d).2) /\
    forall o1 o2 o3 depth l,
      (l < length (Store.of_dataset d).1)%nat ->
      Store.read depth
        (Store.mutate
           (Store.mutate (Store.mutate h' (Store.info_rels info) o1)
                         (Store.info_rel2ent_t info) o2)
           (Store.info_rel_ex_cnt info) o3)
        (Store.VRef l)
      = Store.read depth (Store.of_dataset d).1 (Store.VRef l).
Proof.
  destruct (StoreBuild.of_dataset_closed d) as [Hc Ha].
  exact (ds_info_frame _ _ Hc Ha).
Qed.

(** C8, as stated, fails.  The copy of [rel2ent_t] holds the dataset's own
    inner dictionaries: clearing [info["rel2ent_t"]["r"]] empties the
    dataset's bucket table for [r].  And [ex_hid] is not a copy at all:
    an assignment to [info["ex_hid"][0]] is one to the dataset's own. *)
Lemma ds_info_shares_nested_values :
  exists h' info,
    Store.ds_info store_shared.1 store_shared.2 = Ok (h', info) /\
    Store.read 3 (Store.clear_nested h' (Store.info_rel2ent_t info) (inl "r"%string))
                 (Store.VRef (Store.rel2ent_t store_shared.2))
    <> Store.read 3 store_shared.1 (Store.VRef (Store.rel2ent_t store_shared.2)) /\
    Store.read 3 (Store.dict_set h' (Store.info_ex_hid info) (inr 0)
                                 (Store.VStr "x"))
                 (Store.VRef (Store.ex_hid store_shared.2))
    <> Store.read 3 store_shared.1 (Store.VRef (Store.ex_hid store_shared.2)).
Proof.
  eexists _, _. split; [vm_compute; reflexivity|].
  split; vm_compute; intros H; discriminate H.
Qed.

(** ** The random source *)

Lemma mapM_Ok_Forall2 {A B} (f : A -> result B) (l : list A) (r : list B) :
  mapM f l = Ok r -> Forall2 (fun x y => f x = Ok y) l r.
Proof.
  revert r. induction l as [|a l IH]; intros r; simpl.
  - intros [= <-]. constructor.
  - destruct (f a) as [b|] eqn:Hfa; simpl; [|done].
    destruct (mapM f l) as [bs|]; simpl; [|done].
    intros [= <-]. constructor; eauto.
Qed.

Section RandomFacts.
Variable random : nat -> nat.

Lemma choice_nonempty {A} (population : list A) pos :
  population <> [] ->
  exists x, choice random population pos = Ok (x, S pos) /\ x ∈ population.
Proof.
  intros Hne. unfold choice, draw_below, mbind, rand_bind.
  assert (Hlt : (random pos mod length population < length population)%nat).
  { apply Nat.mod_upper_bound. by destruct population. }
  destruct (lookup_lt_is_Some_2 _ _ Hlt) as [x Hx]. rewrite Hx.
  exists x. split; [done|]. by eapply list_elem_of_lookup_2.
Qed.

Lemma choice_empty {A} pos : choice random (@nil A) pos = Raise IndexError.
Proof. reflexivity. Qed.

Lemma choices_n_nonempty {A} (population : list A) k pos :
  population <> [] ->
  exists l, choices_n random population k pos = Ok (l, (pos + k)%nat) /\
            length l = k /\ Forall (fun x => x ∈ population) l.
Proof.
  intros Hne. revert pos. induction k as [|k IH]; intros pos; simpl.
  - exists []. by rewrite Nat.add_0_r.
  - destruct (choice_nonempty population pos Hne) as (x & Hx & Hin).
    destruct (IH (S pos)) as (l & Hl & Hlen & Hall).
    exists (x :: l). replace (pos + S k)%nat with (S pos + k)%nat by lia.
    unfold mbind, rand_bind at 1. rewrite Hx.
    unfold mbind, rand_bind at 1. rewrite Hl.
    split; [reflexivity|]. split; [simpl; by rewrite Hlen|]. by constructor.
Qed.

Lemma choices_n_empty {A} k pos :
  choices_n random (@nil A) (S k) pos = Raise IndexError.
Proof. reflexivity. Qed.

Lemma choices_n_Ok {A} (population : list A) k pos l pos' :
  choices_n random population k pos = Ok (l, pos') ->
  length l = k /\ Forall (fun x => x ∈ population) l.
Proof.
  destruct population as [|a population].
  - destruct k; [by intros [= <- _]|done].
  - destruct (choices_n_nonempty (a :: population) k pos) as (l' & -> & ? & ?);
      [done|]. by intros [= <- _].
Qed.

End RandomFacts.

(** ** [concept_filter] *)

Section SamplerFacts.
Variable args : Args.
Variable entity_dict : string -> option EntityExample.
Variable random : nat -> nat.

Lemma concept_filter_pool_raises (self : RelationBatchSampler.t) relation k pos e :
  RelationBatchSampler.candidate_pool self relation = Raise e ->
  RelationBatchSampler.concept_filter random self relation k pos = Raise e.
Proof.
  intros H. unfold RelationBatchSampler.concept_filter, mbind, rand_bind, rand_lift. by rewrite H.
Qed.

Lemma concept_filter_pool_Ok (self : RelationBatchSampler.t) relation k pos pool :
  RelationBatchSampler.candidate_pool self relation = Ok pool ->
  RelationBatchSampler.concept_filter random self relation k pos = choices random pool k pos.
Proof.
  intros H. unfold RelationBatchSampler.concept_filter, mbind, rand_bind, rand_lift. by rewrite H.
Qed.

Lemma concept_filter_zero (self : RelationBatchSampler.t) relation pos temp pos' :
  RelationBatchSampler.concept_filter random self relation 0 pos = Ok (temp, pos') ->
  temp = [] /\ pos' = pos.
Proof.
  destruct (RelationBatchSampler.candidate_pool self relation) as [pool|e] eqn:Hp.
  - rewrite (concept_filter_pool_Ok _ _ _ _ _ Hp). by intros [= <- <-].
  - by rewrite (concept_filter_pool_raises _ _ _ _ _ Hp).
Qed.

(** ** The loop of [__iter__] *)

Lemma report_nil (self : RelationBatchSampler.t) : RelationBatchSampler.report entity_dict self [] = Ok tt.
Proof. reflexivity. Qed.

(** When the loop returns, the target is met and nothing is drawn twice. *)
Lemma cake_loop_returns (self : RelationBatchSampler.t) fuel cnt exs rels pos out pos' :
  RelationBatchSampler.cake_loop entity_dict random self fuel cnt exs rels pos = Returns (out, pos') ->
  NoDup exs ->
  cnt <= Z.of_nat (length out) /\ NoDup out.
Proof.
  revert exs rels pos. induction fuel as [|fuel IH]; intros exs rels pos; simpl.
  - case_bool_decide; [done|]. intros [= <- _] Hnd. split; [lia|done].
  - case_bool_decide.
    + destruct (weighted_choice _ _ _ pos) as [[r pos1]|]; [|done].
      case_bool_decide.
      * intros Hl Hnd. by eapply IH.
      * destruct (RelationBatchSampler.concept_filter _ _ _ _ pos1) as [[temp pos2]|]; [|done].
        destruct (RelationBatchSampler.report _ _ temp); [|done].
        intros Hl _. eapply IH; [exact Hl|]. apply NoDup_remove_dups.
    + intros [= <- _] Hnd. split; [lia|done].
Qed.

(** With [RelationBatchSampler.batch_size // 8 = 0] every draw is empty, and a loop that has to
    reach a positive target from nothing never returns. *)
Lemma cake_loop_stuck (self : RelationBatchSampler.t) fuel cnt rels pos :
  RelationBatchSampler.batch_size self / 8 = 0 -> 0 < cnt ->
  forall r, RelationBatchSampler.cake_loop entity_dict random self fuel cnt [] rels pos <> Returns r.
Proof.
  intros H8 Hcnt. revert rels pos.
  induction fuel as [|fuel IH]; intros rels pos r; simpl.
  - rewrite bool_decide_eq_true_2 by (simpl; lia). done.
  - rewrite bool_decide_eq_true_2 by (simpl; lia).
    destruct (weighted_choice _ _ _ pos) as [[rel pos1]|]; [|done].
    case_bool_decide; [apply IH|].
    rewrite H8.
    destruct (RelationBatchSampler.concept_filter _ _ _ _ pos1) as [[temp pos2]|] eqn:Hc; [|done].
    apply concept_filter_zero in Hc as [-> ->].
    rewrite report_nil. simpl. apply IH.
Qed.

(** A loop with nothing to reach returns at once. *)
Lemma cake_loop_no_target (self : RelationBatchSampler.t) fuel cnt pos :
  cnt <= 0 ->
  RelationBatchSampler.cake_loop entity_dict random self fuel cnt [] [] pos = Returns ([], pos).
Proof.
  intros Hcnt. destruct fuel; simpl; by rewrite bool_decide_eq_false_2 by (simpl; lia).
Qed.

Lemma portions_returns (self : RelationBatchSampler.t) fuel pos cs extra pos' :
  RelationBatchSampler.portions args entity_dict random self fuel pos = Returns (cs, extra, pos') ->
  exists cnt,
    RelationBatchSampler.cake_sample_cnt args = Ok cnt /\
    cnt <= Z.of_nat (length cs) /\ NoDup cs /\
    length extra = Z.to_nat (args_batch_size args - cnt) /\
    Forall (fun i => (i < RelationBatchSampler.ex_cnt self)%nat) extra.
Proof.
  unfold RelationBatchSampler.portions. destruct (RelationBatchSampler.cake_sample_cnt args) as [cnt|]; [|done].
  destruct (RelationBatchSampler.cake_loop _ _ _ _ _ _ _ pos) as [[exs pos1]| |] eqn:Hl; [|done|done].
  destruct (choices _ _ _ pos1) as [[ex pos2]|] eqn:Hc; [|done].
  intros [= <- <- <-]. exists cnt. split; [done|].
  destruct (cake_loop_returns _ _ _ _ _ _ _ _ Hl) as [Hlen Hnd]; [constructor|].
  split; [done|]. split; [done|].
  apply choices_n_Ok in Hc as [Hn Hall]. split; [done|].
  eapply Forall_impl; [exact Hall|]. simpl. intros i Hi.
  apply elem_of_seq in Hi. lia.
Qed.

Lemma slice_to_length {A} (l : list A) (n : Z) :
  0 <= n <= Z.of_nat (length l) -> Z.of_nat (length (slice_to l n)) = n.
Proof.
  intros Hn. unfold slice_to. rewrite (proj2 (Z.leb_le 0 n)) by lia.
  rewrite length_take. lia.
Qed.

Lemma next_batch_length (self : RelationBatchSampler.t) fuel pos b pos' :
  0 <= RelationBatchSampler.batch_size self <= args_batch_size args ->
  RelationBatchSampler.next_batch args entity_dict random self fuel pos = Returns (b, pos') ->
  Z.of_nat (length b) = RelationBatchSampler.batch_size self.
Proof.
  intros HB. unfold RelationBatchSampler.next_batch.
  destruct (RelationBatchSampler.portions _ _ _ _ _ pos) as [[[cs extra] pos1]| |] eqn:Hp; [|done|done].
  intros [= <- _].
  apply portions_returns in Hp as (cnt & _ & Hcs & _ & Hex & _).
  apply slice_to_length. rewrite length_app. lia.
Qed.

Lemma iter_from_exhausted (self : RelationBatchSampler.t) fuel n pos bs :
  RelationBatchSampler.iter_from args entity_dict random self fuel n pos = (bs, Exhausted) ->
  length bs = n.
Proof.
  revert pos bs. induction n as [|n IH]; intros pos bs; simpl.
  - by intros [= <-].
  - destruct (RelationBatchSampler.next_batch _ _ _ _ _ pos) as [[b pos1]| |]; [|done|done].
    destruct (RelationBatchSampler.iter_from _ _ _ _ _ n pos1) as [bs' e] eqn:Hi.
    intros [= <- ->]. simpl. f_equal. by eapply IH.
Qed.

Lemma next_batch_no_target (self : RelationBatchSampler.t) fuel pos cnt :
  RelationBatchSampler.cake_sample_cnt args = Ok cnt -> cnt <= 0 ->
  args_batch_size args - cnt <= 0 \/ (0 < RelationBatchSampler.ex_cnt self)%nat ->
  exists b, RelationBatchSampler.next_batch args entity_dict random self fuel pos
            = Returns (b, (pos + Z.to_nat (args_batch_size args - cnt))%nat).
Proof.
  intros Hc Hcnt Hex. unfold RelationBatchSampler.next_batch, RelationBatchSampler.portions. rewrite Hc.
  rewrite cake_loop_no_target by done. unfold choices.
  destruct (Z.to_nat (args_batch_size args - cnt)) as [|k] eqn:Hk.
  - simpl. rewrite Nat.add_0_r. eauto.
  - destruct (choices_n_nonempty random (seq 0 (RelationBatchSampler.ex_cnt self)) (S k) pos)
      as (l & -> & _ & _); [|eauto].
    destruct Hex as [Hex|Hex]; [lia|]. by destruct (RelationBatchSampler.ex_cnt self); [lia|].
Qed.

Lemma iter_from_no_target (self : RelationBatchSampler.t) fuel n pos cnt :
  RelationBatchSampler.cake_sample_cnt args = Ok cnt -> cnt <= 0 ->
  args_batch_size args - cnt <= 0 \/ (0 < RelationBatchSampler.ex_cnt self)%nat ->
  exists bs, RelationBatchSampler.iter_from args entity_dict random self fuel n pos = (bs, Exhausted) /\
             length bs = n.
Proof.
  intros Hc Hcnt Hex. revert pos. induction n as [|n IH]; intros pos; simpl.
  - by exists [].
  - destruct (next_batch_no_target self fuel pos cnt Hc Hcnt Hex) as [b ->].
    destruct (IH (pos + Z.to_nat (args_batch_size args - cnt))%nat)
      as (bs & -> & Hlen).
    exists (b :: bs). simpl. by rewrite Hlen.
Qed.

End SamplerFacts.

(** ** The candidate pool *)

Lemma getitem_Ok `{Countable K} {V} (d : gmap K V) (k : K) (v : V) :
  getitem d k = Ok v <-> d !! k = Some v.
Proof. unfold getitem. destruct (d !! k); split; congruence. Qed.

Lemma elem_of_concat {A} (ls : list (list A)) (x : A) :
  x ∈ concat ls <-> exists l, l ∈ ls /\ x ∈ l.
Proof.
  rewrite list_elem_of_In, in_concat. split.
  - intros (l & Hl & Hx). exists l. by rewrite !list_elem_of_In.
  - intros (l & Hl & Hx). exists l. by rewrite <- !list_elem_of_In.
Qed.

Lemma Forall2_elem_of_r {A B} (P : A -> B -> Prop) l r y :
  Forall2 P l r -> y ∈ r -> exists x, x ∈ l /\ P x y.
Proof.
  intros HF Hy. apply list_elem_of_lookup_1 in Hy as [i Hi].
  destruct (Forall2_lookup_r _ _ _ _ _ HF Hi) as (x & Hx & HP).
  exists x. split; [by eapply list_elem_of_lookup_2|done].
Qed.

Lemma Forall2_elem_of_l {A B} (P : A -> B -> Prop) l r x :
  Forall2 P l r -> x ∈ l -> exists y, y ∈ r /\ P x y.
Proof.
  intros HF Hx. apply list_elem_of_lookup_1 in Hx as [i Hi].
  destruct (Forall2_lookup_l _ _ _ _ _ HF Hi) as (y & Hy & HP).
  exists y. split; [by eapply list_elem_of_lookup_2|done].
Qed.

(** The pool holds each index once, and holds exactly the indices in the
    buckets of the observed tails that belong to a concept of the
    relation. *)
Lemma candidate_pool_Ok (self : RelationBatchSampler.t) relation pool :
  RelationBatchSampler.candidate_pool self relation = Ok pool ->
  NoDup pool /\
  exists concepts relation_ents,
    RelationBatchSampler.relation_concepts self relation = Some concepts /\
    RelationBatchSampler.rel2ent_t self !! relation = Some relation_ents /\
    forall x, x ∈ pool <->
      exists concept ents ent exs,
        concept ∈ concepts /\
        RelationBatchSampler.dom_ent self !! pretty concept = Some ents /\
        ent ∈ ents /\ relation_ents !! ent = Some exs /\ x ∈ exs.
Proof.
  unfold RelationBatchSampler.candidate_pool,
    RelationBatchSampler.relation_concepts.
  intros Hp.
  assert (exists concepts,
    (if bool_decide (str_take 8 relation = "inverse "%string)
     then RelationBatchSampler.rel2dom_h self !! str_drop 8 relation
     else RelationBatchSampler.rel2dom_t self !! relation) = Some concepts /\
    (relation_ents ← getitem (RelationBatchSampler.rel2ent_t self) relation;
     per_concept ← mapM (fun concept : Z =>
        ents ← getitem (RelationBatchSampler.dom_ent self) (pretty concept);
        Ok (filter (fun ent => is_Some (relation_ents !! ent)) ents)) concepts;
     rel_tail_exs ← mapM (getitem relation_ents) (concat per_concept);
     Ok (list_set (concat rel_tail_exs))) = Ok pool) as (concepts & Hcs & Hrest).
  { case_bool_decide.
    - destruct (getitem (RelationBatchSampler.rel2nn self) _); simpl in Hp; [|done].
      destruct (getitem RelationBatchSampler.reverse_dict _); simpl in Hp; [|done].
      destruct (getitem (RelationBatchSampler.rel2dom_h self) _) as [cs|] eqn:Hc;
        simpl in Hp; [|done].
      apply getitem_Ok in Hc. eauto.
    - destruct (getitem (RelationBatchSampler.rel2nn self) _); simpl in Hp; [|done].
      destruct (getitem (RelationBatchSampler.rel2dom_t self) _) as [cs|] eqn:Hc;
        simpl in Hp; [|done].
      apply getitem_Ok in Hc. eauto. }
  clear Hp.
  destruct (getitem (RelationBatchSampler.rel2ent_t self) relation)
    as [relation_ents|] eqn:Hre; simpl in Hrest; [|done].
  apply getitem_Ok in Hre.
  destruct (mapM _ concepts) as [per_concept|] eqn:Hpc; simpl in Hrest; [|done].
  destruct (mapM _ (concat per_concept)) as [rel_tail_exs|] eqn:Hrt;
    simpl in Hrest; [|done].
  injection Hrest as <-.
  apply mapM_Ok_Forall2 in Hpc. apply mapM_Ok_Forall2 in Hrt.
  split; [apply NoDup_remove_dups|].
  exists concepts, relation_ents. split; [done|]. split; [done|].
  intros x. unfold list_set. rewrite elem_of_remove_dups, elem_of_concat. split.
  - intros (exs & Hexs & Hx).
    destruct (Forall2_elem_of_r _ _ _ _ Hrt Hexs) as (ent & Hent & Hget).
    apply getitem_Ok in Hget.
    apply elem_of_concat in Hent as (filtered & Hf & Hent).
    destruct (Forall2_elem_of_r _ _ _ _ Hpc Hf) as (concept & Hc & Hce).
    simpl in Hce.
    destruct (getitem (RelationBatchSampler.dom_ent self) (pretty concept))
      as [ents|] eqn:Hde; simpl in Hce; [|done].
    injection Hce as <-. apply getitem_Ok in Hde.
    apply list_elem_of_filter in Hent as [_ Hent].
    exists concept, ents, ent, exs. auto.
  - intros (concept & ents & ent & exs & Hc & Hde & Hent & Hget & Hx).
    destruct (Forall2_elem_of_l _ _ _ _ Hpc Hc) as (filtered & Hf & Hce).
    simpl in Hce. apply getitem_Ok in Hde. rewrite Hde in Hce. simpl in Hce.
    injection Hce as <-.
    assert (Hin : ent ∈ concat per_concept).
    { apply elem_of_concat. eexists. split; [exact Hf|].
      apply list_elem_of_filter. split; [by rewrite Hget|done]. }
    destruct (Forall2_elem_of_l _ _ _ _ Hrt Hin) as (exs' & Hexs' & Hget').
    apply getitem_Ok in Hget'. rewrite Hget in Hget'. injection Hget' as <-.
    eauto.
Qed.

(** C5. [concept_filter] raises whenever its candidate pool is empty and a
    positive number of samples is asked for (and whenever the pool cannot
    be formed); with a pool that is not empty it returns exactly
    [example_size] indices of the pool; what it returns never has another
    length; asked for none it returns the empty list, empty pool or not.
    The pool is the set of example indices in the buckets of the observed
    tails of the relation that belong to one of its concepts. *)
Theorem concept_filter_draws (random : nat -> nat)
    (self : RelationBatchSampler.t) (relation : string)
    (example_size : Z) (pos : nat) :
  (forall e, RelationBatchSampler.candidate_pool self relation = Raise e ->
     RelationBatchSampler.concept_filter random self relation example_size pos
     = Raise e) /\
  (forall pool, RelationBatchSampler.candidate_pool self relation = Ok pool ->
     (pool = [] -> 0 < example_size ->
      RelationBatchSampler.concept_filter random self relation example_size pos
      = Raise IndexError) /\
     (example_size = 0 ->
      RelationBatchSampler.concept_filter random self relation example_size pos
      = Ok ([], pos)) /\
     (pool <> [] ->
      exists l,
        RelationBatchSampler.concept_filter random self relation example_size pos
        = Ok (l, (pos + Z.to_nat example_size)%nat) /\
        length l = Z.to_nat example_size /\
        Forall (fun x => x ∈ pool) l)) /\
  (forall l pos',
     RelationBatchSampler.concept_filter random self relation example_size pos
     = Ok (l, pos') ->
     length l = Z.to_nat example_size) /\
  (forall pool, RelationBatchSampler.candidate_pool self relation = Ok pool ->
     exists concepts relation_ents,
       RelationBatchSampler.relation_concepts self relation = Some concepts /\
       RelationBatchSampler.rel2ent_t self !! relation = Some relation_ents /\
       forall x, x ∈ pool <->
         exists concept ents ent exs,
           concept ∈ concepts /\
           RelationBatchSampler.dom_ent self !! pretty concept = Some ents /\
           ent ∈ ents /\ relation_ents !! ent = Some exs /\ x ∈ exs).
Proof.
  split; [intros e He; by apply concept_filter_pool_raises|].
  split; [|split; [|intros pool Hp; by apply candidate_pool_Ok]].
  - intros pool Hp. rewrite (concept_filter_pool_Ok _ _ _ _ _ _ Hp).
    unfold choices. split; [|split].
    + intros -> Hk. destruct (Z.to_nat example_size) eqn:Hn; [lia|done].
    + by intros ->.
    + intros Hne. by apply choices_n_nonempty.
  - intros l pos'.
    destruct (RelationBatchSampler.candidate_pool self relation) as [pool|e] eqn:Hp.
    + rewrite (concept_filter_pool_Ok _ _ _ _ _ _ Hp). unfold choices.
      by intros [? _]%choices_n_Ok.
    + by rewrite (concept_filter_pool_raises _ _ _ _ _ _ Hp).
Qed.

Lemma concept_filter_draws_witness :
  RelationBatchSampler.candidate_pool sampler_empty_pool "r" = Ok [] /\
  RelationBatchSampler.concept_filter random_id sampler_empty_pool "r" 1 0%nat
  = Raise IndexError /\
  RelationBatchSampler.concept_filter random_id sampler_empty_pool "r" 0 0%nat
  = Ok ([], 0%nat).
Proof.
  assert (Hp : RelationBatchSampler.candidate_pool sampler_empty_pool "r" = Ok [])
    by (vm_compute; reflexivity).
  split; [exact Hp|].
  destruct (concept_filter_draws random_id sampler_empty_pool "r" 1 0%nat)
    as (_ & H1 & _ & _).
  destruct (concept_filter_draws random_id sampler_empty_pool "r" 0 0%nat)
    as (_ & H0 & _ & _).
  split.
  - apply (H1 [] Hp); [reflexivity|lia].
  - apply (H0 [] Hp). reflexivity.
Defined.

(** ** Floating point *)

(** [int(x)] keeps the integer part of a finite [x]. *)
Lemma int_of_float_finite (s : bool) (m : positive) (e : Z) :
  int_of_float (S754_finite s m e)
  = Ok (cond_Zopp s (if 0 <=? e then Zpos m * 2 ^ e else Zpos m / 2 ^ (- e))).
Proof.
  simpl. do 2 f_equal. destruct (Z.leb_spec 0 e).
  - by apply Z.shiftl_mul_pow2.
  - apply Z.shiftl_div_pow2. lia.
Qed.

Section PassFacts.
Variable args : Args.
Variable entity_dict : string -> option EntityExample.
Variable random : nat -> nat.

Lemma iter_from_lengths (self : RelationBatchSampler.t) fuel n pos bs e :
  0 <= RelationBatchSampler.batch_size self <= args_batch_size args ->
  RelationBatchSampler.iter_from args entity_dict random self fuel n pos = (bs, e) ->
  Forall (fun b => Z.of_nat (length b) = RelationBatchSampler.batch_size self) bs.
Proof.
  intros HB. revert pos bs e. induction n as [|n IH]; intros pos bs e; simpl.
  - intros [= <- _]. constructor.
  - destruct (RelationBatchSampler.next_batch _ _ _ _ _ pos)
      as [[b pos1]| |] eqn:Hb; [|intros [= <- _]; constructor..].
    destruct (RelationBatchSampler.iter_from _ _ _ _ _ n pos1) as [bs' e'] eqn:Hi.
    intros [= <- _]. constructor; [by eapply next_batch_length|by eapply IH].
Qed.

End PassFacts.

Section FuelFacts.
Variable args : Args.
Variable entity_dict : string -> option EntityExample.
Variable random : nat -> nat.

(** Fuel only bounds the search for the end of the loop: once a run ends
    within its fuel, more fuel changes nothing. *)
Lemma cake_loop_fuel_mono (self : RelationBatchSampler.t) fuel fuel' cnt exs rels pos :
  (fuel <= fuel')%nat ->
  RelationBatchSampler.cake_loop entity_dict random self fuel cnt exs rels pos
    <> OutOfFuel ->
  RelationBatchSampler.cake_loop entity_dict random self fuel' cnt exs rels pos
  = RelationBatchSampler.cake_loop entity_dict random self fuel cnt exs rels pos.
Proof.
  revert fuel' exs rels pos.
  induction fuel as [|fuel IH]; intros fuel' exs rels pos Hle; simpl.
  - case_bool_decide; [done|]. intros _.
    destruct fuel'; simpl; by rewrite bool_decide_eq_false_2.
  - destruct fuel' as [|fuel']; [lia|]. simpl.
    case_bool_decide; [|done].
    destruct (weighted_choice _ _ _ pos) as [[r pos1]|]; [|done].
    case_bool_decide.
    + intros Hne. apply IH; [lia|done].
    + destruct (RelationBatchSampler.concept_filter _ _ _ _ pos1)
        as [[temp pos2]|]; [|done].
      destruct (RelationBatchSampler.report _ _ temp); [|done].
      intros Hne. apply IH; [lia|done].
Qed.

Lemma next_batch_fuel_mono (self : RelationBatchSampler.t) fuel fuel' pos :
  (fuel <= fuel')%nat ->
  RelationBatchSampler.next_batch args entity_dict random self fuel pos
    <> OutOfFuel ->
  RelationBatchSampler.next_batch args entity_dict random self fuel' pos
  = RelationBatchSampler.next_batch args entity_dict random self fuel pos.
Proof.
  intros Hle. unfold RelationBatchSampler.next_batch, RelationBatchSampler.portions.
  destruct (RelationBatchSampler.cake_sample_cnt args) as [cnt|]; [|done].
  intros Hne.
  rewrite (cake_loop_fuel_mono self fuel fuel' cnt [] [] pos Hle); [done|].
  intros Hf. by rewrite Hf in Hne.
Qed.

Lemma iter_from_fuel_mono (self : RelationBatchSampler.t) fuel fuel' n pos bs :
  (fuel <= fuel')%nat ->
  RelationBatchSampler.iter_from args entity_dict random self fuel n pos
    = (bs, Exhausted) ->
  RelationBatchSampler.iter_from args entity_dict random self fuel' n pos
    = (bs, Exhausted).
Proof.
  intros Hle. revert pos bs. induction n as [|n IH]; intros pos bs; simpl; [done|].
  destruct (RelationBatchSampler.next_batch _ _ _ _ fuel pos)
    as [[b pos1]| |] eqn:Hb; [|done|done].
  rewrite (next_batch_fuel_mono self fuel fuel' pos Hle) by by rewrite Hb.
  rewrite Hb.
  destruct (RelationBatchSampler.iter_from _ _ _ _ fuel n pos1) as [bs' e] eqn:Hi.
  intros [= <- ->]. by rewrite (IH _ _ Hi).
Qed.

(** With [batch_size // 8 = 0] and a positive target, a pass over a sampler
    with a relation never reaches its first [yield]. *)
Lemma iter_stuck (self : RelationBatchSampler.t) fuel pos cnt bs :
  RelationBatchSampler.batch_size self / 8 = 0 ->
  RelationBatchSampler.cake_sample_cnt args = Ok cnt -> 0 < cnt ->
  (0 < RelationBatchSampler.len self)%nat ->
  RelationBatchSampler.iter args entity_dict random self fuel pos
    <> (bs, Exhausted).
Proof.
  intros H8 Hc Hcnt Hlen. unfold RelationBatchSampler.iter.
  unfold RelationBatchSampler.len in Hlen.
  destruct (RelationBatchSampler.length self) as [|n]; [lia|]. simpl.
  unfold RelationBatchSampler.next_batch, RelationBatchSampler.portions.
  rewrite Hc.
  destruct (RelationBatchSampler.cake_loop entity_dict random self fuel cnt [] [] pos)
    as [r| |] eqn:Hloop; [|done|done].
  by apply cake_loop_stuck in Hloop.
Qed.

End FuelFacts.

(** * Further properties of the code *)

(** ** Entity names and descriptions *)

Lemma append_nil_r (s : string) : s +:+ "" = s.
Proof.
  induction s as [|a s IH]; [done|].
  change (String a (s +:+ "") = String a s). by rewrite IH.
Qed.

Lemma split_on_nonempty (sep : ascii) (s : string) : split_on sep s <> [].
Proof.
  destruct s as [|a s]; simpl; [done|].
  case_bool_decide; [done|]. by destruct (split_on sep s).
Qed.

(** Splitting after a word without the separator. *)
Lemma split_on_app (sep : ascii) (w s : string) :
  has_char sep w = false ->
  split_on sep (w +:+ s)
  = match split_on sep s with
    | [] => [w]
    | x :: xs => (w +:+ x) :: xs
    end.
Proof.
  induction w as [|a w IH]; simpl.
  - intros _. change ("" +:+ s)%string with s.
    destruct (split_on sep s) as [|x xs] eqn:Hs; [by apply split_on_nonempty in Hs|].
    done.
  - case_bool_decide; [done|]. intros Hw.
    change (String a w +:+ s) with (String a (w +:+ s)). cbn [split_on].
    rewrite ?bool_decide_eq_false_2 by done. rewrite (IH Hw).
    destruct (split_on sep s) as [|x xs] eqn:Hs; [by apply split_on_nonempty in Hs|].
    done.
Qed.

(** [sep.join(ws).split(sep) == ws] for words without the separator. *)
Lemma split_on_join (sep : ascii) (ws : list string) :
  ws <> [] ->
  Forall (fun w => has_char sep w = false) ws ->
  split_on sep (join (String sep "") ws) = ws.
Proof.
  induction ws as [|w ws IH]; [done|]. intros _ Hall.
  apply Forall_cons in Hall as [Hw Hall].
  destruct ws as [|w' ws].
  - simpl. rewrite <- (append_nil_r w) at 1. rewrite split_on_app by done.
    simpl. by rewrite append_nil_r.
  - change (join (String sep "") (w :: w' :: ws))
      with (w +:+ String sep "" +:+ join (String sep "") (w' :: ws)).
    set (J := join (String sep "") (w' :: ws)) in *.
    rewrite split_on_app by done.
    change (String sep "" +:+ J) with (String sep J).
    cbn [split_on]. rewrite bool_decide_eq_true_2 by done.
    rewrite append_nil_r. subst J. by rewrite IH.
Qed.

(** X1. Under the task [wn18rr] (in any letter case),
    [_parse_entity_name] drops the last two underscore-separated tags of
    a name and joins the words before them with spaces; a name without an
    underscore, having no two tags to drop, comes out empty. *)
Theorem parse_entity_name_drops_two_tags (args : Args) :
  lower (task args) = "wn18rr"%string ->
  (forall (ws : list string) (pos sense : string),
     Forall (fun w => has_char "_" w = false) (ws ++ [pos; sense]) ->
     _parse_entity_name args (join "_" (ws ++ [pos; sense])) = join " " ws) /\
  (forall s, has_char "_" s = false -> _parse_entity_name args s = EmptyString).
Proof.
  intros Htask. unfold _parse_entity_name.
  rewrite bool_decide_eq_true_2 by done. split.
  - intros ws pos sense Hall.
    rewrite (split_on_join "_" (ws ++ [pos; sense])); [|by destruct ws|done].
    assert (Hslice : slice_to (ws ++ [pos; sense]) (-2) = ws).
    { unfold slice_to. change (0 <=? -2) with false. cbv iota.
      replace (length (ws ++ [pos; sense]) - Z.to_nat (- -2))%nat
        with (length ws) by (rewrite length_app; simpl; lia).
      apply take_app_length. }
    by rewrite Hslice.
  - intros s Hs. rewrite <- (append_nil_r s). rewrite split_on_app by done.
    reflexivity.
Qed.

Lemma parse_entity_name_drops_two_tags_witness :
  _parse_entity_name (args_of_task "WN18RR")
    (join "_" (["family"; "alcidae"] ++ ["NN"; "1"]))%string
  = join " " ["family"; "alcidae"]%string.
Proof.
  apply (proj1 (parse_entity_name_drops_two_tags (args_of_task "WN18RR") eq_refl)).
  repeat constructor.
Defined.

Lemma prefix_app (s t : string) : String.prefix s (s +:+ t) = true.
Proof.
  induction s as [|a s IH]; [by destruct t|].
  change (String a s +:+ t) with (String a (s +:+ t)). simpl.
  by destruct (ascii_dec a a).
Qed.

Lemma str_drop_app (s t : string) : str_drop (String.length s) (s +:+ t) = t.
Proof.
  induction s as [|a s IH]; [by destruct t|].
  change (String a s +:+ t) with (String a (s +:+ t)). by simpl.
Qed.

Lemma lstrip_all_isspace (s : string) :
  all_isspace s = true -> lstrip s = EmptyString.
Proof.
  induction s as [|c s IH]; [done|]. cbn [all_isspace lstrip].
  intros [Hc Hs]%andb_true_iff. rewrite Hc. by apply IH.
Qed.

(** X2. The text [_concat_name_desc] builds always begins with the entity
    name; a description that itself begins with the name contributes only
    what follows the name, stripped of surrounding white space, after
    ": ", and nothing (not even the separator) when nothing but white
    space follows. *)
Theorem concat_name_desc_no_repeat (entity : string) :
  (forall entity_desc,
     String.prefix entity (_concat_name_desc entity entity_desc) = true) /\
  (forall rest,
     _concat_name_desc entity (entity +:+ rest)
     = if bool_decide (strip rest = EmptyString) then entity
       else entity +:+ ": " +:+ strip rest) /\
  (forall rest,
     all_isspace rest = true ->
     _concat_name_desc entity (entity +:+ rest) = entity).
Proof.
  split; [|split].
  - intros entity_desc. unfold _concat_name_desc.
    case_bool_decide; [|apply prefix_app].
    rewrite <- (append_nil_r entity) at 2. apply prefix_app.
  - intros rest. unfold _concat_name_desc.
    by rewrite prefix_app, str_drop_app.
  - intros rest Hrest. unfold _concat_name_desc.
    rewrite prefix_app, str_drop_app. unfold strip.
    by rewrite (lstrip_all_isspace _ Hrest).
Qed.

Lemma concat_name_desc_no_repeat_witness :
  _concat_name_desc "auk"
    ("auk" +:+ String (ascii_of_nat 28) (String (ascii_of_nat 160) " "))
  = "auk"%string.
Proof.
  apply (proj2 (proj2 (concat_name_desc_no_repeat "auk"))). reflexivity.
Defined.

(** ** Neighbour descriptions and [vectorize] *)

Section NeighborFacts.
Variable args : Args.
Variable entity_dict : string -> option EntityExample.
Variable get_neighbor_ids : string -> list string.
Variable tokenizer : string -> option string -> Z -> Encoded.

(** Looking up a list of known ids asks for each, in order. *)
Lemma dir_mapM_known (ids : list string) (names : list string) :
  Forall2 (fun n_id name => entity <$> entity_dict n_id = Some name) ids names ->
  dir_mapM (fun n_id => e ← get_entity_by_id entity_dict n_id; mret (entity e)) ids
  = Dir ids (Ok names).
Proof.
  induction 1 as [|n_id name ids names Hn _ IH]; [done|].
  cbn [dir_mapM]. rewrite IH. unfold mbind, dir_bind, get_entity_by_id. simpl.
  destruct (entity_dict n_id) as [e|]; [|done]. simpl in *.
  injection Hn as <-. simpl. by rewrite app_nil_r.
Qed.

(** The first unknown id ends the lookups with [KeyError]. *)
Lemma dir_mapM_unknown (known : list string) (names : list string)
    (n_id : string) (rest : list string) :
  Forall2 (fun n_id name => entity <$> entity_dict n_id = Some name) known names ->
  entity_dict n_id = None ->
  dir_mapM (fun n_id => e ← get_entity_by_id entity_dict n_id; mret (entity e))
           (known ++ n_id :: rest)
  = Dir (known ++ [n_id]) (Raise KeyError).
Proof.
  intros Hk Hn. induction Hk as [|k name known names Hkn _ IH].
  - cbn [dir_mapM app]. unfold mbind, dir_bind, get_entity_by_id. simpl.
    by rewrite Hn.
  - change ((k :: known) ++ n_id :: rest) with (k :: (known ++ n_id :: rest)).
    cbn [dir_mapM]. rewrite IH. unfold mbind, dir_bind, get_entity_by_id. simpl.
    destruct (entity_dict k) as [e|]; [|done]. done.
Qed.

End NeighborFacts.

(** X3. In training mode [get_neighbor_desc] never asks the directory for
    the entity on the other end of the triplet.  It asks for the
    neighbours the link graph reports (all of them in test mode, all but
    that entity in training), in order: when the directory knows them all
    it returns their parsed names joined by spaces, and at the first one it
    does not know it raises [KeyError] without asking further. *)
Theorem neighbor_desc_lookups (args : Args)
    (entity_dict : string -> option EntityExample)
    (get_neighbor_ids : string -> list string) (head_id tail_id : string) :
  (is_test args = false ->
   tail_id ∉ lookups (get_neighbor_desc args entity_dict get_neighbor_ids
                        head_id tail_id)) /\
  (forall names,
     Forall2 (fun n_id name => entity <$> entity_dict n_id = Some name)
       (if is_test args then get_neighbor_ids head_id
        else filter (fun n_id => n_id <> tail_id) (get_neighbor_ids head_id))
       names ->
     get_neighbor_desc args entity_dict get_neighbor_ids head_id tail_id
     = Dir (if is_test args then get_neighbor_ids head_id
            else filter (fun n_id => n_id <> tail_id) (get_neighbor_ids head_id))
           (Ok (join " " (_parse_entity_name args <$> names)))) /\
  (forall known names n_id rest,
     (if is_test args then get_neighbor_ids head_id
      else filter (fun n_id => n_id <> tail_id) (get_neighbor_ids head_id))
     = known ++ n_id :: rest ->
     Forall2 (fun n_id name => entity <$> entity_dict n_id = Some name) known names ->
     entity_dict n_id = None ->
     get_neighbor_desc args entity_dict get_neighbor_ids head_id tail_id
     = Dir (known ++ [n_id]) (Raise KeyError)).
Proof.
  split; [|split].
  - intros Htest Hin.
    apply lookups_get_neighbor_desc in Hin as [_ Hne]. by apply Hne.
  - intros names Hk. unfold get_neighbor_desc.
    rewrite (dir_mapM_known _ _ _ Hk). unfold mbind, dir_bind. simpl.
    by rewrite app_nil_r.
  - intros known names n_id rest Hids Hk Hn. unfold get_neighbor_desc.
    rewrite Hids, (dir_mapM_unknown _ _ _ _ _ Hk Hn). done.
Qed.

Lemma neighbor_desc_lookups_witness :
  get_neighbor_desc (args_of_task "wiki5m_trans") dict_all graph_abt "h" "t"
  = Dir ["a"; "b"]%string (Ok "a b"%string).
Proof.
  apply (proj1 (proj2 (neighbor_desc_lookups (args_of_task "wiki5m_trans")
                         dict_all graph_abt "h" "t")) ["a"; "b"]%string).
  repeat constructor.
Defined.


(** X4. Without link-graph augmentation [vectorize] succeeds exactly when
    the directory knows the tail and, unless the head id is empty, the
    head; it then returns the example itself under [obj].  Otherwise it
    raises [KeyError]. *)
Theorem vectorize_needs_both_ends (args : Args)
    (entity_dict : string -> option EntityExample)
    (get_neighbor_ids : string -> list string)
    (tokenizer : string -> option string -> Z -> Encoded) (self : Example) :
  use_link_graph args = false ->
  (is_Some (entity_dict (tail_id self)) ->
   head_id self = EmptyString \/ is_Some (entity_dict (head_id self)) ->
   exists v,
     outcome (vectorize args entity_dict get_neighbor_ids tokenizer self) = Ok v /\
     obj v = self) /\
  (entity_dict (tail_id self) = None \/
   (head_id self <> EmptyString /\ entity_dict (head_id self) = None) ->
   outcome (vectorize args entity_dict get_neighbor_ids tokenizer self)
   = Raise KeyError).
Proof.
  intros Hg. unfold vectorize. rewrite Hg.
  unfold head_desc, head, tail_desc, tail, get_entity_by_id, mbind, dir_bind.
  split.
  - intros [t Ht] Hh. rewrite Ht.
    case_bool_decide; simpl; [eauto|].
    destruct Hh as [?|[h Hh]]; [done|]. rewrite Hh. simpl. eauto.
  - intros [Ht|[Hne Hh]].
    + rewrite Ht. case_bool_decide; simpl; [done|].
      by destruct (entity_dict (head_id self)).
    + rewrite Hh. rewrite bool_decide_eq_false_2 by done. simpl. done.
Qed.

Lemma vectorize_needs_both_ends_witness :
  exists v,
    outcome (vectorize (args_of_task "wiki5m_trans") dict_t (fun _ => [])
               tokenizer_const example_no_head) = Ok v /\
    obj v = example_no_head.
Proof.
  apply (proj1 (vectorize_needs_both_ends (args_of_task "wiki5m_trans") dict_t
                  (fun _ => []) tokenizer_const example_no_head eq_refl)).
  - by eexists.
  - by left.
Defined.

(** ** The indices of a [Dataset] *)

Lemma total_insert_None (m : gmap string Z) k v :
  m !! k = None -> total (<[k := v]> m) = v + total m.
Proof.
  intros Hk. unfold total.
  apply (map_fold_insert_L (fun _ v acc => v + acc)); [|done].
  intros. lia.
Qed.

Lemma total_insert_Some (m : gmap string Z) k c v :
  m !! k = Some c -> total (<[k := v]> m) = total m + v - c.
Proof.
  intros Hk.
  rewrite <- (insert_delete_eq m k v).
  rewrite total_insert_None by apply lookup_delete_eq.
  rewrite <- (insert_delete_id m k c Hk) at 2.
  rewrite total_insert_None by apply lookup_delete_eq. lia.
Qed.

Section DatasetIndexFacts.
Variable entity_dict : string -> option EntityExample.

Lemma index_example_Ok self i example self' :
  outcome (Dataset.index_example entity_dict self i example) = Ok self' ->
  Dataset.rels self' = Dataset.rels self ++ [relation example] /\
  Dataset.ex_hid self' = <[i := head_id example]> (Dataset.ex_hid self) /\
  Dataset.idx2example self' = <[i := example]> (Dataset.idx2example self) /\
  Dataset.rel_ex_cnt self'
  = <[relation example :=
        default 0 (Dataset.rel_ex_cnt self !! relation example) + 1]>
      (Dataset.rel_ex_cnt self).
Proof.
  unfold Dataset.index_example, mbind, dir_bind.
  destruct (outcome (head entity_dict example)); simpl; [|done].
  intros [= <-]. simpl.
  by destruct (Dataset.rel_ex_cnt self !! relation example).
Qed.

Lemma index_loop_Ok exs self i self' :
  outcome (Dataset.index_loop entity_dict self i exs) = Ok self' ->
  Dataset.rels self' = Dataset.rels self ++ (relation <$> exs) /\
  (forall k, Dataset.ex_hid self' !! k
             = if decide (i <= k < i + length exs)%nat
               then head_id <$> exs !! (k - i)%nat
               else Dataset.ex_hid self !! k) /\
  (forall k, Dataset.idx2example self' !! k
             = if decide (i <= k < i + length exs)%nat
               then exs !! (k - i)%nat
               else Dataset.idx2example self !! k) /\
  (forall r, Dataset.rel_ex_cnt self' !! r
             = if decide (count_rel r exs = 0)%nat
               then Dataset.rel_ex_cnt self !! r
               else Some (default 0 (Dataset.rel_ex_cnt self !! r)
                          + Z.of_nat (count_rel r exs))) /\
  total (Dataset.rel_ex_cnt self')
  = total (Dataset.rel_ex_cnt self) + Z.of_nat (length exs).
Proof.
  revert self i. induction exs as [|e exs IH]; intros self i.
  - simpl. intros [= <-]. rewrite app_nil_r.
    split; [done|]. split; [intros k; case_decide; [lia|done]|].
    split; [intros k; case_decide; [lia|done]|].
    split; [done|]. lia.
  - cbn [Dataset.index_loop]. unfold mbind, dir_bind.
    destruct (outcome (Dataset.index_example _ self i e)) as [s1|] eqn:H1;
      simpl; [|done].
    intros H2.
    apply index_example_Ok in H1 as (Hr1 & Hh1 & Hi1 & Hc1).
    apply IH in H2 as (Hr & Hh & Hi & Hc & Ht).
    split; [rewrite Hr, Hr1, <- app_assoc; done|].
    split.
    { intros k. rewrite Hh, Hh1. simpl length.
      destruct (decide (k = i)) as [->|Hne].
      - rewrite (decide_False (P := (S i <= i < _)%nat)) by lia.
        rewrite lookup_insert_eq. rewrite decide_True by lia.
        by rewrite Nat.sub_diag.
      - rewrite lookup_insert_ne by done.
        repeat case_decide; try lia; try done.
        by replace (k - i)%nat with (S (k - S i)) by lia. }
    split.
    { intros k. rewrite Hi, Hi1. simpl length.
      destruct (decide (k = i)) as [->|Hne].
      - rewrite (decide_False (P := (S i <= i < _)%nat)) by lia.
        rewrite lookup_insert_eq. rewrite decide_True by lia.
        by rewrite Nat.sub_diag.
      - rewrite lookup_insert_ne by done.
        repeat case_decide; try lia; try done.
        by replace (k - i)%nat with (S (k - S i)) by lia. }
    split.
    { intros r. rewrite Hc, Hc1. unfold count_rel.
      destruct (decide (relation e = r)) as [Heq|Hne].
      - rewrite filter_cons_True by done. subst r.
        rewrite lookup_insert_eq. cbn [length].
        rewrite (decide_False (P := (S _ = 0)%nat)) by lia.
        case_decide as H0.
        + f_equal. simpl. rewrite H0. lia.
        + f_equal. simpl. lia.
      - rewrite filter_cons_False by done.
        rewrite lookup_insert_ne by done. done. }
    rewrite Ht, Hc1. simpl length.
    destruct (Dataset.rel_ex_cnt self !! relation e) as [c|] eqn:Hl; simpl.
    + rewrite (total_insert_Some _ _ c) by done. lia.
    + rewrite total_insert_None by done. lia.
Qed.

(** The examples [__init__] indexes are those it keeps. *)
Lemma init_loop reverse_triplet fs path task exs self :
  outcome (Dataset.init entity_dict reverse_triplet fs path task exs) = Ok self ->
  exists self0,
    Dataset.rels self0 = [] /\ Dataset.rel_ex_cnt self0 = ∅ /\
    Dataset.ex_hid self0 = ∅ /\ Dataset.idx2example self0 = ∅ /\
    outcome (Dataset.index_loop entity_dict self0 0 (Dataset.examples self)) = Ok self.
Proof.
  unfold Dataset.init.
  destruct (py_assert _); [|done].
  destruct (match exs with
            | [] => load_paths reverse_triplet fs (split_on ","%char path) []
            | _ :: _ => Ok exs
            end) as [examples|] eqn:Hex; [|done].
  intros Hi.
  assert (He : Dataset.examples self = examples)
    by (by apply index_loop_examples in Hi).
  rewrite He. eexists. repeat split; [..|exact Hi]; done.
Qed.

End DatasetIndexFacts.

Lemma init_rel_ex_cnt
    (entity_dict : string -> option EntityExample)
    (reverse_triplet : json_obj -> result json_obj)
    (fs : string -> option (list json_obj))
    (path task : string) (exs : list Example) (self : Dataset.t) :
  outcome (Dataset.init entity_dict reverse_triplet fs path task exs) = Ok self ->
  forall r, Dataset.rel_ex_cnt self !! r
            = if decide (count_rel r (Dataset.examples self) = 0)%nat then None
              else Some (Z.of_nat (count_rel r (Dataset.examples self))).
Proof.
  intros Hi.
  apply init_loop in Hi as (self0 & _ & Hc0 & _ & _ & Hloop).
  apply index_loop_Ok in Hloop as (_ & _ & _ & Hc & _).
  intros r. rewrite Hc, Hc0, lookup_empty. by case_decide.
Qed.

Lemma count_rel_0 (r : string) (exs : list Example) :
  count_rel r exs = 0%nat <-> r ∉ (relation <$> exs).
Proof.
  unfold count_rel. induction exs as [|e exs IH].
  - split; [intros _; apply not_elem_of_nil|done].
  - rewrite fmap_cons, not_elem_of_cons.
    destruct (decide (relation e = r)) as [Heq|Hne].
    + rewrite filter_cons_True by done. simpl. split; [lia|]. by intros [? _].
    + rewrite filter_cons_False by done. rewrite IH. split; [|tauto].
      intros H. split; [congruence|done].
Qed.

(** X5. After [Dataset.__init__], [rels] lists the relations of the
    examples in order, and [ex_hid] and [idx2example] map exactly the
    indices of the examples, each to the head id of its example and to the
    example itself. *)
Theorem init_positional_indices
    (entity_dict : string -> option EntityExample)
    (reverse_triplet : json_obj -> result json_obj)
    (fs : string -> option (list json_obj))
    (path task : string) (exs : list Example) (self : Dataset.t) :
  outcome (Dataset.init entity_dict reverse_triplet fs path task exs) = Ok self ->
  Dataset.rels self = relation <$> Dataset.examples self /\
  (forall k, Dataset.ex_hid self !! k = head_id <$> Dataset.examples self !! k) /\
  (forall k, Dataset.idx2example self !! k = Dataset.examples self !! k).
Proof.
  intros Hi.
  apply init_loop in Hi as (self0 & Hr0 & _ & Hh0 & Hi0 & Hloop).
  apply index_loop_Ok in Hloop as (Hr & Hh & Hi & _ & _).
  split; [by rewrite Hr, Hr0|]. split.
  - intros k. rewrite Hh, Hh0, Nat.sub_0_r. case_decide; [done|].
    rewrite lookup_empty. rewrite lookup_ge_None_2; [done|lia].
  - intros k. rewrite Hi, Hi0, Nat.sub_0_r. case_decide; [done|].
    rewrite lookup_empty. rewrite lookup_ge_None_2; [done|lia].
Qed.

Lemma init_positional_indices_witness :
  outcome (Dataset.init dict_all reverse_triplet_spec fs_train
             "train.json" "task" []) = Ok d_train /\
  Dataset.rels d_train = relation <$> Dataset.examples d_train /\
  (forall k, Dataset.ex_hid d_train !! k
             = head_id <$> Dataset.examples d_train !! k) /\
  (forall k, Dataset.idx2example d_train !! k = Dataset.examples d_train !! k).
Proof.
  assert (Hd : outcome (Dataset.init dict_all reverse_triplet_spec fs_train
                          "train.json" "task" []) = Ok d_train)
    by (vm_compute; reflexivity).
  split; [exact Hd|].
  exact (init_positional_indices _ _ _ _ _ _ _ Hd).
Defined.


(** X6. After [Dataset.__init__], [rel_ex_cnt] maps each relation that
    occurs among the examples to the number of examples that have it, and
    no other key; the counts add up to the number of examples. *)
Theorem init_relation_counts
    (entity_dict : string -> option EntityExample)
    (reverse_triplet : json_obj -> result json_obj)
    (fs : string -> option (list json_obj))
    (path task : string) (exs : list Example) (self : Dataset.t) :
  outcome (Dataset.init entity_dict reverse_triplet fs path task exs) = Ok self ->
  (forall r, Dataset.rel_ex_cnt self !! r
             = if decide (count_rel r (Dataset.examples self) = 0)%nat then None
               else Some (Z.of_nat (count_rel r (Dataset.examples self)))) /\
  total (Dataset.rel_ex_cnt self) = Z.of_nat (Dataset.len self).
Proof.
  intros Hi.
  apply init_loop in Hi as (self0 & _ & Hc0 & _ & _ & Hloop).
  apply index_loop_Ok in Hloop as (_ & _ & _ & Hc & Ht).
  split.
  - intros r. rewrite Hc, Hc0, lookup_empty. by case_decide.
  - rewrite Ht, Hc0. unfold total. by rewrite map_fold_empty.
Qed.

Lemma init_relation_counts_witness :
  outcome (Dataset.init dict_all reverse_triplet_spec fs_empty
             "" "task" examples_shared) = Ok d_shared /\
  (forall r, Dataset.rel_ex_cnt d_shared !! r
             = if decide (count_rel r (Dataset.examples d_shared) = 0)%nat
               then None
               else Some (Z.of_nat (count_rel r (Dataset.examples d_shared)))) /\
  total (Dataset.rel_ex_cnt d_shared) = Z.of_nat (Dataset.len d_shared).
Proof.
  assert (Hd : outcome (Dataset.init dict_all reverse_triplet_spec fs_empty
             "" "task" examples_shared) = Ok d_shared)
    by (vm_compute; reflexivity).
  split; [exact Hd|].
  exact (init_relation_counts _ _ _ _ _ _ _ Hd).
Defined.


Section DatasetHeadFacts.
Variable entity_dict : string -> option EntityExample.

Lemma head_cases (e : Example) :
  head entity_dict e
  = if bool_decide (head_id e = EmptyString) then Dir [] (Ok EmptyString)
    else Dir [head_id e]
             (match entity_dict (head_id e) with
              | Some x => Ok (entity x)
              | None => Raise KeyError
              end).
Proof.
  unfold head. case_bool_decide; [done|].
  unfold get_entity_by_id, mbind, dir_bind. simpl.
  by destruct (entity_dict (head_id e)).
Qed.

Lemma head_of_known (e : Example) :
  head_known entity_dict e ->
  head entity_dict e
  = Dir (filter (fun s => s <> EmptyString) [head_id e])
        (Ok (head_name entity_dict e)).
Proof.
  unfold head_name. rewrite head_cases. intros [H|[x H]].
  - rewrite bool_decide_eq_true_2 by done.
    by rewrite filter_cons_False, filter_nil by (by intros ?).
  - case_bool_decide as He.
    + by rewrite filter_cons_False, filter_nil by (by intros ?).
    + rewrite filter_cons_True, filter_nil by done. by rewrite H.
Qed.

Lemma head_of_unknown (e : Example) :
  ~ head_known entity_dict e ->
  head entity_dict e = Dir [head_id e] (Raise KeyError).
Proof.
  unfold head_known. rewrite head_cases. intros H.
  rewrite bool_decide_eq_false_2 by tauto.
  destruct (entity_dict (head_id e)) eqn:He; [|done].
  exfalso. apply H. right. eauto.
Qed.

Lemma index_example_known self i e :
  head_known entity_dict e ->
  exists self',
    Dataset.index_example entity_dict self i e
    = Dir (filter (fun s => s <> EmptyString) [head_id e]) (Ok self') /\
    Dataset.rel_hent self'
    = <[relation e :=
          default [] (Dataset.rel_hent self !! relation e)
          ++ [head_name entity_dict e]]> (Dataset.rel_hent self).
Proof.
  intros H. unfold Dataset.index_example.
  rewrite (head_of_known _ H). unfold mbind, dir_bind. simpl.
  eexists. split; [by rewrite app_nil_r|]. simpl.
  by destruct (Dataset.rel_hent self !! relation e).
Qed.

Lemma index_example_unknown self i e :
  ~ head_known entity_dict e ->
  Dataset.index_example entity_dict self i e = Dir [head_id e] (Raise KeyError).
Proof.
  intros H. unfold Dataset.index_example.
  by rewrite (head_of_unknown _ H).
Qed.

Lemma index_loop_known exs self i :
  Forall (head_known entity_dict) exs ->
  exists self',
    Dataset.index_loop entity_dict self i exs
    = Dir (filter (fun s => s <> EmptyString) (head_id <$> exs)) (Ok self') /\
    forall r, Dataset.rel_hent self' !! r
              = if decide (count_rel r exs = 0)%nat
                then Dataset.rel_hent self !! r
                else Some (default [] (Dataset.rel_hent self !! r)
                           ++ (head_name entity_dict
                                 <$> filter (fun e => relation e = r) exs)).
Proof.
  revert self i. induction exs as [|e exs IH]; intros self i Hk.
  - exists self. split; [done|]. intros r. by rewrite decide_True.
  - apply Forall_cons in Hk as [He Hk].
    destruct (index_example_known self i e He) as (s1 & H1 & Hh1).
    destruct (IH s1 (S i) Hk) as (s2 & H2 & Hh2).
    exists s2. split.
    + cbn [Dataset.index_loop]. rewrite H1. unfold mbind, dir_bind.
      cbn [outcome lookups]. rewrite H2. cbn [outcome lookups].
      rewrite fmap_cons.
      change (head_id e :: (head_id <$> exs))
        with ([head_id e] ++ (head_id <$> exs)).
      by rewrite filter_app.
    + intros r. rewrite Hh2, Hh1. unfold count_rel.
      destruct (decide (relation e = r)) as [Heq|Hne].
      * rewrite (filter_cons_True (fun e => relation e = r)) by done.
        subst r. rewrite lookup_insert_eq. cbn [length].
        rewrite (decide_False (P := (S _ = 0)%nat)) by lia.
        rewrite fmap_cons. cbn [from_option id].
        case_decide as H0.
        -- apply length_zero_iff_nil in H0. rewrite H0.
           by rewrite fmap_nil.
        -- by rewrite <- app_assoc.
      * rewrite (filter_cons_False (fun e => relation e = r)) by done.
        by rewrite lookup_insert_ne by done.
Qed.

Lemma index_loop_unknown exs self i :
  ~ Forall (head_known entity_dict) exs ->
  outcome (Dataset.index_loop entity_dict self i exs) = Raise KeyError.
Proof.
  revert self i. induction exs as [|e exs IH]; intros self i Hk.
  - exfalso. by apply Hk.
  - cbn [Dataset.index_loop].
    destruct (decide (head_known entity_dict e)) as [He|He].
    + destruct (index_example_known self i e He) as (s1 & H1 & _).
      rewrite H1. unfold mbind, dir_bind. cbn [outcome lookups].
      rewrite IH; [done|]. intros Hf. apply Hk. by constructor.
    + rewrite (index_example_unknown _ _ _ He). done.
Qed.

End DatasetHeadFacts.

(** X7. [Dataset.__init__] on a given, non-empty list of examples asks the
    entity directory for the head of every example that has one, in order,
    and for nothing else; it returns when the directory knows all of them,
    and raises [KeyError] when it does not know one. *)
Theorem init_consults_heads
    (entity_dict : string -> option EntityExample)
    (reverse_triplet : json_obj -> result json_obj)
    (fs : string -> option (list json_obj))
    (path task : string) (exs : list Example) :
  exs <> [] ->
  (Forall (head_known entity_dict) exs ->
   exists self,
     Dataset.init entity_dict reverse_triplet fs path task exs
     = Dir (filter (fun s => s <> EmptyString) (head_id <$> exs)) (Ok self) /\
     Dataset.examples self = exs) /\
  (~ Forall (head_known entity_dict) exs ->
   outcome (Dataset.init entity_dict reverse_triplet fs path task exs)
   = Raise KeyError).
Proof.
  intros Hne. unfold Dataset.init.
  rewrite (bool_decide_eq_false_2 (exs = [])) by done.
  rewrite orb_true_r. cbn [py_assert negb].
  destruct exs as [|e exs]; [done|]. split.
  - intros Hk.
    edestruct (index_loop_known entity_dict (e :: exs)) as (self & H & _);
      [exact Hk|].
    exists self. split; [exact H|].
    apply (f_equal outcome) in H. cbn [outcome] in H.
    by apply index_loop_examples in H.
  - intros Hk. by apply index_loop_unknown.
Qed.

Lemma init_consults_heads_witness :
  exists self,
    Dataset.init dict_all reverse_triplet_spec fs_empty "" "task" examples_shared
    = Dir ["h1"; "h2"]%string (Ok self) /\
    Dataset.examples self = examples_shared.
Proof.
  apply (proj1 (init_consults_heads dict_all reverse_triplet_spec fs_empty
                  "" "task" examples_shared ltac:(done))).
  apply Forall_cons. split; [right; by eexists|].
  apply Forall_cons. split; [right; by eexists|]. constructor.
Defined.


(** X8. After [Dataset.__init__], [rel_hent] maps each relation that
    occurs among the examples to the head names of all the examples that
    have it, in order and with repetitions, and no other key. *)
Theorem init_relation_heads
    (entity_dict : string -> option EntityExample)
    (reverse_triplet : json_obj -> result json_obj)
    (fs : string -> option (list json_obj))
    (path task : string) (exs : list Example) (self : Dataset.t) :
  outcome (Dataset.init entity_dict reverse_triplet fs path task exs) = Ok self ->
  forall r,
    Dataset.rel_hent self !! r
    = if decide (count_rel r (Dataset.examples self) = 0)%nat then None
      else Some (head_name entity_dict
                   <$> filter (fun e => relation e = r) (Dataset.examples self)).
Proof.
  intros Hi r.
  unfold Dataset.init in Hi.
  destruct (py_assert _); [|done].
  destruct (match exs with
            | [] => load_paths reverse_triplet fs (split_on ","%char path) []
            | _ :: _ => Ok exs
            end) as [examples|] eqn:Hex; [|done].
  assert (He : Dataset.examples self = examples)
    by (by apply index_loop_examples in Hi).
  rewrite He.
  destruct (decide (Forall (head_known entity_dict) examples)) as [Hk|Hk].
  - edestruct (index_loop_known entity_dict examples) as (self' & H & Hh);
      [exact Hk|].
    rewrite H in Hi. cbn [outcome] in Hi. injection Hi as <-.
    rewrite Hh. cbn [Dataset.rel_hent]. rewrite lookup_empty. done.
  - rewrite index_loop_unknown in Hi by done. done.
Qed.

Lemma init_relation_heads_witness :
  outcome (Dataset.init dict_all reverse_triplet_spec fs_empty
             "" "task" examples_shared) = Ok d_shared /\
  Dataset.rel_hent d_shared !! "r"%string = Some ["h1"; "h2"]%string.
Proof.
  assert (Hd : outcome (Dataset.init dict_all reverse_triplet_spec fs_empty
             "" "task" examples_shared) = Ok d_shared)
    by (vm_compute; reflexivity).
  split; [exact Hd|].
  exact (init_relation_heads _ _ _ _ _ _ _ Hd "r"%string).
Defined.


(** ** Loading, one direction and several files *)

Section LoadFacts.
Variable reverse_triplet : json_obj -> result json_obj.
Variable fs : string -> option (list json_obj).

Lemma mapM_singletons {A B} (f : A -> result B) (g : A -> result (list B))
    (l : list A) :
  (forall x, g x = (y ← f x; Ok [y])) ->
  (chunks ← mapM g l; Ok (concat chunks)) = mapM f l.
Proof.
  intros Hg. induction l as [|x l IH]; [done|].
  cbn [mapM]. rewrite Hg. destruct (f x) as [y|]; [|done].
  cbn [mbind result_bind] in *.
  destruct (mapM g l) as [chunks|]; cbn [mbind result_bind] in *.
  - destruct (mapM f l) as [ys|]; [|done]. by injection IH as <-.
  - by destruct (mapM f l).
Qed.

Lemma contribution_forward o :
  contribution reverse_triplet true false o = (e ← Example_init o; Ok [e]).
Proof.
  unfold contribution. by destruct (Example_init o).
Qed.

Lemma contribution_backward o :
  contribution reverse_triplet false true o
  = (e ← (o' ← reverse_triplet o; Example_init o'); Ok [e]).
Proof.
  unfold contribution. simpl.
  destruct (reverse_triplet o) as [o'|]; simpl; [|reflexivity].
  destruct (Example_init o'); reflexivity.
Qed.

Lemma load_paths_loads path_list examples result :
  load_paths reverse_triplet fs path_list examples = Ok result ->
  exists loads,
    Forall2 (fun path loaded =>
               load_data reverse_triplet fs path true true = Ok loaded)
            path_list loads /\
    result = examples ++ concat loads.
Proof.
  revert examples result.
  induction path_list as [|path rest IH]; intros examples result.
  - intros [= <-]. exists []. split; [constructor|]. by rewrite app_nil_r.
  - cbn [load_paths].
    destruct (load_data _ _ path true true) as [loaded|] eqn:Hl; [|done].
    cbn [mbind result_bind]. intros Hrest.
    assert (Hrest' : load_paths reverse_triplet fs rest (examples ++ loaded)
                     = Ok result) by (by destruct examples).
    apply IH in Hrest' as (loads & Hall & ->).
    exists (loaded :: loads). split; [by constructor|].
    simpl. by rewrite app_assoc.
Qed.

End LoadFacts.

(** X9. Loading one direction only: [load_data] with only the forward flag
    builds one [Example] per triplet object of the file, in file order,
    and with only the backward flag one [Example] per reversed triplet
    object; if building any of them fails, the whole load raises that
    error. *)
Theorem load_data_one_direction
    (reverse_triplet : json_obj -> result json_obj)
    (fs : string -> option (list json_obj))
    (path : string) (data : list json_obj) :
  endswith path ".json" = true ->
  fs path = Some data ->
  load_data reverse_triplet fs path true false = mapM Example_init data /\
  load_data reverse_triplet fs path false true
  = mapM (fun o => o' ← reverse_triplet o; Example_init o') data.
Proof.
  intros Hext Hfs. unfold load_data. rewrite Hext, Hfs.
  cbn [py_assert orb mbind result_bind].
  rewrite !load_loop_contributions. cbn [app]. split.
  - apply mapM_singletons, contribution_forward.
  - apply mapM_singletons, contribution_backward.
Qed.

Lemma load_data_one_direction_witness :
  load_data reverse_triplet_spec fs_train "train.json" true false
  = Ok [ {| head_id := "e1"; relation := "r1"; tail_id := "e2" |};
         {| head_id := "e3"; relation := "r2"; tail_id := "e4" |} ] /\
  load_data reverse_triplet_spec fs_train "train.json" false true
  = Ok [ {| head_id := "e2"; relation := "inverse r1"; tail_id := "e1" |};
         {| head_id := "e4"; relation := "inverse r2"; tail_id := "e3" |} ].
Proof.
  exact (load_data_one_direction reverse_triplet_spec fs_train "train.json"
           [triplet_obj "e1" "r1" "e2"; triplet_obj "e3" "r2" "e4"]
           eq_refl eq_refl).
Defined.


(** X10. A [Dataset] given no examples loads every file of its
    comma-separated [path] in both directions and keeps the loaded lists
    concatenated in path order; when one of the paths does not exist it
    raises [AssertionError] before loading or looking up anything. *)
Theorem init_loads_every_path
    (entity_dict : string -> option EntityExample)
    (reverse_triplet : json_obj -> result json_obj)
    (fs : string -> option (list json_obj))
    (path task : string) :
  (forall self,
     outcome (Dataset.init entity_dict reverse_triplet fs path task []) = Ok self ->
     exists loads,
       Forall2 (fun p loaded =>
                  load_data reverse_triplet fs p true true = Ok loaded)
               (split_on ","%char path) loads /\
       Dataset.examples self = concat loads) /\
  (forall p, p ∈ split_on ","%char path -> fs p = None ->
     Dataset.init entity_dict reverse_triplet fs path task []
     = Dir [] (Raise AssertionError)).
Proof.
  split.
  - intros self Hi. unfold Dataset.init in Hi.
    destruct (py_assert _); [|done].
    destruct (load_paths reverse_triplet fs (split_on ","%char path) [])
      as [examples|] eqn:Hex; [|done].
    apply index_loop_examples in Hi. cbn [Dataset.examples] in Hi.
    apply load_paths_loads in Hex as (loads & Hall & ->).
    exists loads. by split.
  - intros p Hin Hp. unfold Dataset.init.
    assert (Hf : forallb (path_exists fs) (split_on ","%char path) = false).
    { apply not_true_is_false. intros Hall.
      rewrite forallb_forall in Hall.
      apply list_elem_of_In, Hall in Hin.
      unfold path_exists in Hin. by rewrite Hp in Hin. }
    rewrite Hf. by rewrite bool_decide_eq_true_2.
Qed.

Lemma init_loads_every_path_witness :
  outcome (Dataset.init dict_all reverse_triplet_spec fs_train
             "train.json" "task" []) = Ok d_train /\
  (exists loads,
     Forall2 (fun p loaded =>
                load_data reverse_triplet_spec fs_train p true true = Ok loaded)
             (split_on ","%char "train.json") loads /\
     Dataset.examples d_train = concat loads) /\
  Dataset.init dict_all reverse_triplet_spec fs_train
    "train.json,valid.json" "task" []
  = Dir [] (Raise AssertionError).
Proof.
  assert (Hd : outcome (Dataset.init dict_all reverse_triplet_spec fs_train
                          "train.json" "task" []) = Ok d_train)
    by (vm_compute; reflexivity).
  split; [exact Hd|]. split.
  - exact (proj1 (init_loads_every_path dict_all reverse_triplet_spec fs_train
                    "train.json" "task") d_train Hd).
  - apply (proj2 (init_loads_every_path dict_all reverse_triplet_spec fs_train
                    "train.json,valid.json" "task") "valid.json"%string).
    + vm_compute. apply list_elem_of_further, list_elem_of_here.
    + reflexivity.
Defined.


(** ** Collation of a batch *)

Lemma to_indices_and_mask_closed_form (batch_tensor : list tensor1)
    (pad_token_id : Z) (need_mask : bool) :
  batch_tensor <> [] ->
  to_indices_and_mask batch_tensor pad_token_id need_mask
  = Ok (if need_mask
        then IndicesMask (pad_rows pad_token_id batch_tensor)
                         (mask_rows batch_tensor)
        else Indices (pad_rows pad_token_id batch_tensor)).
Proof.
  intros Hne.
  destruct (py_max_spec (length <$> batch_tensor)) as (mx & Hmx & Hin & Hle).
  { by destruct batch_tensor. }
  assert (Hlen : forall t, t ∈ batch_tensor -> (length t <= mx)%nat).
  { intros t Ht. apply Hle. by apply list_elem_of_fmap_2. }
  unfold to_indices_and_mask, pad_rows, mask_rows, width. rewrite Hmx.
  cbn [mbind result_bind]. rewrite pad_loop_split.
  assert (Hind :
    foldl (fun ind it => alter (fun row => copy_prefix row it.2) it.1 ind)
          (full (length batch_tensor) mx pad_token_id) (imap pair batch_tensor)
    = (fun t => t ++ replicate (mx - length t) pad_token_id) <$> batch_tensor).
  { apply list_eq. intros i.
    rewrite (imap_ext pair (fun j y => ((0 + j)%nat, y))) by done.
    rewrite (alter_loop_lookup copy_prefix).
    rewrite bool_decide_eq_true_2 by lia. rewrite Nat.sub_0_r.
    rewrite list_lookup_fmap. unfold full.
    destruct (batch_tensor !! i) as [t|] eqn:Hit.
    - assert (Hi : (i < length batch_tensor)%nat) by by eapply lookup_lt_Some.
      assert (Ht : (length t <= mx)%nat)
        by (apply Hlen; by eapply list_elem_of_lookup_2).
      rewrite lookup_replicate_2 by done. simpl.
      rewrite copy_prefix_spec by (rewrite length_replicate; lia).
      by rewrite drop_replicate.
    - simpl. apply lookup_replicate_None. by apply lookup_ge_None in Hit. }
  assert (Hmask :
    foldl (fun m it => alter (fun row => fill_prefix row (length it.2) 1) it.1 m)
          (full (length batch_tensor) mx 0) (imap pair batch_tensor)
    = (fun t => replicate (length t) 1 ++ replicate (mx - length t) 0)
        <$> batch_tensor).
  { apply list_eq. intros i.
    rewrite (imap_ext pair (fun j y => ((0 + j)%nat, y))) by done.
    rewrite (alter_loop_lookup (fun row t => fill_prefix row (length t) 1)).
    rewrite bool_decide_eq_true_2 by lia. rewrite Nat.sub_0_r.
    rewrite list_lookup_fmap. unfold full.
    destruct (batch_tensor !! i) as [t|] eqn:Hit.
    - assert (Hi : (i < length batch_tensor)%nat) by by eapply lookup_lt_Some.
      assert (Ht : (length t <= mx)%nat)
        by (apply Hlen; by eapply list_elem_of_lookup_2).
      rewrite lookup_replicate_2 by done. simpl.
      rewrite fill_prefix_spec by (rewrite length_replicate; lia).
      by rewrite drop_replicate.
    - simpl. apply lookup_replicate_None. by apply lookup_ge_None in Hit. }
  destruct need_mask.
  - by rewrite Hind, Hmask.
  - by rewrite Hind.
Qed.

Lemma width_bound (batch_tensor : list tensor1) t :
  t ∈ batch_tensor -> (length t <= width batch_tensor)%nat.
Proof.
  intros Ht. unfold width.
  destruct (py_max_spec (length <$> batch_tensor)) as (mx & -> & _ & Hle).
  { intros H. apply fmap_nil_inv in H. subst. by apply elem_of_nil in Ht. }
  apply Hle. by apply list_elem_of_fmap_2.
Qed.

Lemma unpad_row (t : tensor1) (n : nat) (pad_token_id : Z) :
  unpad (t ++ replicate n pad_token_id)
        (replicate (length t) 1 ++ replicate n 0) = t.
Proof.
  unfold unpad.
  rewrite zip_with_app by (by rewrite length_replicate).
  rewrite filter_app, fmap_app.
  assert (H1 : filter (fun xm : Z * Z => xm.2 = 1) (zip t (replicate (length t) 1))
               = zip t (replicate (length t) 1)).
  { induction t as [|x t IH]; [done|]. simpl.
    rewrite filter_cons_True by done. by rewrite IH. }
  assert (H0 : filter (fun xm : Z * Z => xm.2 = 1)
                      (zip (replicate n pad_token_id) (replicate n 0)) = []).
  { induction n as [|n IH]; [done|]. simpl.
    rewrite filter_cons_False by done. exact IH. }
  rewrite H1, H0, app_nil_r.
  apply fst_zip. by rewrite length_replicate.
Qed.

Lemma unpad_rows (batch_tensor : list tensor1) (pad_token_id : Z) :
  zip_with unpad (pad_rows pad_token_id batch_tensor) (mask_rows batch_tensor)
  = batch_tensor.
Proof.
  unfold pad_rows, mask_rows.
  generalize (width batch_tensor). intros w.
  induction batch_tensor as [|t ts IH]; [done|].
  rewrite !fmap_cons. cbn [zip_with]. by rewrite unpad_row, IH.
Qed.

(** X11. Reading each row of the matrix of [to_indices_and_mask] at the
    positions its mask marks gives back the sequences of the batch; the
    matrix and the mask are rectangular, with one row per sequence and the
    same width, which is the length of some sequence. *)
Theorem to_indices_and_mask_unpad (batch_tensor : list tensor1)
    (pad_token_id : Z) (indices mask : tensor2) :
  to_indices_and_mask batch_tensor pad_token_id true
  = Ok (IndicesMask indices mask) ->
  zip_with unpad indices mask = batch_tensor /\
  length indices = length batch_tensor /\
  length mask = length batch_tensor /\
  width batch_tensor ∈ (length <$> batch_tensor) /\
  Forall (fun row => length row = width batch_tensor) indices /\
  Forall (fun row => length row = width batch_tensor) mask.
Proof.
  destruct (decide (batch_tensor = [])) as [->|Hne]; [done|].
  rewrite to_indices_and_mask_closed_form by done.
  intros [= <- <-].
  split; [apply unpad_rows|].
  unfold pad_rows, mask_rows. rewrite !length_fmap.
  split; [done|]. split; [done|]. split.
  { unfold width.
    by destruct (py_max_spec (length <$> batch_tensor)) as (mx & -> & ? & _);
      [by destruct batch_tensor|]. }
  split; apply Forall_fmap, Forall_forall; intros t Ht%width_bound; simpl;
    rewrite length_app, !length_replicate; lia.
Qed.

Lemma to_indices_and_mask_unpad_witness :
  to_indices_and_mask [[5; 6; 7]; [8]] 0 true
  = Ok (IndicesMask [[5; 6; 7]; [8; 0; 0]] [[1; 1; 1]; [1; 0; 0]]) /\
  zip_with unpad [[5; 6; 7]; [8; 0; 0]] [[1; 1; 1]; [1; 0; 0]]
  = [[5; 6; 7]; [8]].
Proof.
  assert (H : to_indices_and_mask [[5; 6; 7]; [8]] 0 true
              = Ok (IndicesMask [[5; 6; 7]; [8; 0; 0]] [[1; 1; 1]; [1; 0; 0]]))
    by (vm_compute; reflexivity).
  split; [exact H|].
  exact (proj1 (to_indices_and_mask_unpad _ _ _ _ H)).
Defined.


Section CollateFacts.
Variable args : Args.
Variable pad_token_id : Z.
Variable M : Type.
Variable construct_mask : list Example -> result M.
Variable construct_self_negative_mask : list Example -> result M.

(** The two masks of [triplet_mask], as [collate] asks for them. *)
Lemma collate_nonempty (batch_data : list Vectorized) :
  batch_data <> [] ->
  collate args pad_token_id M construct_mask construct_self_negative_mask
          batch_data
  = (triplet_mask ← (if negb (is_test args)
                     then m ← construct_mask (obj <$> batch_data); Ok (Some m)
                     else Ok None);
     self_negative_mask ← (if negb (is_test args)
                           then m ← construct_self_negative_mask
                                      (obj <$> batch_data);
                                Ok (Some m)
                           else Ok None);
     Ok {| Batch.hr_token_ids :=
             pad_rows pad_token_id (hr_token_ids <$> batch_data);
           Batch.hr_mask := mask_rows (hr_token_ids <$> batch_data);
           Batch.hr_token_type_ids :=
             pad_rows 0 (hr_token_type_ids <$> batch_data);
           Batch.tail_token_ids :=
             pad_rows pad_token_id (tail_token_ids <$> batch_data);
           Batch.tail_mask := mask_rows (tail_token_ids <$> batch_data);
           Batch.tail_token_type_ids :=
             pad_rows 0 (tail_token_type_ids <$> batch_data);
           Batch.head_token_ids :=
             pad_rows pad_token_id (head_token_ids <$> batch_data);
           Batch.head_mask := mask_rows (head_token_ids <$> batch_data);
           Batch.head_token_type_ids :=
             pad_rows 0 (head_token_type_ids <$> batch_data);
           Batch.batch_data := obj <$> batch_data;
           Batch.triplet_mask := triplet_mask;
           Batch.self_negative_mask := self_negative_mask |}).
Proof.
  intros Hne. unfold collate.
  rewrite !to_indices_and_mask_closed_form
    by (intros H; by apply fmap_nil_inv in H).
  reflexivity.
Qed.

End CollateFacts.

(** X12. [collate] raises [ValueError] on an empty batch.  On a batch it
    returns for, [batch_data] lists the examples in order, each of the
    nine matrices has one row per example, each token-id matrix read
    through its mask gives back the token ids of the examples, each
    type-id row is the example's type ids followed by zeros, and the two
    triplet masks are [None] in test mode and what the external
    constructors return otherwise. *)
Theorem collate_batch (args : Args) (pad_token_id : Z) (M : Type)
    (construct_mask construct_self_negative_mask : list Example -> result M)
    (batch_data : list Vectorized) :
  collate args pad_token_id M construct_mask construct_self_negative_mask []
  = Raise ValueError /\
  forall b,
    collate args pad_token_id M construct_mask construct_self_negative_mask
            batch_data = Ok b ->
    Batch.batch_data b = obj <$> batch_data /\
    Forall (fun m => length m = length batch_data)
      [Batch.hr_token_ids b; Batch.hr_mask b; Batch.hr_token_type_ids b;
       Batch.tail_token_ids b; Batch.tail_mask b; Batch.tail_token_type_ids b;
       Batch.head_token_ids b; Batch.head_mask b; Batch.head_token_type_ids b] /\
    zip_with unpad (Batch.hr_token_ids b) (Batch.hr_mask b)
    = hr_token_ids <$> batch_data /\
    zip_with unpad (Batch.tail_token_ids b) (Batch.tail_mask b)
    = tail_token_ids <$> batch_data /\
    zip_with unpad (Batch.head_token_ids b) (Batch.head_mask b)
    = head_token_ids <$> batch_data /\
    (forall i v, batch_data !! i = Some v ->
       exists n1 n2 n3,
         Batch.hr_token_type_ids b !! i
         = Some (hr_token_type_ids v ++ replicate n1 0) /\
         Batch.tail_token_type_ids b !! i
         = Some (tail_token_type_ids v ++ replicate n2 0) /\
         Batch.head_token_type_ids b !! i
         = Some (head_token_type_ids v ++ replicate n3 0)) /\
    (if is_test args
     then Batch.triplet_mask b = None /\ Batch.self_negative_mask b = None
     else exists m1 m2,
         construct_mask (obj <$> batch_data) = Ok m1 /\
         construct_self_negative_mask (obj <$> batch_data) = Ok m2 /\
         Batch.triplet_mask b = Some m1 /\
         Batch.self_negative_mask b = Some m2).
Proof.
  split; [done|]. intros b.
  destruct (decide (batch_data = [])) as [->|Hne]; [done|].
  rewrite collate_nonempty by done.
  intros Hb.
  assert (Hmasks :
    exists tm snm,
      b = {| Batch.hr_token_ids :=
               pad_rows pad_token_id (hr_token_ids <$> batch_data);
             Batch.hr_mask := mask_rows (hr_token_ids <$> batch_data);
             Batch.hr_token_type_ids :=
               pad_rows 0 (hr_token_type_ids <$> batch_data);
             Batch.tail_token_ids :=
               pad_rows pad_token_id (tail_token_ids <$> batch_data);
             Batch.tail_mask := mask_rows (tail_token_ids <$> batch_data);
             Batch.tail_token_type_ids :=
               pad_rows 0 (tail_token_type_ids <$> batch_data);
             Batch.head_token_ids :=
               pad_rows pad_token_id (head_token_ids <$> batch_data);
             Batch.head_mask := mask_rows (head_token_ids <$> batch_data);
             Batch.head_token_type_ids :=
               pad_rows 0 (head_token_type_ids <$> batch_data);
             Batch.batch_data := obj <$> batch_data;
             Batch.triplet_mask := tm;
             Batch.self_negative_mask := snm |} /\
      (if is_test args then tm = None /\ snm = None
       else exists m1 m2,
           construct_mask (obj <$> batch_data) = Ok m1 /\
           construct_self_negative_mask (obj <$> batch_data) = Ok m2 /\
           tm = Some m1 /\ snm = Some m2)).
  { destruct (is_test args); cbn [negb mbind result_bind] in Hb.
    - injection Hb as <-. by eexists _, _.
    - destruct (construct_mask _) as [m1|]; [|done].
      destruct (construct_self_negative_mask _) as [m2|]; [|done].
      cbn [mbind result_bind] in Hb. injection Hb as <-.
      eexists _, _. split; [done|]. by exists m1, m2. }
  destruct Hmasks as (tm & snm & -> & Hm). cbn.
  split; [done|]. split.
  { unfold pad_rows, mask_rows. repeat constructor; by rewrite !length_fmap. }
  rewrite !unpad_rows. do 3 (split; [done|]). split; [|exact Hm].
  intros i v Hv. unfold pad_rows. eexists _, _, _.
  rewrite !list_lookup_fmap, Hv. done.
Qed.

Lemma collate_batch_witness :
  exists b,
    collate (args_of_task "wiki5m_trans") 0 nat mask_size mask_size
            [vectorized_long; vectorized_short] = Ok b /\
    Batch.batch_data b = obj <$> [vectorized_long; vectorized_short] /\
    zip_with unpad (Batch.hr_token_ids b) (Batch.hr_mask b)
    = hr_token_ids <$> [vectorized_long; vectorized_short] /\
    Batch.triplet_mask b = Some 2%nat.
Proof.
  destruct (collate (args_of_task "wiki5m_trans") 0 nat mask_size mask_size
              [vectorized_long; vectorized_short]) as [b|] eqn:Hb;
    [|by vm_compute in Hb].
  exists b. split; [done|].
  destruct (proj2 (collate_batch (args_of_task "wiki5m_trans") 0 nat
                     mask_size mask_size
                     [vectorized_long; vectorized_short]) b Hb)
    as (Hdata & _ & Hhr & _ & _ & _ & Hmask).
  split; [exact Hdata|]. split; [exact Hhr|].
  cbn in Hmask. destruct Hmask as (m1 & m2 & Hm1 & _ & -> & _).
  by injection Hm1 as <-.
Defined.


(** X13. [rel_gen_collate] collates the first element of its argument as
    [collate] would and ignores the others; on an empty argument it raises
    [IndexError]. *)
Theorem rel_gen_collate_first (args : Args) (pad_token_id : Z) (M : Type)
    (construct_mask construct_self_negative_mask : list Example -> result M) :
  rel_gen_collate args pad_token_id M construct_mask
                  construct_self_negative_mask [] = Raise IndexError /\
  forall batch rest,
    rel_gen_collate args pad_token_id M construct_mask
                    construct_self_negative_mask (batch :: rest)
    = collate args pad_token_id M construct_mask
              construct_self_negative_mask batch.
Proof. split; [done|]. intros batch rest. reflexivity. Qed.

(** ** The sampler over a constructed dataset *)

Section DrawFacts.
Variable random : nat -> nat.

Lemma accumulate_length acc weights :
  length (accumulate acc weights) = length weights.
Proof.
  revert acc. induction weights as [|w ws IH]; intros acc; [done|].
  simpl. by rewrite IH.
Qed.

Lemma accumulate_last acc weights :
  weights <> [] -> Forall (fun w => 0 < w) weights ->
  exists tot, last (accumulate acc weights) = Some tot /\ acc < tot.
Proof.
  revert acc. induction weights as [|w ws IH]; intros acc Hne Hpos; [done|].
  apply Forall_cons in Hpos as [Hw Hpos]. simpl.
  destruct ws as [|w' ws'].
  - exists (acc + w). split; [done|lia].
  - destruct (IH (acc + w)) as (tot & Hl & Hlt); [done|done|].
    exists tot. split; [|lia].
    simpl in *. exact Hl.
Qed.

Lemma bisect_le cum_weights x hi : (bisect cum_weights x hi <= hi)%nat.
Proof.
  unfold bisect. etrans; [apply length_filter|].
  rewrite length_take. lia.
Qed.

Lemma weighted_choice_Ok {A} (population : list A) weights pos r pos' :
  weighted_choice random population weights pos = Ok (r, pos') ->
  r ∈ population /\ pos' = S pos.
Proof.
  unfold weighted_choice.
  destruct (negb _); [done|].
  destruct (last _) as [tot|]; [|done].
  destruct (tot <=? 0); [done|].
  unfold mbind, rand_bind, draw_below.
  destruct (population !! _) as [y|] eqn:Hy; [|done].
  intros [= <- <-]. split; [|done]. by eapply list_elem_of_lookup_2.
Qed.

Lemma weighted_choice_positive {A} (population : list A) weights pos :
  length population = length weights ->
  weights <> [] -> Forall (fun w => 0 < w) weights ->
  exists r, weighted_choice random population weights pos = Ok (r, S pos) /\
            r ∈ population.
Proof.
  intros Hlen Hne Hpos. unfold weighted_choice.
  rewrite accumulate_length, Hlen, Nat.eqb_refl. cbn [negb].
  destruct (accumulate_last 0 weights Hne Hpos) as (tot & -> & Htot).
  rewrite (proj2 (Z.leb_gt tot 0)) by done.
  unfold mbind, rand_bind, draw_below.
  destruct (lookup_lt_is_Some_2 population
              (bisect (accumulate 0 weights)
                      (Z.of_nat (random pos mod Z.to_nat tot))
                      (length weights - 1))) as [r Hr].
  { pose proof (bisect_le (accumulate 0 weights)
                  (Z.of_nat (random pos mod Z.to_nat tot)) (length weights - 1)).
    destruct weights; [done|]. simpl in *. lia. }
  exists r. rewrite Hr. split; [done|]. by eapply list_elem_of_lookup_2.
Qed.

End DrawFacts.

Lemma pool_of_dataset
    (entity_dict : string -> option EntityExample)
    (reverse_triplet : json_obj -> result json_obj)
    (fs : string -> option (list json_obj))
    (path task : string) (exs : list Example) (d : Dataset.t)
    (batch_size : Z) (cs : RelationBatchSampler.commonsense)
    (cake_ratio : spec_float) (relation_ : string) (pool : list nat) :
  outcome (Dataset.init entity_dict reverse_triplet fs path task exs) = Ok d ->
  RelationBatchSampler.candidate_pool
    (RelationBatchSampler.init batch_size cs cake_ratio (Dataset.ds_info d))
    relation_ = Ok pool ->
  exists concepts,
    RelationBatchSampler.relation_concepts
      (RelationBatchSampler.init batch_size cs cake_ratio (Dataset.ds_info d))
      relation_ = Some concepts /\
    Forall (fun i => exists e concept ents,
                Dataset.examples d !! i = Some e /\ relation e = relation_ /\
                concept ∈ concepts /\
                RelationBatchSampler.cs_dom_ent cs !! pretty concept = Some ents /\
                tail_id e ∈ ents) pool.
Proof.
  intros Hd Hp.
  apply candidate_pool_Ok in Hp as (_ & concepts & relation_ents & Hc & Hr & Hx).
  exists concepts. split; [exact Hc|].
  apply Forall_forall. intros x Hin.
  apply Hx in Hin as (concept & ents & ent & b & Hcin & Hents & Hent & Hb & Hxb).
  apply init_buckets in Hd as (_ & Hbuckets & _).
  destruct (Hbuckets relation_ ent b) as (j & e & -> & He & [Hrel Htail] & _).
  { unfold bucket. cbn in Hr. rewrite Hr. exact Hb. }
  apply list_elem_of_singleton in Hxb as ->.
  exists e, concept, ents. cbn in Hents. subst ent. done.
Qed.

(** X14. On a sampler built from a constructed dataset, every index
    [concept_filter] returns for a relation is the index of an example of
    the dataset that has this relation and whose tail entity belongs to
    one of the concepts selected for the relation (the tail concepts of
    the relation, the head concepts of the base relation for an inverse
    one). *)
Theorem concept_filter_selects
    (entity_dict : string -> option EntityExample)
    (reverse_triplet : json_obj -> result json_obj)
    (fs : string -> option (list json_obj))
    (path task : string) (exs : list Example) (d : Dataset.t)
    (batch_size : Z) (cs : RelationBatchSampler.commonsense)
    (cake_ratio : spec_float) (random : nat -> nat)
    (relation_ : string) (example_size : Z) (pos : nat)
    (temp : list nat) (pos' : nat) :
  outcome (Dataset.init entity_dict reverse_triplet fs path task exs) = Ok d ->
  RelationBatchSampler.concept_filter random
    (RelationBatchSampler.init batch_size cs cake_ratio (Dataset.ds_info d))
    relation_ example_size pos = Ok (temp, pos') ->
  exists concepts,
    RelationBatchSampler.relation_concepts
      (RelationBatchSampler.init batch_size cs cake_ratio (Dataset.ds_info d))
      relation_ = Some concepts /\
    Forall (fun i => exists e concept ents,
                Dataset.examples d !! i = Some e /\ relation e = relation_ /\
                concept ∈ concepts /\
                RelationBatchSampler.cs_dom_ent cs !! pretty concept = Some ents /\
                tail_id e ∈ ents) temp.
Proof.
  intros Hd Hcf.
  destruct (RelationBatchSampler.candidate_pool
              (RelationBatchSampler.init batch_size cs cake_ratio
                 (Dataset.ds_info d)) relation_) as [pool|err] eqn:Hp.
  - rewrite (concept_filter_pool_Ok _ _ _ _ _ _ Hp) in Hcf.
    apply choices_n_Ok in Hcf as [_ Hall].
    destruct (pool_of_dataset _ _ _ _ _ _ _ _ _ _ _ _ Hd Hp)
      as (concepts & Hc & Hpool).
    exists concepts. split; [exact Hc|].
    rewrite Forall_forall in Hall, Hpool. apply Forall_forall.
    intros i Hi. by apply Hpool, Hall.
  - by rewrite (concept_filter_pool_raises _ _ _ _ _ _ Hp) in Hcf.
Qed.

Lemma concept_filter_selects_witness :
  exists temp pos' concepts,
    RelationBatchSampler.concept_filter random_id
      (RelationBatchSampler.init 8 commonsense_shared float_0_15
         (Dataset.ds_info d_shared)) "r" 2 0%nat = Ok (temp, pos') /\
    RelationBatchSampler.relation_concepts
      (RelationBatchSampler.init 8 commonsense_shared float_0_15
         (Dataset.ds_info d_shared)) "r" = Some concepts /\
    Forall (fun i => exists e concept ents,
                Dataset.examples d_shared !! i = Some e /\
                relation e = "r"%string /\ concept ∈ concepts /\
                RelationBatchSampler.cs_dom_ent commonsense_shared
                  !! pretty concept = Some ents /\
                tail_id e ∈ ents) temp.
Proof.
  assert (Hd : outcome (Dataset.init dict_all reverse_triplet_spec fs_empty
                          "" "task" examples_shared) = Ok d_shared)
    by (vm_compute; reflexivity).
  destruct (RelationBatchSampler.concept_filter random_id
              (RelationBatchSampler.init 8 commonsense_shared float_0_15
                 (Dataset.ds_info d_shared)) "r" 2 0%nat)
    as [[temp pos']|] eqn:Hcf; [|by vm_compute in Hcf].
  destruct (concept_filter_selects dict_all reverse_triplet_spec fs_empty
              "" "task" examples_shared d_shared 8 commonsense_shared
              float_0_15 random_id "r" 2 0%nat temp pos' Hd Hcf)
    as (concepts & Hc & Hall).
  by exists temp, pos', concepts.
Defined.


Section PassIndexFacts.
Variable args : Args.
Variable entity_dict : string -> option EntityExample.
Variable random : nat -> nat.
Variable P : nat -> Prop.

Lemma elem_of_list_set (l : list nat) (x : nat) : x ∈ list_set l <-> x ∈ l.
Proof. unfold list_set. apply elem_of_remove_dups. Qed.

Lemma cake_loop_Forall (self : RelationBatchSampler.t) fuel cnt exs rels pos
    out pos' :
  (forall relation_ pool,
     RelationBatchSampler.candidate_pool self relation_ = Ok pool ->
     Forall P pool) ->
  RelationBatchSampler.cake_loop entity_dict random self fuel cnt exs rels pos
  = Returns (out, pos') ->
  Forall P exs -> Forall P out.
Proof.
  intros Hpool. revert exs rels pos.
  induction fuel as [|fuel IH]; intros exs rels pos; cbn [RelationBatchSampler.cake_loop].
  - case_bool_decide; [done|]. by intros [= <- <-].
  - case_bool_decide; [|by intros [= <- <-]].
    destruct (weighted_choice _ _ _ pos) as [[r pos1]|]; [|done].
    case_bool_decide; [apply IH|].
    destruct (RelationBatchSampler.concept_filter random self r _ pos1)
      as [[temp pos2]|] eqn:Hcf; [|done].
    destruct (RelationBatchSampler.report _ _ _); [|done].
    intros Hret Hexs. eapply IH; [exact Hret|].
    apply Forall_forall. intros x [Hx|Hx]%elem_of_list_set%elem_of_app.
    + rewrite Forall_forall in Hexs. by apply Hexs.
    + destruct (RelationBatchSampler.candidate_pool self r) as [pool|err] eqn:Hp.
      * rewrite (concept_filter_pool_Ok _ _ _ _ _ _ Hp) in Hcf.
        apply choices_n_Ok in Hcf as [_ Hall].
        specialize (Hpool _ _ Hp).
        rewrite Forall_forall in Hall, Hpool. by apply Hpool, Hall.
      * by rewrite (concept_filter_pool_raises _ _ _ _ _ _ Hp) in Hcf.
Qed.

Lemma slice_to_subset {A} (l : list A) (n : Z) (x : A) :
  x ∈ slice_to l n -> x ∈ l.
Proof.
  unfold slice_to. destruct (0 <=? n); apply subseteq_take.
Qed.

End PassIndexFacts.

Section PassBatchFacts.
Variable args : Args.
Variable entity_dict : string -> option EntityExample.
Variable random : nat -> nat.

Lemma next_batch_indices (self : RelationBatchSampler.t) fuel pos b pos' :
  (forall relation_ pool,
     RelationBatchSampler.candidate_pool self relation_ = Ok pool ->
     Forall (fun i => (i < RelationBatchSampler.ex_cnt self)%nat) pool) ->
  RelationBatchSampler.next_batch args entity_dict random self fuel pos
  = Returns (b, pos') ->
  Forall (fun i => (i < RelationBatchSampler.ex_cnt self)%nat) b.
Proof.
  intros Hpool. unfold RelationBatchSampler.next_batch.
  destruct (RelationBatchSampler.portions _ _ _ _ _ _)
    as [[[sampled extra] pos1]| |] eqn:Hp; [|done..].
  intros [= <- <-].
  pose proof (portions_returns _ _ _ _ _ _ _ _ _ Hp)
    as (cnt & _ & _ & _ & _ & Hextra).
  assert (Hs : Forall (fun i => (i < RelationBatchSampler.ex_cnt self)%nat)
                      sampled).
  { unfold RelationBatchSampler.portions in Hp.
    destruct (RelationBatchSampler.cake_sample_cnt args) as [c|]; [|done].
    destruct (RelationBatchSampler.cake_loop _ _ _ _ _ _ _ _)
      as [[s1 p1]| |] eqn:Hl; [|done..].
    destruct (choices _ _ _ _) as [[ex p2]|]; [|done].
    injection Hp as -> _ _.
    eapply cake_loop_Forall; [exact Hpool|exact Hl|constructor]. }
  apply Forall_forall. intros x Hx%slice_to_subset.
  apply elem_of_app in Hx as [Hx|Hx].
  - rewrite Forall_forall in Hs. by apply Hs.
  - rewrite Forall_forall in Hextra. by apply Hextra.
Qed.

Lemma iter_from_indices (self : RelationBatchSampler.t) fuel n pos bs e :
  (forall relation_ pool,
     RelationBatchSampler.candidate_pool self relation_ = Ok pool ->
     Forall (fun i => (i < RelationBatchSampler.ex_cnt self)%nat) pool) ->
  RelationBatchSampler.iter_from args entity_dict random self fuel n pos
  = (bs, e) ->
  Forall (Forall (fun i => (i < RelationBatchSampler.ex_cnt self)%nat)) bs.
Proof.
  intros Hpool. revert pos bs.
  induction n as [|n IH]; intros pos bs; cbn [RelationBatchSampler.iter_from].
  - by intros [= <- <-].
  - destruct (RelationBatchSampler.next_batch _ _ _ _ _ _)
      as [[b pos1]| |] eqn:Hb; [|by intros [= <- <-]..].
    destruct (RelationBatchSampler.iter_from _ _ _ _ _ _ _) as [bs' e'] eqn:Hi.
    intros [= <- <-]. constructor.
    + by eapply next_batch_indices.
    + by eapply IH.
Qed.

(** A pass yields at most [n] batches, and fewer only when it is cut
    short. *)
Lemma iter_from_count (self : RelationBatchSampler.t) fuel n pos bs e :
  RelationBatchSampler.iter_from args entity_dict random self fuel n pos
  = (bs, e) ->
  (length bs <= n)%nat /\ (e = Exhausted <-> length bs = n).
Proof.
  revert pos bs.
  induction n as [|n IH]; intros pos bs; cbn [RelationBatchSampler.iter_from].
  - intros [= <- <-]. by split.
  - destruct (RelationBatchSampler.next_batch _ _ _ _ _ _)
      as [[b pos1]| |] eqn:Hb.
    + destruct (RelationBatchSampler.iter_from _ _ _ _ _ _ _) as [bs' e'] eqn:Hi.
      intros [= <- <-]. apply IH in Hi as [Hle Hiff]. simpl.
      split; [lia|]. rewrite Hiff. lia.
    + intros [= <- <-]. simpl. split; [lia|]. split; [done|lia].
    + intros [= <- <-]. simpl. split; [lia|]. split; [done|lia].
Qed.

End PassBatchFacts.

(** X15. Every index a pass of a sampler over a constructed dataset yields
    is a valid index of the dataset, however the pass ends. *)
Theorem batches_index_dataset (args : Args)
    (entity_dict : string -> option EntityExample)
    (reverse_triplet : json_obj -> result json_obj)
    (fs : string -> option (list json_obj))
    (path task : string) (exs : list Example) (d : Dataset.t)
    (batch_size : Z) (cs : RelationBatchSampler.commonsense)
    (cake_ratio : spec_float) (random : nat -> nat) (fuel pos : nat)
    (bs : list (list nat)) (e : gen_end) :
  outcome (Dataset.init entity_dict reverse_triplet fs path task exs) = Ok d ->
  RelationBatchSampler.iter args entity_dict random
    (RelationBatchSampler.init batch_size cs cake_ratio (Dataset.ds_info d))
    fuel pos = (bs, e) ->
  Forall (Forall (fun i => (i < Dataset.len d)%nat)) bs.
Proof.
  intros Hd Hi.
  apply (iter_from_indices args entity_dict random _ _ _ _ _ _) in Hi;
    [exact Hi|].
  intros relation_ pool Hp.
  destruct (pool_of_dataset _ _ _ _ _ _ _ _ _ _ _ _ Hd Hp) as (concepts & _ & Hall).
  eapply Forall_impl; [exact Hall|].
  intros i (ex & _ & _ & Hex & _). cbn. by eapply lookup_lt_Some.
Qed.

Lemma batches_index_dataset_witness :
  exists bs e,
    RelationBatchSampler.iter args_8 dict_all random_id
      (RelationBatchSampler.init 8 commonsense_shared float_0_15
         (Dataset.ds_info d_shared)) 5%nat 0%nat = (bs, e) /\
    bs <> [] /\
    Forall (Forall (fun i => (i < Dataset.len d_shared)%nat)) bs.
Proof.
  assert (Hd : outcome (Dataset.init dict_all reverse_triplet_spec fs_empty
                          "" "task" examples_shared) = Ok d_shared)
    by (vm_compute; reflexivity).
  destruct (RelationBatchSampler.iter args_8 dict_all random_id
              (RelationBatchSampler.init 8 commonsense_shared float_0_15
                 (Dataset.ds_info d_shared)) 5%nat 0%nat) as [bs e] eqn:Hi.
  exists bs, e. split; [done|]. split.
  - intros ->. by vm_compute in Hi.
  - exact (batches_index_dataset args_8 dict_all reverse_triplet_spec fs_empty
             "" "task" examples_shared d_shared 8 commonsense_shared
             float_0_15 random_id 5%nat 0%nat bs e Hd Hi).
Defined.


(** X16. A pass never yields more batches than [len(sampler)], and it
    yields fewer exactly when it does not run to exhaustion (an exception,
    or a loop that does not end). *)
Theorem pass_yields_at_most_length (args : Args)
    (entity_dict : string -> option EntityExample) (random : nat -> nat)
    (self : RelationBatchSampler.t) (fuel pos : nat)
    (bs : list (list nat)) (e : gen_end) :
  RelationBatchSampler.iter args entity_dict random self fuel pos = (bs, e) ->
  (length bs <= RelationBatchSampler.len self)%nat /\
  (e = Exhausted <-> length bs = RelationBatchSampler.len self).
Proof. apply iter_from_count. Qed.

Lemma pass_yields_at_most_length_witness :
  exists bs e,
    RelationBatchSampler.iter args_8 dict_all random_id sampler_8 5%nat 0%nat
    = (bs, e) /\
    (length bs <= RelationBatchSampler.len sampler_8)%nat /\
    (e = Exhausted <-> length bs = RelationBatchSampler.len sampler_8).
Proof.
  destruct (RelationBatchSampler.iter args_8 dict_all random_id sampler_8 5%nat
              0%nat)
    as [bs e] eqn:Hi.
  exists bs, e. split; [done|].
  exact (pass_yields_at_most_length args_8 dict_all random_id sampler_8 5%nat
           0%nat bs e Hi).
Defined.


Lemma keys_of_dataset
    (entity_dict : string -> option EntityExample)
    (reverse_triplet : json_obj -> result json_obj)
    (fs : string -> option (list json_obj))
    (path task : string) (exs : list Example) (d : Dataset.t) :
  outcome (Dataset.init entity_dict reverse_triplet fs path task exs) = Ok d ->
  (forall r, r ∈ (map_to_list (Dataset.rel_ex_cnt d)).*1
             <-> r ∈ (relation <$> Dataset.examples d)) /\
  Forall (fun w => 0 < w) (map_to_list (Dataset.rel_ex_cnt d)).*2.
Proof.
  intros Hd. pose proof (init_rel_ex_cnt _ _ _ _ _ _ _ Hd) as Hc. split.
  - intros r. rewrite list_elem_of_fmap. split.
    + intros ([k v] & -> & Hin). apply elem_of_map_to_list in Hin.
      rewrite Hc in Hin. simpl. case_decide as H0; [done|].
      destruct (decide (k ∈ relation <$> Dataset.examples d)) as [|n]; [done|].
      exfalso. apply H0. by apply count_rel_0.
    + intros Hin.
      exists (r, Z.of_nat (count_rel r (Dataset.examples d))). split; [done|].
      apply elem_of_map_to_list. rewrite Hc.
      rewrite decide_False; [done|]. intros H0%count_rel_0. by apply H0.
  - apply Forall_fmap, Forall_forall. intros [k v] Hin.
    apply elem_of_map_to_list in Hin. rewrite Hc in Hin. simpl.
    case_decide; [done|]. injection Hin as <-. lia.
Qed.

(** X17. For a sampler built from a constructed dataset, [len(sampler)]
    is the number of distinct relations among the examples and [ex_cnt] is
    the number of examples; so a pass has at most as many turns as the
    dataset has examples. *)
Theorem sampler_len_distinct_relations
    (entity_dict : string -> option EntityExample)
    (reverse_triplet : json_obj -> result json_obj)
    (fs : string -> option (list json_obj))
    (path task : string) (exs : list Example) (d : Dataset.t)
    (batch_size : Z) (cs : RelationBatchSampler.commonsense)
    (cake_ratio : spec_float) :
  outcome (Dataset.init entity_dict reverse_triplet fs path task exs) = Ok d ->
  RelationBatchSampler.len
    (RelationBatchSampler.init batch_size cs cake_ratio (Dataset.ds_info d))
  = length (list_set (relation <$> Dataset.examples d)) /\
  RelationBatchSampler.ex_cnt
    (RelationBatchSampler.init batch_size cs cake_ratio (Dataset.ds_info d))
  = Dataset.len d /\
  (RelationBatchSampler.len
     (RelationBatchSampler.init batch_size cs cake_ratio (Dataset.ds_info d))
   <= Dataset.len d)%nat.
Proof.
  intros Hd. apply keys_of_dataset in Hd as [Hkeys _].
  assert (Hlen : RelationBatchSampler.len
            (RelationBatchSampler.init batch_size cs cake_ratio
               (Dataset.ds_info d))
          = length (list_set (relation <$> Dataset.examples d))).
  { unfold RelationBatchSampler.len. cbn.
    rewrite <- length_map_to_list.
    rewrite <- (length_fmap fst (map_to_list (Dataset.rel_ex_cnt d))).
    apply Permutation_length, NoDup_Permutation.
    - apply NoDup_fst_map_to_list.
    - apply NoDup_remove_dups.
    - intros r. rewrite Hkeys. unfold list_set.
      by rewrite elem_of_remove_dups. }
  split; [exact Hlen|]. split; [done|].
  rewrite Hlen. unfold list_set, Dataset.len.
  rewrite <- (length_fmap relation (Dataset.examples d)).
  apply submseteq_length, NoDup_submseteq; [apply NoDup_remove_dups|].
  intros x. by rewrite elem_of_remove_dups.
Qed.

Lemma sampler_len_distinct_relations_witness :
  outcome (Dataset.init dict_all reverse_triplet_spec fs_train
             "train.json" "task" []) = Ok d_train /\
  RelationBatchSampler.len
    (RelationBatchSampler.init 8 commonsense_train float_0_15
       (Dataset.ds_info d_train)) = 4%nat /\
  RelationBatchSampler.ex_cnt
    (RelationBatchSampler.init 8 commonsense_train float_0_15
       (Dataset.ds_info d_train)) = 4%nat.
Proof.
  assert (Hd : outcome (Dataset.init dict_all reverse_triplet_spec fs_train
                          "train.json" "task" []) = Ok d_train)
    by (vm_compute; reflexivity).
  split; [exact Hd|].
  destruct (sampler_len_distinct_relations dict_all reverse_triplet_spec
              fs_train "train.json" "task" [] d_train 8 commonsense_train
              float_0_15 Hd) as (Hlen & Hcnt & _).
  split; [rewrite Hlen|rewrite Hcnt]; vm_compute; reflexivity.
Defined.


(** The loop of [__iter__] begins each turn with this draw. *)
Lemma cake_loop_draw (entity_dict : string -> option EntityExample)
    (random : nat -> nat) (self : RelationBatchSampler.t) (fuel : nat)
    (cnt : Z) (exs : list nat) (rels : list string) (pos : nat) (e : exn) :
  Z.of_nat (length exs) < cnt ->
  sample_relation random self pos = Raise e ->
  RelationBatchSampler.cake_loop entity_dict random self (S fuel) cnt exs rels pos
  = Raises e.
Proof.
  intros Hlt Hr. cbn [RelationBatchSampler.cake_loop].
  rewrite bool_decide_eq_true_2 by done.
  unfold sample_relation in Hr. by rewrite Hr.
Qed.

(** X18. On a sampler built from a constructed dataset with at least one
    example, the relation draw of the loop of [__iter__] never raises: it
    consumes one random number and returns a relation of the dataset.
    Over a dataset without examples it raises [IndexError]. *)
Theorem sample_relation_of_dataset
    (entity_dict : string -> option EntityExample)
    (reverse_triplet : json_obj -> result json_obj)
    (fs : string -> option (list json_obj))
    (path task : string) (exs : list Example) (d : Dataset.t)
    (batch_size : Z) (cs : RelationBatchSampler.commonsense)
    (cake_ratio : spec_float) (random : nat -> nat) (pos : nat) :
  outcome (Dataset.init entity_dict reverse_triplet fs path task exs) = Ok d ->
  ((0 < Dataset.len d)%nat ->
   exists r,
     sample_relation random
       (RelationBatchSampler.init batch_size cs cake_ratio (Dataset.ds_info d))
       pos = Ok (r, S pos) /\
     r ∈ (relation <$> Dataset.examples d)) /\
  (Dataset.len d = 0%nat ->
   sample_relation random
     (RelationBatchSampler.init batch_size cs cake_ratio (Dataset.ds_info d))
     pos = Raise IndexError).
Proof.
  intros Hd. pose proof (keys_of_dataset _ _ _ _ _ _ _ Hd) as [Hkeys Hpos].
  unfold sample_relation. cbn [RelationBatchSampler.rel_ex_cnt
    RelationBatchSampler.init Dataset.ds_info Dataset.info_rel_ex_cnt].
  split.
  - intros Hlen.
    destruct (weighted_choice_positive random
                (map_to_list (Dataset.rel_ex_cnt d)).*1
                (map_to_list (Dataset.rel_ex_cnt d)).*2 pos)
      as (r & Hr & Hin).
    + by rewrite !length_fmap.
    + unfold Dataset.len in Hlen.
      destruct (Dataset.examples d) as [|e l] eqn:He; [simpl in Hlen; lia|].
      assert (Hin : relation e ∈ (map_to_list (Dataset.rel_ex_cnt d)).*1).
      { apply Hkeys. rewrite fmap_cons. apply elem_of_cons. by left. }
      intros Hnil. apply list_elem_of_fmap in Hin as (kv & _ & Hin).
      apply (f_equal length) in Hnil. rewrite length_fmap in Hnil.
      destruct (map_to_list (Dataset.rel_ex_cnt d)); [|done].
      by apply elem_of_nil in Hin.
    + exact Hpos.
    + exists r. split; [exact Hr|]. by apply Hkeys.
  - intros Hlen. unfold Dataset.len in Hlen.
    apply length_zero_iff_nil in Hlen.
    assert (Hnil : map_to_list (Dataset.rel_ex_cnt d) = []).
    { destruct (map_to_list (Dataset.rel_ex_cnt d)) as [|[k v] l] eqn:Hl; [done|].
      assert (Hin : k ∈ ((k, v) :: l).*1).
      { simpl. apply elem_of_cons. by left. }
      apply Hkeys in Hin. rewrite Hlen in Hin. by apply elem_of_nil in Hin. }
    by rewrite Hnil.
Qed.

Lemma sample_relation_of_dataset_witness :
  exists r,
    sample_relation random_id
      (RelationBatchSampler.init 8 commonsense_shared float_0_15
         (Dataset.ds_info d_shared)) 0%nat = Ok (r, 1%nat) /\
    r ∈ (relation <$> Dataset.examples d_shared).
Proof.
  assert (Hd : outcome (Dataset.init dict_all reverse_triplet_spec fs_empty
                          "" "task" examples_shared) = Ok d_shared)
    by (vm_compute; reflexivity).
  apply (proj1 (sample_relation_of_dataset dict_all reverse_triplet_spec
                  fs_empty "" "task" examples_shared d_shared 8
                  commonsense_shared float_0_15 random_id 0%nat Hd)).
  vm_compute. lia.
Defined.


Section TargetFacts.
Variable args : Args.
Variable entity_dict : string -> option EntityExample.
Variable random : nat -> nat.

Lemma length_list_set (l : list nat) : (length (list_set l) <= length l)%nat.
Proof.
  unfold list_set. apply submseteq_length, NoDup_submseteq.
  - apply NoDup_remove_dups.
  - intros x. by rewrite elem_of_remove_dups.
Qed.

Lemma concept_filter_length (self : RelationBatchSampler.t) relation_ k pos
    temp pos' :
  RelationBatchSampler.concept_filter random self relation_ k pos
  = Ok (temp, pos') ->
  length temp = Z.to_nat k.
Proof.
  destruct (RelationBatchSampler.candidate_pool self relation_)
    as [pool|err] eqn:Hp.
  - rewrite (concept_filter_pool_Ok _ _ _ _ _ _ Hp). unfold choices.
    by intros [? _]%choices_n_Ok.
  - by rewrite (concept_filter_pool_raises _ _ _ _ _ _ Hp).
Qed.

(** Each relation is filtered at most once in a batch and adds at most
    [batch_size // 8] indices. *)
Lemma cake_loop_bounded (self : RelationBatchSampler.t) fuel cnt exs rels pos
    out pos' :
  RelationBatchSampler.cake_loop entity_dict random self fuel cnt exs rels pos
  = Returns (out, pos') ->
  NoDup rels ->
  (forall r, r ∈ rels ->
     r ∈ (map_to_list (RelationBatchSampler.rel_ex_cnt self)).*1) ->
  (length exs
   <= length rels * Z.to_nat (RelationBatchSampler.batch_size self / 8))%nat ->
  cnt <= Z.of_nat (size (RelationBatchSampler.rel_ex_cnt self))
         * Z.max 0 (RelationBatchSampler.batch_size self / 8).
Proof.
  revert exs rels pos.
  induction fuel as [|fuel IH]; intros exs rels pos;
    cbn [RelationBatchSampler.cake_loop].
  - case_bool_decide as Hlt; [done|]. intros _ Hnd Hsub Hlen.
    assert (Hrels : (length rels
                     <= size (RelationBatchSampler.rel_ex_cnt self))%nat).
    { rewrite <- length_map_to_list.
      rewrite <- (length_fmap fst (map_to_list _)).
      by apply submseteq_length, NoDup_submseteq. }
    nia.
  - case_bool_decide as Hlt.
    + destruct (weighted_choice _ _ _ pos) as [[r pos1]|] eqn:Hw; [|done].
      apply weighted_choice_Ok in Hw as [Hr _].
      case_bool_decide as Hin; [apply IH|].
      destruct (RelationBatchSampler.concept_filter random self r _ pos1)
        as [[temp pos2]|] eqn:Hcf; [|done].
      destruct (RelationBatchSampler.report _ _ _); [|done].
      apply concept_filter_length in Hcf.
      intros Hret Hnd Hsub Hlen. eapply IH; [exact Hret|..].
      * apply NoDup_app. split; [done|]. split; [|apply NoDup_singleton].
        intros x Hx ->%list_elem_of_singleton. done.
      * intros x [Hx|Hx%list_elem_of_singleton]%elem_of_app;
          [by apply Hsub|by subst].
      * etrans; [apply length_list_set|].
        rewrite !length_app. simpl. lia.
    + intros _ Hnd Hsub Hlen.
      assert (Hrels : (length rels
                       <= size (RelationBatchSampler.rel_ex_cnt self))%nat).
      { rewrite <- length_map_to_list.
        rewrite <- (length_fmap fst (map_to_list _)).
        by apply submseteq_length, NoDup_submseteq. }
      nia.
Qed.

End TargetFacts.

(** X19. Within one batch every relation is filtered at most once and
    contributes at most [batch_size // 8] indices: when the constrained
    target [int(batch_size * cake_ratio)] exceeds the number of relations
    times [batch_size // 8], the loop of a batch cannot end, so a pass
    with at least one turn yields no batch and does not run to
    exhaustion, whatever is drawn and however long it runs. *)
Theorem pass_target_unreachable (args : Args)
    (entity_dict : string -> option EntityExample) (random : nat -> nat)
    (self : RelationBatchSampler.t) (cnt : Z) :
  RelationBatchSampler.cake_sample_cnt args = Ok cnt ->
  Z.of_nat (size (RelationBatchSampler.rel_ex_cnt self))
  * Z.max 0 (RelationBatchSampler.batch_size self / 8) < cnt ->
  (0 < RelationBatchSampler.len self)%nat ->
  forall fuel pos bs e,
    RelationBatchSampler.iter args entity_dict random self fuel pos = (bs, e) ->
    bs = [] /\ e <> Exhausted.
Proof.
  intros Hcnt Hbig Hlen fuel pos bs e.
  unfold RelationBatchSampler.iter, RelationBatchSampler.len in *.
  destruct (RelationBatchSampler.length self) as [|n]; [lia|].
  cbn [RelationBatchSampler.iter_from].
  unfold RelationBatchSampler.next_batch, RelationBatchSampler.portions.
  rewrite Hcnt.
  destruct (RelationBatchSampler.cake_loop _ _ _ _ _ _ _ _)
    as [[s1 p1]| |] eqn:Hl.
  - exfalso.
    apply cake_loop_bounded in Hl; [lia|constructor| |simpl; lia].
    by intros r Hr%elem_of_nil.
  - by intros [= <- <-].
  - by intros [= <- <-].
Qed.

Lemma pass_target_unreachable_witness :
  exists bs e,
    RelationBatchSampler.iter args_16 dict_all random_id sampler_16 5%nat 0%nat
    = (bs, e) /\
    RelationBatchSampler.batch_size sampler_16 / 8 = 2 /\
    bs = [] /\ e <> Exhausted.
Proof.
  destruct (RelationBatchSampler.iter args_16 dict_all random_id sampler_16 5%nat
              0%nat)
    as [bs e] eqn:Hi.
  exists bs, e. split; [done|]. split; [reflexivity|].
  apply (pass_target_unreachable args_16 dict_all random_id sampler_16 8)
    with (fuel := 5%nat) (pos := 0%nat).
  - vm_compute. reflexivity.
  - vm_compute. reflexivity.
  - vm_compute. lia.
  - exact Hi.
Defined.


(** ** The tables [concept_filter] reads *)

Lemma getitem_Raise `{Countable K} {V} (d : gmap K V) (k : K) e :
  getitem d k = Raise e -> e = KeyError.
Proof. unfold getitem. destruct (d !! k); congruence. Qed.

Lemma mapM_Raise {A B} (f : A -> result B) (l : list A) e :
  (forall x e, f x = Raise e -> e = KeyError) ->
  mapM f l = Raise e -> e = KeyError.
Proof.
  intros Hf. induction l as [|x l IH]; [done|]. cbn [mapM].
  destruct (f x) as [y|e'] eqn:Hx; cbn [mbind result_bind].
  - destruct (mapM f l); cbn [mbind result_bind]; [done|].
    intros [= <-]. by apply IH.
  - intros [= <-]. by eapply Hf.
Qed.

(** X20. [concept_filter] fails on missing table entries with [KeyError]
    only.  For a relation named [inverse r] it reads the tables of the
    base relation [r]: [rel2nn] must map [r] to one of 0, 1, 2, 3, the
    concepts are the head concepts of [r], and the buckets are those of
    [inverse r] itself; for any other relation it reads the relation's
    own entries and its tail concepts, whatever [rel2nn] maps it to. *)
Theorem candidate_pool_tables (self : RelationBatchSampler.t)
    (relation_ : string) :
  (forall e, RelationBatchSampler.candidate_pool self relation_ = Raise e ->
     e = KeyError) /\
  (forall r pool,
     relation_ = ("inverse " +:+ r)%string ->
     RelationBatchSampler.candidate_pool self relation_ = Ok pool ->
     (exists n, RelationBatchSampler.rel2nn self !! r = Some n /\ 0 <= n <= 3) /\
     is_Some (RelationBatchSampler.rel2dom_h self !! r) /\
     RelationBatchSampler.relation_concepts self relation_
     = RelationBatchSampler.rel2dom_h self !! r /\
     is_Some (RelationBatchSampler.rel2ent_t self !! relation_)) /\
  (forall pool,
     str_take 8 relation_ <> "inverse "%string ->
     RelationBatchSampler.candidate_pool self relation_ = Ok pool ->
     is_Some (RelationBatchSampler.rel2nn self !! relation_) /\
     is_Some (RelationBatchSampler.rel2dom_t self !! relation_) /\
     RelationBatchSampler.relation_concepts self relation_
     = RelationBatchSampler.rel2dom_t self !! relation_ /\
     is_Some (RelationBatchSampler.rel2ent_t self !! relation_)).
Proof.
  split; [|split].
  - intros e. unfold RelationBatchSampler.candidate_pool.
    destruct (if bool_decide (str_take 8 relation_ = "inverse "%string)
              then _ else _) as [[nn concepts]|e1] eqn:H1;
      cbn [mbind result_bind].
    + destruct (getitem (RelationBatchSampler.rel2ent_t self) relation_)
        as [relation_ents|e2] eqn:H2; cbn [mbind result_bind];
        [|intros [= <-]; by eapply getitem_Raise].
      destruct (mapM _ concepts) as [per_concept|e3] eqn:H3;
        cbn [mbind result_bind].
      * destruct (mapM _ (concat per_concept)) as [rel_tail_exs|e4] eqn:H4;
          cbn [mbind result_bind]; [done|].
        intros [= <-]. eapply mapM_Raise; [|exact H4].
        intros x e'. apply getitem_Raise.
      * intros [= <-]. eapply mapM_Raise; [|exact H3].
        intros x e'. cbn beta.
        destruct (getitem (RelationBatchSampler.dom_ent self) (pretty x))
          eqn:Hg; cbn [mbind result_bind]; [done|].
        intros [= <-]. by eapply getitem_Raise.
    + intros [= <-]. case_bool_decide.
      * destruct (getitem (RelationBatchSampler.rel2nn self) _) eqn:Ha;
          cbn [mbind result_bind] in H1;
          [|injection H1 as <-; by eapply getitem_Raise].
        destruct (getitem RelationBatchSampler.reverse_dict _) eqn:Hb;
          cbn [mbind result_bind] in H1;
          [|injection H1 as <-; by eapply getitem_Raise].
        destruct (getitem (RelationBatchSampler.rel2dom_h self) _) eqn:Hc;
          cbn [mbind result_bind] in H1; [done|].
        injection H1 as <-. by eapply getitem_Raise.
      * destruct (getitem (RelationBatchSampler.rel2nn self) _) eqn:Ha;
          cbn [mbind result_bind] in H1;
          [|injection H1 as <-; by eapply getitem_Raise].
        destruct (getitem (RelationBatchSampler.rel2dom_t self) _) eqn:Hc;
          cbn [mbind result_bind] in H1; [done|].
        injection H1 as <-. by eapply getitem_Raise.
  - intros r pool ->.
    unfold RelationBatchSampler.candidate_pool,
      RelationBatchSampler.relation_concepts.
    change (str_take 8 ("inverse " +:+ r)) with "inverse "%string.
    change (str_drop 8 ("inverse " +:+ r)) with r.
    rewrite !bool_decide_eq_true_2 by done.
    destruct (getitem (RelationBatchSampler.rel2nn self) r) as [n|] eqn:Ha;
      cbn [mbind result_bind]; [|done].
    destruct (getitem RelationBatchSampler.reverse_dict n) as [nn|] eqn:Hb;
      cbn [mbind result_bind]; [|done].
    destruct (getitem (RelationBatchSampler.rel2dom_h self) r) as [cs|] eqn:Hc;
      cbn [mbind result_bind]; [|done].
    destruct (getitem (RelationBatchSampler.rel2ent_t self) _) as [ents|] eqn:Hd;
      cbn [mbind result_bind]; [|done].
    intros _. apply getitem_Ok in Ha, Hb, Hc, Hd.
    split; [|by rewrite Hc, Hd].
    exists n. split; [done|].
    unfold RelationBatchSampler.reverse_dict in Hb.
    destruct (decide (n = 0)) as [->|?]; [lia|].
    destruct (decide (n = 1)) as [->|?]; [lia|].
    destruct (decide (n = 2)) as [->|?]; [lia|].
    destruct (decide (n = 3)) as [->|?]; [lia|].
    by rewrite !lookup_insert_ne, lookup_singleton_ne in Hb.
  - intros pool Hne.
    unfold RelationBatchSampler.candidate_pool,
      RelationBatchSampler.relation_concepts.
    rewrite !bool_decide_eq_false_2 by done.
    destruct (getitem (RelationBatchSampler.rel2nn self) _) as [n|] eqn:Ha;
      cbn [mbind result_bind]; [|done].
    destruct (getitem (RelationBatchSampler.rel2dom_t self) _) as [cs|] eqn:Hc;
      cbn [mbind result_bind]; [|done].
    destruct (getitem (RelationBatchSampler.rel2ent_t self) _) as [ents|] eqn:Hd;
      cbn [mbind result_bind]; [|done].
    intros _. apply getitem_Ok in Ha, Hc, Hd.
    by rewrite Ha, Hc, Hd.
Qed.

Lemma candidate_pool_tables_witness :
  exists pool,
    RelationBatchSampler.candidate_pool
      (RelationBatchSampler.init 8 commonsense_train float_0_15
         (Dataset.ds_info d_train)) "inverse r1" = Ok pool /\
    (exists n, RelationBatchSampler.cs_rel2nn commonsense_train !! "r1"%string
               = Some n /\ 0 <= n <= 3) /\
    RelationBatchSampler.relation_concepts
      (RelationBatchSampler.init 8 commonsense_train float_0_15
         (Dataset.ds_info d_train)) "inverse r1"
    = RelationBatchSampler.cs_rel2dom_h commonsense_train !! "r1"%string.
Proof.
  destruct (RelationBatchSampler.candidate_pool
              (RelationBatchSampler.init 8 commonsense_train float_0_15
                 (Dataset.ds_info d_train)) "inverse r1")
    as [pool|] eqn:Hp; [|by vm_compute in Hp].
  exists pool. split; [done|].
  destruct (proj1 (proj2 (candidate_pool_tables
                            (RelationBatchSampler.init 8 commonsense_train
                               float_0_15 (Dataset.ds_info d_train))
                            "inverse r1")) "r1"%string pool eq_refl Hp)
    as (Hn & _ & Hc & _).
  split; [exact Hn|exact Hc].
Defined.


(** ** What construction guarantees to later readers *)

Lemma init_heads_known
    (entity_dict : string -> option EntityExample)
    (reverse_triplet : json_obj -> result json_obj)
    (fs : string -> option (list json_obj))
    (path task : string) (exs : list Example) (d : Dataset.t) :
  outcome (Dataset.init entity_dict reverse_triplet fs path task exs) = Ok d ->
  Forall (head_known entity_dict) (Dataset.examples d).
Proof.
  intros Hi. unfold Dataset.init in Hi.
  destruct (py_assert _); [|done].
  destruct (match exs with
            | [] => load_paths reverse_triplet fs (split_on ","%char path) []
            | _ :: _ => Ok exs
            end) as [examples|] eqn:Hex; [|done].
  assert (He : Dataset.examples d = examples)
    by (by apply index_loop_examples in Hi).
  rewrite He.
  destruct (decide (Forall (head_known entity_dict) examples)) as [Hk|Hk];
    [done|].
  by rewrite index_loop_unknown in Hi.
Qed.

(** X21. Indexing a constructed dataset ([dataset[i]], without link-graph
    augmentation) depends on the tail only: construction has already
    found every head in the directory, so [dataset[i]] returns the
    vectorized example [i] when the directory knows its tail, raises
    [KeyError] when it does not, and raises [IndexError] from
    [len(dataset)] on. *)
Theorem getitem_of_dataset (args : Args)
    (entity_dict : string -> option EntityExample)
    (reverse_triplet : json_obj -> result json_obj)
    (fs : string -> option (list json_obj))
    (path task : string) (exs : list Example) (d : Dataset.t)
    (get_neighbor_ids : string -> list string)
    (tokenizer : string -> option string -> Z -> Encoded) (i : nat) :
  outcome (Dataset.init entity_dict reverse_triplet fs path task exs) = Ok d ->
  use_link_graph args = false ->
  (forall e, Dataset.examples d !! i = Some e ->
     (is_Some (entity_dict (tail_id e)) ->
      exists v,
        outcome (Dataset.getitem_ args entity_dict get_neighbor_ids tokenizer d i)
        = Ok v /\ obj v = e) /\
     (entity_dict (tail_id e) = None ->
      outcome (Dataset.getitem_ args entity_dict get_neighbor_ids tokenizer d i)
      = Raise KeyError)) /\
  ((Dataset.len d <= i)%nat ->
   Dataset.getitem_ args entity_dict get_neighbor_ids tokenizer d i
   = Dir [] (Raise IndexError)).
Proof.
  intros Hd Hg. apply init_heads_known in Hd. split.
  - intros e He. unfold Dataset.getitem_. rewrite He.
    rewrite Forall_forall in Hd.
    assert (Hh : head_known entity_dict e)
      by (apply Hd; by eapply list_elem_of_lookup_2).
    unfold vectorize. rewrite Hg.
    unfold head_desc, head, tail_desc, tail, get_entity_by_id, mbind, dir_bind.
    split.
    + intros [t Ht]. rewrite Ht.
      case_bool_decide; simpl; [eauto|].
      destruct Hh as [?|[h Hh]]; [done|]. rewrite Hh. simpl. eauto.
    + intros Ht. rewrite Ht. case_bool_decide; simpl; [done|].
      by destruct (entity_dict (head_id e)).
  - intros Hlen. unfold Dataset.getitem_.
    by rewrite lookup_ge_None_2.
Qed.

Lemma getitem_of_dataset_witness :
  exists v,
    outcome (Dataset.getitem_ (args_of_task "wiki5m_trans") dict_all
               (fun _ => []) tokenizer_const d_shared 0%nat) = Ok v /\
    obj v = {| head_id := "h1"; relation := "r"; tail_id := "t" |}.
Proof.
  assert (Hd : outcome (Dataset.init dict_all reverse_triplet_spec fs_empty
                          "" "task" examples_shared) = Ok d_shared)
    by (vm_compute; reflexivity).
  apply (proj1 (proj1 (getitem_of_dataset (args_of_task "wiki5m_trans")
                         dict_all reverse_triplet_spec fs_empty "" "task"
                         examples_shared d_shared (fun _ => [])
                         tokenizer_const 0%nat Hd eq_refl)
                  {| head_id := "h1"; relation := "r"; tail_id := "t" |}
                  eq_refl)).
  by eexists.
Defined.


Section ReportIoFacts.
Variable entity_dict : string -> option EntityExample.

Lemma mapM_Forall2 {A B} (f : A -> result B) (l : list A) (r : list B) :
  Forall2 (fun x y => f x = Ok y) l r -> mapM f l = Ok r.
Proof.
  induction 1 as [|x y l r Hx _ IH]; [done|].
  cbn [mapM]. by rewrite Hx, IH.
Qed.

Lemma io_for_outcome {A} (f : A -> io unit) (g : A -> result unit)
    (l : list A) :
  (forall x, io_outcome (f x) = g x) ->
  io_outcome (io_for f l) = (_ ← mapM g l; Ok tt).
Proof.
  intros Hfg. induction l as [|x l IH]; [done|].
  cbn [io_for mapM]. unfold mbind at 1, io_bind. rewrite <- Hfg.
  destruct (io_outcome (f x)) as [[]|e]; cbn [io_outcome mbind result_bind];
    [|done].
  rewrite IH. by destruct (mapM g l).
Qed.

Lemma io_for_Forall2 {A B} (f : A -> io unit) (lk : B -> list string)
    (ln : B -> string) (l : list A) (r : list B) :
  Forall2 (fun x y => f x = Io (lk y) [ln y] (Ok tt)) l r ->
  io_for f l = Io (r ≫= lk) (ln <$> r) (Ok tt).
Proof.
  induction 1 as [|x y l r Hx _ IH]; [done|].
  cbn [io_for]. unfold mbind at 1, io_bind. rewrite Hx, IH. done.
Qed.

(** The outcome of the block is the one the loop of [__iter__] is modelled
    with. *)
Lemma report_io_outcome (self : RelationBatchSampler.t) (temp : list nat) :
  io_outcome (report_io entity_dict self temp)
  = RelationBatchSampler.report entity_dict self temp.
Proof.
  unfold report_io, RelationBatchSampler.report.
  unfold mbind at 1, io_bind. cbn [io_result io_outcome io_lookups io_printed].
  destruct (mapM (getitem (RelationBatchSampler.ex_hid self)) temp)
    as [hids|e]; cbn [mbind result_bind io_outcome]; [|done].
  case_bool_decide; [|done].
  unfold mbind at 1, io_bind. cbn [print io_outcome io_lookups io_printed].
  unfold mbind at 1, io_bind.
  rewrite (io_for_outcome _
             (fun i => example ← getitem (RelationBatchSampler.id2example self) i;
                       _ ← outcome (head entity_dict example);
                       _ ← outcome (tail entity_dict example);
                       Ok tt)).
  - by destruct (mapM _ temp) as [[]|].
  - intros i. unfold mbind at 1, io_bind. cbn [io_result io_outcome].
    destruct (getitem (RelationBatchSampler.id2example self) i) as [ex|];
      cbn [mbind result_bind io_outcome]; [|done].
    unfold mbind at 1, io_bind. cbn [io_dir io_outcome].
    destruct (outcome (head entity_dict ex));
      cbn [mbind result_bind io_outcome]; [|done].
    unfold mbind at 1, io_bind. cbn [io_dir io_outcome].
    by destruct (outcome (tail entity_dict ex)).
Qed.

Lemma report_io_read (self : RelationBatchSampler.t) (temp : list nat)
    (head_id_list : list string) :
  mapM (getitem (RelationBatchSampler.ex_hid self)) temp = Ok head_id_list ->
  report_io entity_dict self temp
  = if bool_decide (20 < length (list_set head_id_list))%nat
    then
      _ ← print "================================";
      _ ← io_for (fun i =>
                    example ←
                      io_result (getitem (RelationBatchSampler.id2example self) i);
                    h ← io_dir (head entity_dict example);
                    t ← io_dir (tail entity_dict example);
                    print (join " " [h; relation example; t]))
                 temp;
      print "================================"
    else mret tt.
Proof.
  intros Hm. unfold report_io. rewrite Hm.
  unfold mbind at 1, io_bind. cbn [io_result io_outcome io_lookups io_printed].
  by destruct (if bool_decide _ then _ else _).
Qed.

End ReportIoFacts.

(** X22. The diagnostic block inside the loop of [__iter__], on indices of
    a constructed dataset.  Reading [ex_hid] never fails and gives the
    head ids of the drawn examples.  With at most 20 distinct head ids
    among them (so with at most 20 drawn indices) the block consults
    nothing and prints nothing.  With more, and the directory knowing the
    tail of every drawn example (the heads are known from construction), it
    looks up the non-empty head and the tail of each drawn example, in
    order, and prints a separator, one line [head relation tail] for each,
    and a separator.  Its outcome is the one the loop is modelled with. *)
Theorem report_of_dataset
    (entity_dict : string -> option EntityExample)
    (reverse_triplet : json_obj -> result json_obj)
    (fs : string -> option (list json_obj))
    (path task : string) (exs : list Example) (d : Dataset.t)
    (batch_size : Z) (cs : RelationBatchSampler.commonsense)
    (cake_ratio : spec_float) (temp : list nat) (drawn : list Example) :
  outcome (Dataset.init entity_dict reverse_triplet fs path task exs) = Ok d ->
  Forall2 (fun i e => Dataset.examples d !! i = Some e) temp drawn ->
  mapM (getitem (RelationBatchSampler.ex_hid
                   (RelationBatchSampler.init batch_size cs cake_ratio
                      (Dataset.ds_info d)))) temp
  = Ok (head_id <$> drawn) /\
  io_outcome (report_io entity_dict
                (RelationBatchSampler.init batch_size cs cake_ratio
                   (Dataset.ds_info d)) temp)
  = RelationBatchSampler.report entity_dict
      (RelationBatchSampler.init batch_size cs cake_ratio (Dataset.ds_info d))
      temp /\
  ((length (list_set (head_id <$> drawn)) <= 20)%nat ->
   report_io entity_dict
     (RelationBatchSampler.init batch_size cs cake_ratio (Dataset.ds_info d))
     temp = Io [] [] (Ok tt)) /\
  ((length temp <= 20)%nat ->
   (length (list_set (head_id <$> drawn)) <= 20)%nat) /\
  ((20 < length (list_set (head_id <$> drawn)))%nat ->
   Forall (fun e => is_Some (entity_dict (tail_id e))) drawn ->
   report_io entity_dict
     (RelationBatchSampler.init batch_size cs cake_ratio (Dataset.ds_info d))
     temp
   = Io (drawn ≫= fun e =>
           filter (fun s => s <> EmptyString) [head_id e] ++ [tail_id e])
        ("================================"%string
         :: ((fun e => join " " [head_name entity_dict e; relation e;
                                 tail_name entity_dict e]) <$> drawn)
         ++ ["================================"%string])
        (Ok tt)).
Proof.
  intros Hd Hdrawn.
  pose proof (init_heads_known _ _ _ _ _ _ _ Hd) as Hheads.
  apply init_loop in Hd as (self0 & _ & _ & Hh0 & Hi0 & Hloop).
  apply index_loop_Ok in Hloop as (_ & Hh & Hi & _ & _).
  assert (Hhid : forall k, Dataset.ex_hid d !! k
                           = head_id <$> Dataset.examples d !! k).
  { intros k. rewrite Hh, Hh0, Nat.sub_0_r. case_decide; [done|].
    rewrite lookup_empty. rewrite lookup_ge_None_2; [done|lia]. }
  assert (Hidx : forall k, Dataset.idx2example d !! k
                           = Dataset.examples d !! k).
  { intros k. rewrite Hi, Hi0, Nat.sub_0_r. case_decide; [done|].
    rewrite lookup_empty. rewrite lookup_ge_None_2; [done|lia]. }
  assert (Hm : mapM (getitem (Dataset.ex_hid d)) temp = Ok (head_id <$> drawn)).
  { apply mapM_Forall2, Forall2_fmap_r.
    eapply Forall2_impl; [exact Hdrawn|].
    intros i e He. cbn beta. unfold getitem. by rewrite Hhid, He. }
  split; [exact Hm|]. split; [apply report_io_outcome|].
  assert (Hle : (length (list_set (head_id <$> drawn)) <= length temp)%nat).
  { rewrite (Forall2_length _ _ _ Hdrawn).
    rewrite <- (length_fmap head_id drawn). unfold list_set.
    apply submseteq_length, NoDup_submseteq; [apply NoDup_remove_dups|].
    intros x. by rewrite elem_of_remove_dups. }
  rewrite (report_io_read entity_dict
             (RelationBatchSampler.init batch_size cs cake_ratio
                (Dataset.ds_info d)) temp (head_id <$> drawn) Hm).
  split; [|split; [lia|]].
  - intros H20. by rewrite bool_decide_eq_false_2 by lia.
  - intros H20 Htails. rewrite bool_decide_eq_true_2 by done.
    cbn [RelationBatchSampler.id2example RelationBatchSampler.init
         Dataset.ds_info Dataset.info_id2example].
    rewrite (io_for_Forall2 _
               (fun e => filter (fun s => s <> EmptyString) [head_id e]
                         ++ [tail_id e])
               (fun e => join " " [head_name entity_dict e; relation e;
                                   tail_name entity_dict e]) temp drawn).
    + unfold mbind, io_bind. cbn [io_outcome io_lookups io_printed print app].
      by rewrite app_nil_r.
    + assert (Hall : Forall (fun e => head_known entity_dict e /\
                                      is_Some (entity_dict (tail_id e))) drawn).
      { apply Forall_forall. intros e He. split.
        - rewrite Forall_forall in Hheads. apply Hheads.
          apply (Forall2_elem_of_r _ _ _ _ Hdrawn) in He as (i & _ & Hie).
          by eapply list_elem_of_lookup_2.
        - rewrite Forall_forall in Htails. by apply Htails. }
      clear Hle H20 Hm Htails.
      induction Hdrawn as [|i e temp drawn Hie _ IH]; [constructor|].
      apply Forall_cons in Hall as [[Hk [t Ht]] Hall].
      constructor; [|by apply IH].
      unfold getitem. rewrite Hidx, Hie.
      unfold mbind at 1, io_bind. cbn [io_result io_outcome io_lookups io_printed].
      unfold tail_name, head_name.
      rewrite (head_of_known _ _ Hk), tail_delegates, Ht.
      unfold mbind, io_bind.
      cbn [io_dir io_outcome io_lookups io_printed outcome lookups print app].
      reflexivity.
Qed.

Lemma report_of_dataset_witness :
  outcome (Dataset.init dict_all reverse_triplet_spec fs_empty
             "" "task" examples_shared) = Ok d_shared /\
  report_io dict_all
    (RelationBatchSampler.init 8 commonsense_shared float_0_15
       (Dataset.ds_info d_shared)) [0; 1]%nat = Io [] [] (Ok tt) /\
  outcome (Dataset.init dict_all reverse_triplet_spec fs_empty
             "" "task" examples_21) = Ok d_21 /\
  exists consulted printed,
    report_io dict_all
      (RelationBatchSampler.init 168 commonsense_shared float_0_15
         (Dataset.ds_info d_21)) (seq 0 21)
    = Io consulted printed (Ok tt) /\
    length consulted = 42%nat /\ length printed = 23%nat.
Proof.
  assert (Hd : outcome (Dataset.init dict_all reverse_triplet_spec fs_empty
                          "" "task" examples_shared) = Ok d_shared)
    by (vm_compute; reflexivity).
  assert (Hd21 : outcome (Dataset.init dict_all reverse_triplet_spec fs_empty
                            "" "task" examples_21) = Ok d_21)
    by (vm_compute; reflexivity).
  split; [exact Hd|]. split.
  { apply (proj1 (proj2 (proj2 (report_of_dataset dict_all reverse_triplet_spec
                                  fs_empty "" "task" examples_shared d_shared 8
                                  commonsense_shared float_0_15 [0; 1]%nat
                                  examples_shared Hd
                                  ltac:(repeat constructor))))).
    vm_compute. lia. }
  split; [exact Hd21|].
  assert (Hdrawn : Forall2 (fun i e => Dataset.examples d_21 !! i = Some e)
                           (seq 0 21) examples_21).
  { assert (He : Dataset.examples d_21 = examples_21) by (vm_compute; reflexivity).
    rewrite He. unfold examples_21.
    apply Forall2_fmap_r, Forall_Forall2_diag, Forall_forall.
    intros i Hi%elem_of_seq. rewrite list_lookup_fmap, lookup_seq_lt by lia.
    done. }
  eexists _, _. split.
  - apply (proj2 (proj2 (proj2 (proj2
             (report_of_dataset dict_all reverse_triplet_spec fs_empty
                "" "task" examples_21 d_21 168 commonsense_shared float_0_15
                (seq 0 21) examples_21 Hd21 Hdrawn))))).
    + vm_compute. lia.
    + apply Forall_forall. intros e _. by eexists.
  - split; vm_compute; reflexivity.
Defined.

(** ** The tables [ds_info] does not copy *)

Lemma of_dataset_index_tables (d : Dataset.t) :
  (Store.of_dataset d).1 !! Store.ex_hid (Store.of_dataset d).2
  = Some (Store.nat_keyed Store.VStr (Dataset.ex_hid d)) /\
  (Store.of_dataset d).1 !! Store.idx2example (Store.of_dataset d).2
  = Some (Store.nat_keyed Store.VExample (Dataset.idx2example d)).
Proof.
  unfold Store.of_dataset, Store.alloc. simpl.
  destruct (Store.alloc_dict _ _ _) as [h3 v3]. simpl.
  set (o4 := Store.ODict _).
  set (o5 := Store.nat_keyed Store.VStr _).
  set (o6 := Store.nat_keyed Store.VExample _).
  split.
  - rewrite lookup_app_l by (rewrite !length_app; simpl; lia).
    rewrite lookup_app_r by done. by rewrite Nat.sub_diag.
  - rewrite lookup_app_r by done. by rewrite Nat.sub_diag.
Qed.

Lemma dict_set_get (h : Store.heap) (l : Store.loc) entries k v :
  h !! l = Some (Store.ODict entries) ->
  Store.dict_get (Store.dict_set h l k v) l k = Some v /\
  length (Store.dict_set h l k v) = length h.
Proof.
  intros Hl. unfold Store.dict_set, Store.dict_get, Store.mutate. rewrite Hl.
  rewrite list_lookup_insert_eq by (by eapply lookup_lt_Some).
  rewrite lookup_insert_eq. by rewrite length_insert.
Qed.

(** X23. [ds_info] hands out the dataset's own [ex_hid] and [idx2example]
    dictionaries, not copies: for every constructed dataset, an item
    assigned through the returned [ex_hid] or [id2example] is read back
    through the attribute of the dataset. *)
Theorem ds_info_shares_index_tables (d : Dataset.t) :
  exists h' info,
    Store.ds_info (Store.of_dataset d).1 (Store.of_dataset d).2 = Ok (h', info) /\
    Store.info_ex_hid info = Store.ex_hid (Store.of_dataset d).2 /\
    Store.info_id2example info = Store.idx2example (Store.of_dataset d).2 /\
    forall k v,
      Store.dict_get (Store.dict_set h' (Store.info_ex_hid info) k v)
                     (Store.ex_hid (Store.of_dataset d).2) k = Some v /\
      Store.dict_get (Store.dict_set h' (Store.info_id2example info) k v)
                     (Store.idx2example (Store.of_dataset d).2) k = Some v.
Proof.
  destruct (StoreBuild.of_dataset_closed d) as [_ Ha].
  destruct (of_dataset_index_tables d) as [Hh Hi].
  destruct (StoreFacts.ds_info_appends _ _ Ha)
    as (o1 & o2 & o3 & n & _ & _ & _ & _ & Hds).
  eexists _, _. split; [exact Hds|]. cbn [Store.info_ex_hid Store.info_id2example].
  split; [done|]. split; [done|]. intros k v. split.
  - eapply dict_set_get. by apply lookup_app_l_Some.
  - eapply dict_set_get. by apply lookup_app_l_Some.
Qed.

(** * The passes of the sampler *)

Section BatchFacts.
Variable args : Args.
Variable entity_dict : string -> option EntityExample.
Variable random : nat -> nat.

Lemma slice_to_length_le {A} (l : list A) (n : Z) :
  0 <= n -> Z.of_nat (length (slice_to l n)) <= n.
Proof.
  intros Hn. unfold slice_to. rewrite (proj2 (Z.leb_le 0 n)) by lia.
  rewrite length_take. lia.
Qed.

Lemma iter_from_length_le (self : RelationBatchSampler.t) fuel n pos bs e :
  0 <= RelationBatchSampler.batch_size self ->
  RelationBatchSampler.iter_from args entity_dict random self fuel n pos = (bs, e) ->
  Forall (fun b => Z.of_nat (length b) <= RelationBatchSampler.batch_size self) bs.
Proof.
  intros HB. revert pos bs e.
  induction n as [|n IH]; intros pos bs e; cbn [RelationBatchSampler.iter_from].
  - intros [= <- _]. constructor.
  - unfold RelationBatchSampler.next_batch at 1.
    destruct (RelationBatchSampler.portions _ _ _ _ _ pos)
      as [[[cs extra] pos1]| |] eqn:Hp; [|intros [= <- _]; constructor..].
    destruct (RelationBatchSampler.iter_from _ _ _ _ _ n pos1) as [bs' e'] eqn:Hi.
    intros [= <- _]. constructor; [by apply slice_to_length_le|by eapply IH].
Qed.

(** ** What the loop accumulates *)

Lemma length_list_set_NoDup (exs l : list nat) :
  NoDup exs -> (forall i, i ∈ exs <-> i ∈ l) ->
  length (list_set l) = length exs.
Proof.
  intros Hnd Hiff. apply Permutation_length, NoDup_Permutation.
  - apply NoDup_remove_dups.
  - exact Hnd.
  - intros i. unfold list_set. rewrite elem_of_remove_dups. by rewrite Hiff.
Qed.

(** The loop keeps, for every relation it has filtered, what
    [concept_filter] returned: the accumulated indices are those of the
    results, each relation is filtered once, and the loop asks for one more
    relation only while the accumulated set is below the target. *)
Lemma cake_loop_trace (self : RelationBatchSampler.t) fuel cnt exs rels pos
    out pos' (tr0 : list (string * list nat)) :
  RelationBatchSampler.cake_loop entity_dict random self fuel cnt exs rels pos
  = Returns (out, pos') ->
  rels = tr0.*1 -> NoDup rels -> NoDup exs ->
  (forall i, i ∈ exs <-> i ∈ concat tr0.*2) ->
  exists added,
    Forall (fun rt : string * list nat =>
              rt.1 ∈ (map_to_list (RelationBatchSampler.rel_ex_cnt self)).*1 /\
              exists p p',
                RelationBatchSampler.concept_filter random self rt.1
                  (RelationBatchSampler.batch_size self / 8) p = Ok (rt.2, p'))
           added /\
    NoDup (tr0 ++ added).*1 /\
    (forall i, i ∈ out <-> i ∈ concat (tr0 ++ added).*2) /\
    (forall init last,
       added = init ++ [last] ->
       Z.of_nat (length (list_set (concat (tr0 ++ init).*2))) < cnt).
Proof.
  revert exs rels pos tr0.
  induction fuel as [|fuel IH]; intros exs rels pos tr0;
    cbn [RelationBatchSampler.cake_loop].
  - case_bool_decide; [done|]. intros [= <- _] -> Hr He Hiff.
    exists []. rewrite app_nil_r. split; [constructor|]. split; [done|].
    split; [done|]. intros init last Hnil. by destruct init.
  - case_bool_decide as Hlt.
    + destruct (weighted_choice _ _ _ pos) as [[r pos1]|] eqn:Hw; [|done].
      apply weighted_choice_Ok in Hw as [Hkey _].
      case_bool_decide as Hin; [apply IH|].
      destruct (RelationBatchSampler.concept_filter random self r _ pos1)
        as [[temp pos2]|] eqn:Hcf; [|done].
      destruct (RelationBatchSampler.report _ _ _); [|done].
      intros Hret -> Hr He Hiff.
      destruct (IH _ _ _ (tr0 ++ [(r, temp)]) Hret) as (added & Hf & Hnd & Ho & Hu).
      * by rewrite fmap_app.
      * apply NoDup_app. split; [done|]. split; [|apply NoDup_singleton].
        intros x Hx ->%list_elem_of_singleton. done.
      * apply NoDup_remove_dups.
      * intros i. rewrite elem_of_list_set, fmap_app, concat_app, !elem_of_app.
        rewrite Hiff. simpl. by rewrite app_nil_r.
      * exists ((r, temp) :: added).
        replace (tr0 ++ (r, temp) :: added) with ((tr0 ++ [(r, temp)]) ++ added)
          by (by rewrite <- app_assoc).
        split; [constructor; [split; [done|by eauto]|done]|].
        split; [done|]. split; [done|].
        intros init last Hadd. destruct init as [|rt init].
        -- rewrite app_nil_r. rewrite (length_list_set_NoDup exs); done.
        -- injection Hadd as <- Hadd.
           replace (tr0 ++ (r, temp) :: init) with ((tr0 ++ [(r, temp)]) ++ init)
             by (by rewrite <- app_assoc).
           by eapply Hu.
    + intros [= <- _] -> Hr He Hiff.
      exists []. rewrite app_nil_r. split; [constructor|]. split; [done|].
      split; [done|]. intros init last Hnil. by destruct init.
Qed.

End BatchFacts.

Section TerminationFacts.
Variable args : Args.
Variable entity_dict : string -> option EntityExample.
Variable random : nat -> nat.

Lemma list_set_nonempty (l : list nat) : l <> [] -> list_set l <> [].
Proof.
  destruct l as [|x l]; [done|]. intros _ Hnil.
  assert (Hx : x ∈ list_set (x :: l))
    by (apply elem_of_list_set, elem_of_cons; by left).
  rewrite Hnil in Hx. by apply elem_of_nil in Hx.
Qed.

(** With target 1 the first filtering ends the loop. *)
Lemma cake_loop_target_one (self : RelationBatchSampler.t) fuel pos :
  tables_ready entity_dict self ->
  1 <= RelationBatchSampler.batch_size self / 8 ->
  exists out pos',
    RelationBatchSampler.cake_loop entity_dict random self (S fuel) 1 [] [] pos
    = Returns (out, pos').
Proof.
  intros [Hne Hall] Hk. cbn [RelationBatchSampler.cake_loop].
  rewrite bool_decide_eq_true_2 by (simpl; lia).
  destruct (weighted_choice_positive random
              (map_to_list (RelationBatchSampler.rel_ex_cnt self)).*1
              (map_to_list (RelationBatchSampler.rel_ex_cnt self)).*2 pos)
    as (r & -> & Hr).
  { by rewrite !length_fmap. }
  { intros Hnil. apply Hne. by apply fmap_nil_inv in Hnil. }
  { apply Forall_fmap. eapply Forall_impl; [exact Hall|]. by intros rw [? _]. }
  rewrite bool_decide_eq_false_2 by apply not_elem_of_nil.
  apply list_elem_of_fmap in Hr as ([r' w] & -> & Hrw).
  rewrite Forall_forall in Hall.
  destruct (Hall _ Hrw) as (_ & pool & Hpool & Hpne & Hrep). cbn [fst] in *.
  rewrite (concept_filter_pool_Ok _ _ _ _ _ _ Hpool). unfold choices.
  destruct (choices_n_nonempty random pool
              (Z.to_nat (RelationBatchSampler.batch_size self / 8)) (S pos) Hpne)
    as (l & -> & Hlen & Hin).
  rewrite (Hrep l Hlen Hin).
  assert (Hl : l <> []) by (intros ->; simpl in Hlen; lia).
  apply list_set_nonempty in Hl. cbn [app].
  destruct (list_set l) as [|x xs] eqn:Hs; [done|].
  destruct fuel; cbn [RelationBatchSampler.cake_loop];
    rewrite bool_decide_eq_false_2 by (simpl; lia); eauto.
Qed.

Lemma next_batch_small_target (self : RelationBatchSampler.t) fuel pos cnt :
  RelationBatchSampler.cake_sample_cnt args = Ok cnt ->
  cnt <= 0 \/
  (cnt = 1 /\ (1 <= fuel)%nat /\
   1 <= RelationBatchSampler.batch_size self / 8 /\
   tables_ready entity_dict self) ->
  args_batch_size args - cnt <= 0 \/ (0 < RelationBatchSampler.ex_cnt self)%nat ->
  exists b pos',
    RelationBatchSampler.next_batch args entity_dict random self fuel pos
    = Returns (b, pos').
Proof.
  intros Hc Hcase Hex.
  destruct Hcase as [Hcnt|(-> & Hfuel & Hk & Hready)].
  { destruct (next_batch_no_target args entity_dict random self fuel pos cnt
                Hc Hcnt Hex) as [b Hb]. eauto. }
  unfold RelationBatchSampler.next_batch, RelationBatchSampler.portions.
  rewrite Hc. destruct fuel as [|fuel]; [lia|].
  destruct (cake_loop_target_one self fuel pos Hready Hk) as (out & pos1 & ->).
  unfold choices.
  destruct (Z.to_nat (args_batch_size args - 1)) as [|k] eqn:Hn.
  - cbn [choices_n]. unfold mret, rand_ret. eauto.
  - destruct (choices_n_nonempty random
                (seq 0 (RelationBatchSampler.ex_cnt self)) (S k) pos1)
      as (l & -> & _ & _); [|eauto].
    destruct Hex as [Hex|Hex]; [lia|].
    by destruct (RelationBatchSampler.ex_cnt self); [lia|].
Qed.

Lemma iter_from_total (self : RelationBatchSampler.t) fuel :
  (forall pos, exists b pos',
     RelationBatchSampler.next_batch args entity_dict random self fuel pos
     = Returns (b, pos')) ->
  forall n pos, exists bs,
    RelationBatchSampler.iter_from args entity_dict random self fuel n pos
    = (bs, Exhausted) /\ length bs = n.
Proof.
  intros Hnext n. induction n as [|n IH]; intros pos;
    cbn [RelationBatchSampler.iter_from].
  - by exists [].
  - destruct (Hnext pos) as (b & pos1 & ->).
    destruct (IH pos1) as (bs & -> & Hlen).
    exists (b :: bs). simpl. by rewrite Hlen.
Qed.

(** ** Generators *)

Lemma drain_S (g : generator) fuel n pos :
  drain args entity_dict random g fuel (S n) pos
  = match next args entity_dict random g fuel pos with
    | Yield b g' pos' =>
        let '(bs, e, p) := drain args entity_dict random g' fuel n pos' in
        (b :: bs, e, p)
    | StopIteration => ([], Exhausted, pos)
    | NextRaises e => ([], GenRaises e, pos)
    | NextOutOfFuel => ([], GenOutOfFuel, pos)
    end.
Proof. reflexivity. Qed.

Lemma drain_iter_from (g : generator) fuel n pos :
  (gen_turn g + n)%nat = RelationBatchSampler.length (gen_self g) ->
  (drain args entity_dict random g fuel (S n) pos).1
  = RelationBatchSampler.iter_from args entity_dict random (gen_self g) fuel n pos.
Proof.
  revert g pos. induction n as [|n IH]; intros g pos Hturn.
  - rewrite drain_S. unfold next.
    rewrite bool_decide_eq_false_2 by lia. done.
  - rewrite drain_S. cbn [RelationBatchSampler.iter_from]. unfold next.
    rewrite bool_decide_eq_true_2 by lia.
    destruct (RelationBatchSampler.next_batch _ _ _ _ _ pos)
      as [[b pos1]| |]; [|done..].
    specialize (IH {| gen_self := gen_self g; gen_turn := S (gen_turn g) |} pos1).
    cbn [gen_self gen_turn] in IH. rewrite <- IH by lia.
    by destruct (drain _ _ _ _ _ (S n) pos1) as [[bs e] p].
Qed.

Lemma pass_iter (self : RelationBatchSampler.t) fuel pos :
  (pass args entity_dict random self fuel pos).1
  = RelationBatchSampler.iter args entity_dict random self fuel pos.
Proof. unfold pass. by rewrite drain_iter_from. Qed.

Lemma next_keeps_sampler (g : generator) fuel pos b g' pos' :
  next args entity_dict random g fuel pos = Yield b g' pos' ->
  gen_self g' = gen_self g /\ gen_turn g' = S (gen_turn g).
Proof.
  unfold next. case_bool_decide; [|done].
  destruct (RelationBatchSampler.next_batch _ _ _ _ _ pos)
    as [[b1 pos1]| |]; [|done..].
  by intros [= _ <- _].
Qed.

Lemma pass_total (self : RelationBatchSampler.t) fuel :
  (forall pos, exists b pos',
     RelationBatchSampler.next_batch args entity_dict random self fuel pos
     = Returns (b, pos')) ->
  forall pos, exists bs p,
    pass args entity_dict random self fuel pos = (bs, Exhausted, p) /\
    length bs = RelationBatchSampler.len self.
Proof.
  intros Hnext pos.
  destruct (iter_from_total self fuel Hnext (RelationBatchSampler.length self) pos)
    as (bs & Hi & Hlen).
  pose proof (pass_iter self fuel pos) as Hp.
  unfold RelationBatchSampler.iter in Hp. rewrite Hi in Hp.
  destruct (pass args entity_dict random self fuel pos) as [[bs' e'] p].
  injection Hp as -> ->. by exists bs, p.
Qed.

End TerminationFacts.

(** ** A source that always returns 0 *)

Section ZeroSource.
Variable entity_dict : string -> option EntityExample.

Lemma weighted_choice_zero {A} (population : list A) weights pos :
  weighted_choice random_zero population weights pos
  = match weighted_choice random_zero population weights 0%nat with
    | Ok (r, _) => Ok (r, S pos)
    | Raise e => Raise e
    end.
Proof.
  unfold weighted_choice.
  destruct (negb _); [done|].
  destruct (last _) as [tot|]; [|done].
  destruct (tot <=? 0); [done|].
  unfold mbind, rand_bind, draw_below, random_zero.
  by destruct (population !! _).
Qed.

Lemma choice_zero {A} (population : list A) pos :
  choice random_zero population pos
  = match population !! (0 mod length population)%nat with
    | Some x => Ok (x, S pos)
    | None => Raise IndexError
    end.
Proof.
  unfold choice, mbind, rand_bind, draw_below, random_zero.
  by destruct (population !! _).
Qed.

Lemma choices_n_zero {A} (population : list A) k pos l pos' :
  choices_n random_zero population k pos = Ok (l, pos') ->
  Forall (fun y => population !! (0 mod length population)%nat = Some y) l.
Proof.
  revert pos l pos'. induction k as [|k IH]; intros pos l pos'; cbn [choices_n].
  - intros [= <- _]. constructor.
  - change (choice random_zero population ≫= ?f)
      with (rand_bind _ _ f (choice random_zero population)).
    unfold rand_bind at 1. rewrite choice_zero.
    destruct (population !! _) as [x|] eqn:Hx; [|done].
    change (choices_n random_zero population k ≫= ?f)
      with (rand_bind _ _ f (choices_n random_zero population k)).
    unfold rand_bind at 1.
    destruct (choices_n random_zero population k (S pos))
      as [[xs pos1]|] eqn:Hc; [|done].
    intros [= <- _]. constructor; [done|]. by eapply IH.
Qed.

Lemma list_set_same (l : list nat) (o : option nat) :
  Forall (fun y => o = Some y) l -> (length (list_set l) <= 1)%nat.
Proof.
  intros Hall. unfold list_set.
  destruct l as [|x l]; [simpl; lia|].
  assert (Hsub : remove_dups (x :: l) ⊆+ [x]).
  { apply NoDup_submseteq; [apply NoDup_remove_dups|].
    intros y Hy. apply (proj1 (elem_of_remove_dups _ _)) in Hy.
    rewrite Forall_forall in Hall.
    pose proof (Hall x ltac:(apply elem_of_cons; by left)) as Hx.
    pose proof (Hall y Hy) as Hy'. rewrite Hx in Hy'. injection Hy' as ->.
    apply elem_of_cons. by left. }
  by apply submseteq_length in Hsub.
Qed.

Lemma cake_loop_zero (self : RelationBatchSampler.t) fuel cnt exs rels pos :
  2 <= cnt ->
  (exs = [] /\ rels = []) \/
  ((length exs <= 1)%nat /\
   forall r p,
     weighted_choice random_zero
       (map_to_list (RelationBatchSampler.rel_ex_cnt self)).*1
       (map_to_list (RelationBatchSampler.rel_ex_cnt self)).*2 0%nat = Ok (r, p) ->
     r ∈ rels) ->
  forall res,
    RelationBatchSampler.cake_loop entity_dict random_zero self fuel cnt exs rels pos
    <> Returns res.
Proof.
  intros Hcnt. revert exs rels pos.
  induction fuel as [|fuel IH]; intros exs rels pos Hinv res;
    cbn [RelationBatchSampler.cake_loop].
  - rewrite bool_decide_eq_true_2; [done|].
    destruct Hinv as [[-> _]|[? _]]; simpl; lia.
  - rewrite bool_decide_eq_true_2
      by (destruct Hinv as [[-> _]|[? _]]; simpl; lia).
    rewrite weighted_choice_zero.
    destruct (weighted_choice random_zero _ _ 0%nat) as [[r p0]|] eqn:Hw; [|done].
    case_bool_decide as Hin; [by apply IH|].
    destruct Hinv as [[-> ->]|[_ Hr]]; [|by specialize (Hr _ _ eq_refl)].
    destruct (RelationBatchSampler.concept_filter random_zero self r _ (S pos))
      as [[temp pos2]|] eqn:Hcf; [|done].
    destruct (RelationBatchSampler.report _ _ _); [|done].
    apply IH. right. split.
    + cbn [app].
      destruct (RelationBatchSampler.candidate_pool self r) as [pool|err] eqn:Hp.
      * rewrite (concept_filter_pool_Ok _ _ _ _ _ _ Hp) in Hcf.
        apply choices_n_zero in Hcf. by eapply list_set_same.
      * by rewrite (concept_filter_pool_raises _ _ _ _ _ _ Hp) in Hcf.
    + intros r' p' [= <- _]. cbn [app]. apply elem_of_cons. by left.
Qed.

Lemma iter_zero_stuck (args : Args) (self : RelationBatchSampler.t)
    fuel pos cnt bs :
  RelationBatchSampler.cake_sample_cnt args = Ok cnt -> 2 <= cnt ->
  (0 < RelationBatchSampler.len self)%nat ->
  RelationBatchSampler.iter args entity_dict random_zero self fuel pos
  <> (bs, Exhausted).
Proof.
  intros Hc Hcnt Hlen. unfold RelationBatchSampler.iter.
  unfold RelationBatchSampler.len in Hlen.
  destruct (RelationBatchSampler.length self) as [|n]; [lia|].
  cbn [RelationBatchSampler.iter_from].
  unfold RelationBatchSampler.next_batch, RelationBatchSampler.portions.
  rewrite Hc.
  destruct (RelationBatchSampler.cake_loop entity_dict random_zero self fuel
              cnt [] [] pos) as [res| |] eqn:Hloop; [|done|done].
  exfalso. eapply cake_loop_zero; [exact Hcnt| |exact Hloop]. by left.
Qed.

End ZeroSource.

(** C2 (as the code has it). The list a turn yields is
    [sampled_exs[:self.batch_size]], while the sizes of the two portions
    come from [args.batch_size]: every yielded list has length exactly
    [batch_size] when the batch size given to the constructor does not
    exceed the configured one (in particular when it is the configured
    one), and never more than [batch_size] elements otherwise. *)
Theorem yielded_batches_have_batch_size (args : Args)
    (entity_dict : string -> option EntityExample) (random : nat -> nat)
    (self : RelationBatchSampler.t) (fuel pos : nat)
    (bs : list (list nat)) (e : gen_end) :
  RelationBatchSampler.iter args entity_dict random self fuel pos = (bs, e) ->
  (0 <= RelationBatchSampler.batch_size self <= args_batch_size args ->
   Forall (fun b => Z.of_nat (length b) = RelationBatchSampler.batch_size self)
          bs) /\
  (0 <= RelationBatchSampler.batch_size self ->
   Forall (fun b => Z.of_nat (length b) <= RelationBatchSampler.batch_size self)
          bs).
Proof.
  intros Hi. split; intros HB.
  - by eapply iter_from_lengths.
  - by eapply iter_from_length_le.
Qed.

Lemma yielded_batches_have_batch_size_witness :
  exists b,
    RelationBatchSampler.iter args_8 dict_all random_id sampler_8 5 0
    = ([b], Exhausted) /\
    Forall (fun b => Z.of_nat (length b) = RelationBatchSampler.batch_size sampler_8)
           [b].
Proof.
  eexists.
  assert (Hi : RelationBatchSampler.iter args_8 dict_all random_id sampler_8 5 0
               = ([[1; 0; 1; 0; 1; 0; 1; 0]%nat], Exhausted))
    by (vm_compute; reflexivity).
  split; [exact Hi|].
  apply (proj1 (yielded_batches_have_batch_size args_8 dict_all random_id
                  sampler_8 5 0 _ Exhausted Hi)).
  simpl. lia.
Defined.

(** C2, as stated, fails: a sampler constructed with [batch_size = 16] and
    iterated under [args.batch_size = 8] completes its pass and yields a
    list of 8 indices, the target [int(8 * 0.15) = 1] and the random
    portion [8 - 1] being computed from [args.batch_size]. *)
Lemma batch_size_above_configured_yields_less :
  RelationBatchSampler.batch_size sampler_16_8 = 16 /\
  args_batch_size args_8 = 8 /\
  exists b,
    RelationBatchSampler.iter args_8 dict_all random_id sampler_16_8 5 0
    = ([b], Exhausted) /\
    length b = 8%nat.
Proof.
  split; [reflexivity|]. split; [reflexivity|].
  eexists. split; [vm_compute; reflexivity|]. reflexivity.
Qed.

Lemma sampler_8_tables_ready : tables_ready dict_all sampler_8.
Proof.
  unfold tables_ready.
  assert (Hm : map_to_list (RelationBatchSampler.rel_ex_cnt sampler_8)
               = [("r"%string, 2)]) by (vm_compute; reflexivity).
  rewrite Hm. split; [done|]. constructor; [|constructor].
  split; [simpl; lia|]. exists [1%nat].
  split; [vm_compute; reflexivity|]. split; [done|].
  intros temp Hlen Hall.
  change (Z.to_nat (RelationBatchSampler.batch_size sampler_8 / 8)) with 1%nat
    in Hlen.
  destruct temp as [|x [|y temp]]; try done.
  apply Forall_cons in Hall as [Hx _].
  apply list_elem_of_singleton in Hx as ->.
  vm_compute. reflexivity.
Qed.






